(** * mistral-ocr: the OCR result normaliser, the image extractor and the
      credential guard of [ocr_pdf.py] and [main.py]

    The Python functions are embedded shallowly.  Python values are a small
    universe of the dynamic types the code can tell apart (objects with
    attributes, mappings, lists, strings, integers, [None]); the pure routine
    [extract_markdown_from_result] becomes a function into an [outcome]
    (a value or a raised exception); [save_images_from_ocr] and [ocr_pdf],
    which talk to the file system, the console and the OCR client, run in a
    small state-and-error monad over the history of their external calls. *)

From Stdlib Require Import String Ascii List ZArith Lia Bool DecimalString.
Import ListNotations.
Open Scope string_scope.

(* ================================================================== *)
(** ** Python strings *)
(* ================================================================== *)

Module PyStr.

(** The line feed character and the two-line-feed string [\n\n]. *)
Definition lf : ascii := ascii_of_nat 10.
Definition nl2 : string := String lf (String lf "").

(** [pat in s] on strings: [pat] occurs in [s] as a contiguous substring. *)
Fixpoint contains (pat s : string) : bool :=
  prefix pat s ||
  match s with
  | "" => false
  | String _ r => contains pat r
  end.

(** [c] is one of the characters of [s]. *)
Fixpoint has_char (c : ascii) (s : string) : bool :=
  match s with
  | "" => false
  | String d r => Ascii.eqb c d || has_char c r
  end.

(** [str.replace] scanning left to right; [skip] counts the characters of a
    match just replaced that are still to be passed over. *)
Fixpoint replace_from (old new s : string) (skip : nat) : string :=
  match s with
  | "" => ""
  | String c r =>
      match skip with
      | S k => replace_from old new r k
      | O =>
          if prefix old s
          then new ++ replace_from old new r (String.length old - 1)
          else String c (replace_from old new r 0)
      end
  end.

(** With an empty [old], Python puts [new] before every character and at
    the end. *)
Fixpoint intersperse (new s : string) : string :=
  match s with
  | "" => ""
  | String c r => String c (new ++ intersperse new r)
  end.

(** [s.replace(old, new)]: every non-overlapping occurrence, leftmost first. *)
Definition replace (old new s : string) : string :=
  match old with
  | "" => new ++ intersperse new s
  | _ => replace_from old new s 0
  end.

(** Decimal rendering of a natural number, as [f"{n}"] prints an [int]. *)
Definition str_of_nat (n : nat) : string :=
  NilEmpty.string_of_uint (Nat.to_uint n).

(** [sep.join(parts)]. *)
Definition join (sep : string) (parts : list string) : string :=
  String.concat sep parts.

(** The characters of a string, each as a one-character string (what
    iterating over a [str] yields). *)
Fixpoint chars (s : string) : list string :=
  match s with
  | "" => []
  | String c r => String c "" :: chars r
  end.

End PyStr.
Import PyStr.

(* ================================================================== *)
(** ** Python values and exceptions *)
(* ================================================================== *)

(** The dynamic values the code distinguishes.  A mapping keeps its entries
    in insertion order (keys are strings and are taken to be distinct); an
    object is its instance attributes. *)
#[warnings="-register-all"]
Inductive value : Type :=
| VNone
| VBool (b : bool)
| VInt (z : Z)
| VStr (s : string)
| VList (items : list value)
| VDict (entries : list (string * value))
| VObj (attrs : list (string * value)).

Inductive exn : Type :=
| AttributeError (name : string)
| TypeError
| KeyError (key : string)
| ValueError (msg : string)
| ExternalError (tag : string).

Inductive outcome (A : Type) : Type :=
| Ret (a : A)
| Raise (e : exn).
Arguments Ret {A} a.
Arguments Raise {A} e.

Definition bind {A B : Type} (m : outcome A) (k : A -> outcome B) : outcome B :=
  match m with
  | Ret a => k a
  | Raise e => Raise e
  end.

Declare Scope py_scope.
Delimit Scope py_scope with py.
Notation "'let*' x ':=' m 'in' k" := (bind m (fun x => k))
  (at level 10, x name, m at level 100, k at level 200) : py_scope.
Open Scope py_scope.

(** First entry of an association list under a key. *)
Fixpoint assoc (k : string) (kvs : list (string * value)) : option value :=
  match kvs with
  | [] => None
  | (k', v) :: rest => if String.eqb k k' then Some v else assoc k rest
  end.

(** [getattr(v, name)] for the attribute names the program reads ([pages],
    [markdown], [images], [id], [image_base64], [url]): none of them is an
    attribute of a built-in type, so only objects carry them. *)
Definition getattr (v : value) (name : string) : option value :=
  match v with
  | VObj attrs => assoc name attrs
  | _ => None
  end.

Definition hasattr (v : value) (name : string) : bool :=
  match getattr v name with
  | Some _ => true
  | None => false
  end.

(** [v.name], raising [AttributeError] when the attribute is missing. *)
Definition attr (v : value) (name : string) : outcome value :=
  match getattr v name with
  | Some x => Ret x
  | None => Raise (AttributeError name)
  end.

(** Truth value of a Python value in a condition. *)
Definition truthy (v : value) : bool :=
  match v with
  | VNone => false
  | VBool b => b
  | VInt z => negb (Z.eqb z 0)
  | VStr s => negb (String.eqb s "")
  | VList items => match items with [] => false | _ => true end
  | VDict entries => match entries with [] => false | _ => true end
  | VObj _ => true
  end.

(** The items a [for] loop (or [enumerate]) draws from a value. *)
Definition py_iter (v : value) : outcome (list value) :=
  match v with
  | VList items => Ret items
  | VStr s => Ret (map VStr (chars s))
  | VDict entries => Ret (map (fun kv => VStr (fst kv)) entries)
  | _ => Raise TypeError
  end.

(** [key in v] for a string [key]. *)
Definition py_in (key : string) (v : value) : outcome bool :=
  match v with
  | VDict entries =>
      Ret (match assoc key entries with Some _ => true | None => false end)
  | VStr s => Ret (contains key s)
  | VList items =>
      Ret (existsb (fun x => match x with
                             | VStr s => String.eqb s key
                             | _ => false
                             end) items)
  | _ => Raise TypeError
  end.

(** [v[key]] for a string [key]. *)
Definition py_getitem (v : value) (key : string) : outcome value :=
  match v with
  | VDict entries =>
      match assoc key entries with
      | Some x => Ret x
      | None => Raise (KeyError key)
      end
  | _ => Raise TypeError
  end.

(** [s += v] for a string [s]: only a string can be appended. *)
Definition str_iadd (s : string) (v : value) : outcome string :=
  match v with
  | VStr t => Ret (s ++ t)
  | _ => Raise TypeError
  end.

(** Python built-ins whose results the program uses without defining them. *)
Class Builtins : Type := {
  (** [format(v)] of a list, a mapping or an object (its [repr]) *)
  repr_compound : value -> string;
  (** [base64.b64decode(v)]: the decoded bytes, or the error it raises *)
  b64decode : value -> outcome string
}.

(** [f"{v}"]: a string is inserted as it is, [None], booleans and integers
    in their usual spelling. *)
Definition format_value `{Builtins} (v : value) : string :=
  match v with
  | VStr s => s
  | VNone => "None"
  | VBool true => "True"
  | VBool false => "False"
  | VInt z => NilEmpty.string_of_int (Z.to_int z)
  | _ => repr_compound v
  end.

(* ================================================================== *)
(** ** [extract_markdown_from_result] (ocr_pdf.py, lines 92-165) *)
(* ================================================================== *)

(** [f"## Page {page_num}\n\n"] with [page_num = i + 1]. *)
Definition header (i : nat) : string :=
  "## Page " ++ str_of_nat (i + 1) ++ nl2.

(** The page separator ["\n\n---\n\n"]. *)
Definition separator : string := nl2 ++ "---" ++ nl2.

(** Lines 112-115 and 158-161: append [page.markdown], or [page["markdown"]]
    when the page is a mapping that has the key. *)
Definition add_markdown (page : value) (page_content : string) : outcome string :=
  match getattr page "markdown" with
  | Some m => str_iadd page_content m
  | None =>
      match page with
      | VDict entries =>
          match assoc "markdown" entries with
          | Some m => str_iadd page_content m
          | None => Ret page_content
          end
      | _ => Ret page_content
      end
  end.

(** Lines 149-150: [if "markdown" in page: page_content += page["markdown"]]. *)
Definition add_markdown_key (page : value) (page_content : string) : outcome string :=
  let* present := py_in "markdown" page in
  if present
  then let* m := py_getitem page "markdown" in str_iadd page_content m
  else Ret page_content.

(** Line 122 and the link text of lines 127, 132, 139. *)
Definition image_link (images_dir : option string) (sid : string) : string :=
  let img_path :=
    match images_dir with
    | Some d => if String.eqb d "" then sid else d ++ "/" ++ sid
    | None => sid
    end in
  "![Image " ++ sid ++ "](" ++ img_path ++ ")".

(** The three placeholder spellings looked for (lines 125, 130, 136). *)
Definition bang_token (sid : string) : string := "!" ++ sid ++ "!".
Definition self_link (sid : string) : string := "![" ++ sid ++ "](" ++ sid ++ ")".
Definition index_placeholder (i : nat) : string :=
  "![img-" ++ str_of_nat i ++ ".jpeg](img-" ++ str_of_nat i ++ ".jpeg)".

(** [if old in s: s = s.replace(old, new)]. *)
Definition substitute (old new s : string) : string :=
  if contains old s then replace old new s else s.

(** Lines 120-140: one image of the page. *)
Definition link_image `{Builtins} (i : nat) (images_dir : option string)
    (page_content : string) (img : value) : string :=
  match getattr img "id" with
  | None => page_content
  | Some id =>
      let sid := format_value id in
      let link := image_link images_dir sid in
      let page_content := substitute (bang_token sid) link page_content in
      let page_content := substitute (self_link sid) link page_content in
      substitute (index_placeholder i) link page_content
  end.

(** Lines 118-140: the image loop of a page. *)
Definition link_images `{Builtins} (include_images : bool)
    (images_dir : option string) (i : nat) (page : value)
    (page_content : string) : outcome string :=
  if include_images && hasattr page "images" then
    let* imgs := attr page "images" in
    if truthy imgs then
      let* items := py_iter imgs in
      Ret (fold_left (link_image i images_dir) items page_content)
    else Ret page_content
  else Ret page_content.

(** The body of the loop of lines 109-142 (attribute-bearing result). *)
Definition attr_section `{Builtins} (include_images : bool)
    (images_dir : option string) (i : nat) (page : value) : outcome string :=
  let* page_content := add_markdown page (header i) in
  link_images include_images images_dir i page page_content.

(** The body of the loop of lines 146-151 (mapping result). *)
Definition mapping_section (i : nat) (page : value) : outcome string :=
  add_markdown_key page (header i).

(** The body of the loop of lines 155-162 (list result). *)
Definition list_section (i : nat) (page : value) : outcome string :=
  add_markdown page (header i).

(** [for i, page in enumerate(pages): ...; pages_content.append(page_content)],
    entered with the counter at [i]. *)
Fixpoint enumerate_pages (body : nat -> value -> outcome string) (i : nat)
    (pages : list value) (pages_content : list string) : outcome (list string) :=
  match pages with
  | [] => Ret pages_content
  | page :: rest =>
      let* page_content := body i page in
      enumerate_pages body (S i) rest (pages_content ++ [page_content])
  end.

(** Lines 104-162: the list [pages_content] the three branches build. *)
Definition collect_pages `{Builtins} (result : value) (include_images : bool)
    (images_dir : option string) : outcome (list string) :=
  if hasattr result "pages" then
    let* pages := attr result "pages" in
    let* items := py_iter pages in
    enumerate_pages (attr_section include_images images_dir) 0 items []
  else
    match result with
    | VDict entries =>
        match assoc "pages" entries with
        | Some pages =>
            let* items := py_iter pages in
            enumerate_pages mapping_section 0 items []
        | None => Ret []
        end
    | VList items => enumerate_pages list_section 0 items []
    | _ => Ret []
    end.

Definition extract_markdown_from_result `{Builtins} (result : value)
    (include_images : bool) (images_dir : option string) : outcome string :=
  let* pages_content := collect_pages result include_images images_dir in
  Ret (nl2 ++ join separator pages_content).

(* ================================================================== *)
(** ** Documents and their three wire shapes (spec, section 3) *)
(* ================================================================== *)

Record ImageRef : Type := {
  image_id : string;
  base64_data : option string
}.

Record Page : Type := {
  page_markdown : string;
  page_images : list ImageRef
}.

Definition Document : Type := list Page.

(** A page (and its images) arrives either as an object with attributes or
    as a mapping with the same names as keys. *)
Inductive page_form : Type := AsObject | AsMapping.

Definition pack (f : page_form) (fields : list (string * value)) : value :=
  match f with
  | AsObject => VObj fields
  | AsMapping => VDict fields
  end.

Definition encode_image (f : page_form) (r : ImageRef) : value :=
  pack f [("id", VStr (image_id r));
          ("image_base64", match base64_data r with
                           | Some d => VStr d
                           | None => VNone
                           end)].

Definition encode_page (f : page_form) (p : Page) : value :=
  pack f [("markdown", VStr (page_markdown p));
          ("images", VList (map (encode_image f) (page_images p)))].

(** The result shapes: an object exposing [pages], a mapping with the key
    ["pages"] (whose pages are mappings), or the bare list of pages. *)
Inductive shape : Type :=
| AttrShape (f : page_form)
| MappingShape
| ListShape (f : page_form).

Definition encode (s : shape) (doc : Document) : value :=
  match s with
  | AttrShape f => VObj [("pages", VList (map (encode_page f) doc))]
  | MappingShape => VDict [("pages", VList (map (encode_page AsMapping) doc))]
  | ListShape f => VList (map (encode_page f) doc)
  end.

(** Indexed map, the index starting at [i]. *)
Fixpoint mapi_from {A B : Type} (g : nat -> A -> B) (i : nat) (l : list A) : list B :=
  match l with
  | [] => []
  | x :: rest => g i x :: mapi_from g (S i) rest
  end.

(** What the three substitutions of one image do to a text. *)
Definition link_ref (images_dir : option string) (i : nat) (text : string)
    (r : ImageRef) : string :=
  let link := image_link images_dir (image_id r) in
  substitute (index_placeholder i) link
    (substitute (self_link (image_id r)) link
       (substitute (bang_token (image_id r)) link text)).

(** The text of page [i] as it is expected in the output: rewritten image
    by image when the result is attribute-bearing down to its pages and
    images are asked for, the page's markdown otherwise. *)
Definition rendered_text (s : shape) (include_images : bool)
    (images_dir : option string) (i : nat) (p : Page) : string :=
  match s with
  | AttrShape AsObject =>
      if include_images
      then fold_left (link_ref images_dir i) (page_images p) (page_markdown p)
      else page_markdown p
  | _ => page_markdown p
  end.

(** The expected sections: header [i + 1], then the text of page [i]. *)
Definition rendered_sections (s : shape) (include_images : bool)
    (images_dir : option string) (doc : Document) : list string :=
  mapi_from (fun i p => header i ++ rendered_text s include_images images_dir i p)
            0 doc.

(** The document with every page's text taken as it is. *)
Definition plain_sections (doc : Document) : list string :=
  mapi_from (fun i p => header i ++ page_markdown p) 0 doc.

Definition plain_markdown (doc : Document) : string :=
  nl2 ++ join separator (plain_sections doc).



(** The loop of [enumerate_pages] as a plain traversal: the sections of the
    pages in order, or the first exception. *)
Fixpoint sections_from (body : nat -> value -> outcome string) (i : nat)
    (pages : list value) : outcome (list string) :=
  match pages with
  | [] => Ret []
  | page :: rest =>
      let* sec := body i page in
      let* secs := sections_from body (S i) rest in
      Ret (sec :: secs)
  end.

(** The result is a mapping with the key ["pages"], or a list. *)
Definition mapping_or_list (result : value) : bool :=
  match result with
  | VDict entries =>
      match assoc "pages" entries with Some _ => true | None => false end
  | VList _ => true
  | _ => false
  end.

(** The result is of none of the three shapes the routine looks for. *)
Definition unrecognized (result : value) : bool :=
  negb (hasattr result "pages")
  && match result with
     | VDict entries =>
         match assoc "pages" entries with Some _ => false | None => true end
     | VList _ => false
     | _ => true
     end.

(** The page sequence the routine walks, by shape. *)
Definition input_pages (result : value) : option (list value) :=
  let of_seq pages :=
    match py_iter pages with Ret items => Some items | Raise _ => None end in
  match getattr result "pages" with
  | Some pages => of_seq pages
  | None =>
      match result with
      | VDict entries =>
          match assoc "pages" entries with
          | Some pages => of_seq pages
          | None => None
          end
      | VList items => Some items
      | _ => None
      end
  end.

(** The loop body the routine runs on a page of [result]. *)
Definition section_of `{Builtins} (result : value) (include_images : bool)
    (images_dir : option string) : nat -> value -> outcome string :=
  if hasattr result "pages" then attr_section include_images images_dir
  else match result with
       | VDict _ => mapping_section
       | _ => list_section
       end.

(* ================================================================== *)
(** ** [os.path] helpers *)
(* ================================================================== *)

Module OsPath.

Fixpoint basename_acc (p acc : string) : string :=
  match p with
  | "" => acc
  | String c r =>
      if Ascii.eqb c "/" then basename_acc r ""
      else basename_acc r (acc ++ String c "")
  end.

(** [os.path.basename(p)]: what follows the last slash. *)
Definition basename (p : string) : string := basename_acc p "".

(** Index of the last occurrence of [c] ([str.rfind]). *)
Fixpoint rindex (c : ascii) (s : string) : option nat :=
  match s with
  | "" => None
  | String d r =>
      match rindex c r with
      | Some k => Some (S k)
      | None => if Ascii.eqb c d then Some 0 else None
      end
  end.

Fixpoint all_char (c : ascii) (s : string) : bool :=
  match s with
  | "" => true
  | String d r => Ascii.eqb c d && all_char c r
  end.

(** [os.path.splitext(p)[0]]: [p] without its extension; leading dots of the
    file name start no extension. *)
Definition splitext_root (p : string) : string :=
  match rindex "." p with
  | None => p
  | Some dot =>
      let start := match rindex "/" p with Some sep => S sep | None => 0 end in
      if Nat.leb start dot then
        if all_char "." (substring start (dot - start) p) then p
        else substring 0 dot p
      else p
  end.

End OsPath.

(* ================================================================== *)
(** ** External calls: console, file system, OCR client *)
(* ================================================================== *)

(** What the program prints. *)
Inductive message : Type :=
| MsgProcessing (pdf_path : string)
| MsgUploading
| MsgRunning
| MsgCompleted
| MsgSavedImage (dir name : string)
| MsgSavedCount (n : nat) (dir : string)
| MsgNoImages.

(** The calls that leave the program.  A file under [Path(dir) / name] is
    named by the pair. *)
Inductive call : Type :=
| Print (m : message)
| Mkdir (dir : string)
| OpenWrite (dir name : string)
| WriteBytes (dir name data : string)
| CloseWrite (dir name : string)
| NewClient (api_key : string)
| OpenRead (path : string)
| CloseRead (path : string)
| Upload (client : value) (file_name : string) (content : value)
| GetSignedUrl (client file_id : value)
| Clock  (* time.time(): the readings only feed the elapsed time of a message *)
| OcrProcess (client : value) (model : string) (document_url : value).

(** A call with the answer it got. *)
Definition event : Type := call * outcome value.

(** The world outside: the answer (a value or an exception) to a call, given
    everything that happened before. *)
Class Environment : Type := {
  respond : list event -> call -> outcome value
}.

(** Computations that perform external calls: the history of calls so far is
    threaded through, an exception ends the computation. *)
Definition M (A : Type) : Type := list event -> outcome A * list event.

Definition ret {A : Type} (a : A) : M A := fun h => (Ret a, h).

Definition raise {A : Type} (e : exn) : M A := fun h => (Raise e, h).

Definition lift {A : Type} (o : outcome A) : M A := fun h => (o, h).

Definition mbind {A B : Type} (m : M A) (k : A -> M B) : M B :=
  fun h =>
    match m h with
    | (Ret a, h') => k a h'
    | (Raise e, h') => (Raise e, h')
    end.

Notation "'do' x <- m ; k" := (mbind m (fun x => k))
  (at level 10, x name, m at level 100, k at level 200) : py_scope.

Definition perform `{Environment} (c : call) : M value :=
  fun h => let r := respond h c in (r, (h ++ [(c, r)])%list).

(** [with ... :] / [finally]: [cleanup] runs whether or not [m] raised. *)
Definition finally {A : Type} (m : M A) (cleanup : M value) : M A :=
  fun h =>
    match m h with
    | (r, h') =>
        match cleanup h' with
        | (Ret _, h'') => (r, h'')
        | (Raise e, h'') => (Raise e, h'')
        end
    end.

(** A [for] loop threading a local variable. *)
Fixpoint for_each {S X : Type} (body : S -> X -> M S) (items : list X) (s : S) : M S :=
  match items with
  | [] => ret s
  | x :: rest => do s' <- body s x; for_each body rest s'
  end.

(** [hasattr(v, name) and v.name]: the attribute when present and truthy. *)
Definition truthy_attr (v : value) (name : string) : option value :=
  match getattr v name with
  | Some x => if truthy x then Some x else None
  | None => None
  end.

(* ================================================================== *)
(** ** [save_images_from_ocr] (ocr_pdf.py, lines 68-89) *)
(* ================================================================== *)

(** Lines 79-84: one image. *)
Definition save_image `{Builtins} `{Environment} (output_dir : string)
    (image_count : nat) (img : value) : M nat :=
  match truthy_attr img "image_base64" with
  | Some payload =>
      let image_count := image_count + 1 in
      do id <- lift (attr img "id");
      let name := format_value id in
      do _ <- perform (OpenWrite output_dir name);
      do _ <- finally
                (do data <- lift (b64decode payload);
                 perform (WriteBytes output_dir name data))
                (perform (CloseWrite output_dir name));
      do _ <- perform (Print (MsgSavedImage output_dir name));
      ret image_count
  | None => ret image_count
  end.

(** Lines 77-84: the images of one page. *)
Definition save_page_images `{Builtins} `{Environment} (output_dir : string)
    (image_count : nat) (page : value) : M nat :=
  match truthy_attr page "images" with
  | Some imgs =>
      do items <- lift (py_iter imgs);
      for_each (save_image output_dir) items image_count
  | None => ret image_count
  end.

(** The function has no [return]: its value is [None]. *)
Definition save_images_from_ocr `{Builtins} `{Environment}
    (ocr_response : value) (output_dir : string) : M value :=
  do _ <- perform (Mkdir output_dir);
  let image_count := 0 in
  do pages <- lift (attr ocr_response "pages");
  do items <- lift (py_iter pages);
  do image_count <- for_each (save_page_images output_dir) items image_count;
  do _ <- perform (Print (if Nat.ltb 0 image_count
                          then MsgSavedCount image_count output_dir
                          else MsgNoImages));
  ret VNone.

(* ================================================================== *)
(** ** [ocr_pdf] (ocr_pdf.py, lines 15-65, and main.py, lines 9-27) *)
(* ================================================================== *)

(** Lines 29-30: the error of a missing credential. *)
Definition configuration_error : exn :=
  ValueError "MISTRAL_API_KEY environment variable not set.".

(** [os.environ.get("MISTRAL_API_KEY")] when it is truthy. *)
Definition credential (environ : string -> option string) : option string :=
  match environ "MISTRAL_API_KEY" with
  | Some key => if String.eqb key "" then None else Some key
  | None => None
  end.

(** Lines 58-61: the directory the images go to. *)
Definition images_directory (pdf_path : string) (output_dir : option string) : string :=
  let default := OsPath.splitext_root (OsPath.basename pdf_path) ++ "_images" in
  match output_dir with
  | Some d => if String.eqb d "" then default else d
  | None => default
  end.

Definition ocr_pdf `{Builtins} `{Environment} (environ : string -> option string)
    (pdf_path : string) (save_images : bool) (output_dir : option string) : M value :=
  match credential environ with
  | None => raise configuration_error
  | Some api_key =>
      do _ <- perform (Print (MsgProcessing pdf_path));
      do client <- perform (NewClient api_key);
      do _ <- perform (Print MsgUploading);
      do f <- perform (OpenRead pdf_path);
      do uploaded_pdf <- finally
                           (perform (Upload client (OsPath.basename pdf_path) f))
                           (perform (CloseRead pdf_path));
      do file_id <- lift (attr uploaded_pdf "id");
      do signed_url <- perform (GetSignedUrl client file_id);
      do _ <- perform (Print MsgRunning);
      do _ <- perform Clock;
      do url <- lift (attr signed_url "url");
      do ocr_response <- perform (OcrProcess client "mistral-ocr-latest" url);
      do _ <- perform Clock;
      do _ <- perform (Print MsgCompleted);
      do _ <- (if save_images && hasattr ocr_response "pages"
               then save_images_from_ocr ocr_response
                      (images_directory pdf_path output_dir)
               else ret VNone);
      ret ocr_response
  end.

Module MainPy.

(** main.py, lines 9-27. *)
Definition ocr_pdf `{Environment} (environ : string -> option string)
    (pdf_path : string) : M value :=
  match credential environ with
  | None => raise configuration_error
  | Some api_key =>
      do client <- perform (NewClient api_key);
      do f <- perform (OpenRead pdf_path);
      do uploaded_pdf <- finally
                           (perform (Upload client (OsPath.basename pdf_path) f))
                           (perform (CloseRead pdf_path));
      do file_id <- lift (attr uploaded_pdf "id");
      do signed_url <- perform (GetSignedUrl client file_id);
      do url <- lift (attr signed_url "url");
      perform (OcrProcess client "mistral-ocr-latest" url)
  end.

End MainPy.

(** The calls of a history that touch an image file. *)
Definition is_file_write (e : event) : bool :=
  match fst e with
  | OpenWrite _ _ | WriteBytes _ _ _ => true
  | _ => false
  end.

(** The bytes written, file by file, in order. *)
Fixpoint written (h : list event) : list (string * string * string) :=
  match h with
  | [] => []
  | (WriteBytes dir name data, Ret _) :: rest => (dir, name, data) :: written rest
  | _ :: rest => written rest
  end.

(** The last message printed. *)
Definition last_message (h : list event) : option message :=
  match rev h with
  | (Print m, _) :: _ => Some m
  | _ => None
  end.

(* ================================================================== *)
(** ** Vocabulary of the statements about the effectful functions *)
(* ================================================================== *)

(** A computation only ever adds to the history of calls. *)
Definition extending {A : Type} (m : M A) : Prop :=
  forall h : list event, exists evs : list event, snd (m h) = (h ++ evs)%list.

(** A computation never ends with the exception [e]. *)
Definition avoids {A : Type} (e : exn) (m : M A) : Prop :=
  forall h : list event, fst (m h) <> Raise e.

(** Neither the outside world nor the base-64 decoder raises [e]. *)
Definition foreign `{Builtins} `{Environment} (e : exn) : Prop :=
  (forall (h : list event) (c : call), respond h c <> Raise e) /\
  (forall v : value, b64decode v <> Raise e).

(** Every external call succeeds. *)
Definition cooperative `{Environment} : Prop :=
  forall (h : list event) (c : call), exists v : value, respond h c = Ret v.

(** The image carries non-empty base-64 data (line 79). *)
Definition has_payload (img : value) : bool :=
  match truthy_attr img "image_base64" with
  | Some _ => true
  | None => false
  end.

Definition page_has_payload (page : value) : bool :=
  match truthy_attr page "images" with
  | Some imgs =>
      match py_iter imgs with
      | Ret items => existsb has_payload items
      | Raise _ => false
      end
  | None => false
  end.

(** Some page of the result has an image with non-empty base-64 data. *)
Definition carries_image_data (result : value) : bool :=
  match getattr result "pages" with
  | Some pages =>
      match py_iter pages with
      | Ret items => existsb page_has_payload items
      | Raise _ => false
      end
  | None => false
  end.

(** [m], entered with the counter at [n], only adds to the history, returns
    the counter advanced by the number of files it wrote, and calls nothing
    when [flag] is off. *)
Definition counts_writes (flag : bool) (n : nat) (m : M nat) : Prop :=
  forall h : list event,
    exists (r : outcome nat) (evs : list event),
      m h = (r, (h ++ evs)%list) /\
      (forall n', r = Ret n' -> n' = n + length (written evs)) /\
      (flag = false -> evs = []).

(** [m], entered with the counter at [n], returns after writing exactly
    [files]. *)
Definition writes_exactly (files : list (string * string * string)) (n : nat)
    (m : M nat) : Prop :=
  forall h : list event,
    exists evs : list event,
      m h = (Ret (n + length files), (h ++ evs)%list) /\ written evs = files.

(** The message that reports a count of saved images (lines 86-89). *)
Definition count_message (n : nat) (output_dir : string) : message :=
  if Nat.ltb 0 n then MsgSavedCount n output_dir else MsgNoImages.

(** The files the images of a document are expected to end up in: one per
    image with non-empty data, named by the image id, holding the decoded
    data. *)
Definition image_files `{Builtins} (output_dir : string) (r : ImageRef)
  : list (string * string * string) :=
  match base64_data r with
  | Some d =>
      if String.eqb d "" then []
      else match b64decode (VStr d) with
           | Ret data => [(output_dir, image_id r, data)]
           | Raise _ => []
           end
  | None => []
  end.

Definition document_files `{Builtins} (output_dir : string) (doc : Document)
  : list (string * string * string) :=
  flat_map (fun p => flat_map (image_files output_dir) (page_images p)) doc.

(** Every non-empty payload of the document is base-64 text that decodes. *)
Definition decodable `{Builtins} (doc : Document) : Prop :=
  forall (p : Page) (r : ImageRef) (d : string),
    In p doc -> In r (page_images p) -> base64_data r = Some d -> d <> "" ->
    exists data, b64decode (VStr d) = Ret data.

(* ================================================================== *)
(** ** An instance of the built-ins and of the outside world *)
(* ================================================================== *)

Module Base64.

(** The value of a character of the base-64 alphabet. *)
Definition digit (c : ascii) : option N :=
  let n := N_of_ascii c in
  if (N.leb 65 n && N.leb n 90)%bool then Some (n - 65)%N
  else if (N.leb 97 n && N.leb n 122)%bool then Some (n - 71)%N
  else if (N.leb 48 n && N.leb n 57)%bool then Some (n + 4)%N
  else if N.eqb n 43 then Some 62%N
  else if N.eqb n 47 then Some 63%N
  else None.

Definition byte (n : N) : ascii := ascii_of_N (n mod 256).

(** Canonical base-64 text: groups of four alphabet characters, the last one
    padded with [=].  Python's decoder is more lenient (it skips characters
    outside the alphabet); text in another form is refused here. *)
Fixpoint decode (s : string) : option string :=
  match s with
  | "" => Some ""
  | String a (String b (String c (String d rest))) =>
      match digit a, digit b with
      | Some x, Some y =>
          let b1 := byte (x * 4 + y / 16) in
          match digit c with
          | Some z =>
              let b2 := byte ((y mod 16) * 16 + z / 4) in
              match digit d with
              | Some w =>
                  let b3 := byte ((z mod 4) * 64 + w) in
                  match decode rest with
                  | Some t => Some (String b1 (String b2 (String b3 t)))
                  | None => None
                  end
              | None =>
                  if (Ascii.eqb d "=" && String.eqb rest "")%bool
                  then Some (String b1 (String b2 ""))
                  else None
              end
          | None =>
              if (Ascii.eqb c "=" && Ascii.eqb d "=" && String.eqb rest "")%bool
              then Some (String b1 "")
              else None
          end
      | _, _ => None
      end
  | _ => None
  end.

End Base64.

(** Built-ins to run the model with: compound values print as a fixed tag,
    base-64 text is decoded when canonical. *)
Definition sample_builtins : Builtins := {|
  repr_compound := fun _ => "<object>";
  b64decode := fun v =>
    match v with
    | VStr s =>
        match Base64.decode s with
        | Some data => Ret data
        | None => Raise (ExternalError "binascii.Error")
        end
    | _ => Raise TypeError
    end
|}.

(** A world in which every call succeeds: the client, the upload and the
    signed URL are objects with the attributes read from them, and the OCR
    answers with [response]. *)
Definition obliging (response : value) : Environment := {|
  respond := fun _ c =>
    match c with
    | Upload _ _ _ => Ret (VObj [("id", VStr "file-1")])
    | GetSignedUrl _ _ => Ret (VObj [("url", VStr "https://files.example/file-1")])
    | OcrProcess _ _ _ => Ret response
    | _ => Ret VNone
    end
|}.

(* ================================================================== *)
(** ** The script's own [extract_markdown_from_result] (main.py, lines 35-52) *)
(* ================================================================== *)

Module MainPyScript.

(** A list comprehension [[f(x) for x in items]]: the results in order, or
    the first exception. *)
Fixpoint comprehension {A B : Type} (f : A -> outcome B) (items : list A)
  : outcome (list B) :=
  match items with
  | [] => Ret []
  | x :: rest =>
      let* y := f x in
      let* ys := comprehension f rest in
      Ret (y :: ys)
  end.

(** [page.get("markdown", "")]: a mapping answers with the entry or the
    default; any other value has no method [get] (an object that carries an
    attribute of that name holds data, which cannot be called). *)
Definition get_markdown (page : value) : outcome value :=
  match page with
  | VDict entries =>
      match assoc "markdown" entries with
      | Some m => Ret m
      | None => Ret (VStr "")
      end
  | _ =>
      match getattr page "get" with
      | Some _ => Raise TypeError
      | None => Raise (AttributeError "get")
      end
  end.

(** Lines 43-44: [getattr(page, "markdown", "") if hasattr(page, "markdown")
    else page.get("markdown", "")]. *)
Definition markdown_or_get (page : value) : outcome value :=
  match getattr page "markdown" with
  | Some m => Ret m
  | None => get_markdown page
  end.

(** The items of [sep.join(items)] have to be strings. *)
Fixpoint strings_of (items : list value) : outcome (list string) :=
  match items with
  | [] => Ret []
  | VStr s :: rest => let* ss := strings_of rest in Ret (s :: ss)
  | _ :: _ => Raise TypeError
  end.

(** [sep.join(items)]. *)
Definition py_join (sep : string) (items : list value) : outcome string :=
  let* parts := strings_of items in
  Ret (join sep parts).

Definition extract_markdown_from_result `{Builtins} (result : value)
  : outcome string :=
  match result with
  | VDict entries =>
      match assoc "pages" entries with
      | Some pages =>
          let* items := py_iter pages in
          let* texts := comprehension get_markdown items in
          py_join separator texts
      | None => Ret (format_value result)
      end
  | VList items =>
      let* texts := comprehension markdown_or_get items in
      py_join separator texts
  | VStr s => Ret s
  | _ => Ret (format_value result)
  end.

End MainPyScript.

(* ================================================================== *)
(** ** [obj_to_dict] and the JSON payload (ocr_pdf.py, lines 209-224) *)
(* ================================================================== *)

(** [k.startswith('_')]. *)
Definition is_private (k : string) : bool :=
  match k with
  | String c _ => Ascii.eqb c "_"
  | "" => false
  end.

(** Lines 211-220.  An object is turned into the mapping of its public
    attributes, a list and a mapping are converted item by item, anything
    else is returned as it is. *)
Fixpoint obj_to_dict (obj : value) : value :=
  match obj with
  | VObj attrs =>
      VDict ((fix fields (l : list (string * value)) : list (string * value) :=
                match l with
                | [] => []
                | (k, v) :: rest =>
                    if is_private k then fields rest
                    else (k, obj_to_dict v) :: fields rest
                end) attrs)
  | VList items => VList (map obj_to_dict items)
  | VDict entries =>
      VDict ((fix fields (l : list (string * value)) : list (string * value) :=
                match l with
                | [] => []
                | (k, v) :: rest => (k, obj_to_dict v) :: fields rest
                end) entries)
  | _ => obj
  end.

(** [hasattr(v, '__dict__')]: of the values modelled, only objects. *)
Definition has_dict (v : value) : bool :=
  match v with
  | VObj _ => true
  | _ => false
  end.

(** Lines 209-224: what is handed to [json.dump]. *)
Definition result_dict (result : value) : value :=
  if has_dict result then obj_to_dict result else result.

(** No object occurs in the value, at any depth. *)
Fixpoint object_free (v : value) : bool :=
  match v with
  | VObj _ => false
  | VList items => forallb object_free items
  | VDict entries =>
      (fix all (l : list (string * value)) : bool :=
         match l with
         | [] => true
         | (_, x) :: rest => object_free x && all rest
         end) entries
  | _ => true
  end.

(** Induction on values that reaches inside lists, mappings and objects. *)
Section ValueInduction.

Variable P : value -> Prop.
Hypothesis P_none : P VNone.
Hypothesis P_bool : forall b, P (VBool b).
Hypothesis P_int : forall z, P (VInt z).
Hypothesis P_str : forall s, P (VStr s).
Hypothesis P_list : forall items, Forall P items -> P (VList items).
Hypothesis P_dict :
  forall entries, Forall (fun kv => P (snd kv)) entries -> P (VDict entries).
Hypothesis P_obj :
  forall attrs, Forall (fun kv => P (snd kv)) attrs -> P (VObj attrs).

Fixpoint value_nested_ind (v : value) : P v :=
  match v with
  | VNone => P_none
  | VBool b => P_bool b
  | VInt z => P_int z
  | VStr s => P_str s
  | VList items =>
      P_list items
        ((fix each (l : list value) : Forall P l :=
            match l with
            | [] => Forall_nil P
            | x :: rest => Forall_cons x (value_nested_ind x) (each rest)
            end) items)
  | VDict entries =>
      P_dict entries
        ((fix each (l : list (string * value)) : Forall (fun kv => P (snd kv)) l :=
            match l with
            | [] => Forall_nil _
            | kv :: rest => Forall_cons kv (value_nested_ind (snd kv)) (each rest)
            end) entries)
  | VObj attrs =>
      P_obj attrs
        ((fix each (l : list (string * value)) : Forall (fun kv => P (snd kv)) l :=
            match l with
            | [] => Forall_nil _
            | kv :: rest => Forall_cons kv (value_nested_ind (snd kv)) (each rest)
            end) attrs)
  end.

End ValueInduction.


(** The entries of the mapping an object or a mapping is converted to. *)
Definition converted_entries (v : value) : list (string * value) :=
  match obj_to_dict v with
  | VDict entries => entries
  | _ => []
  end.

(* ================================================================== *)
(** ** Vocabulary of the further statements *)
(* ================================================================== *)

(** What a computation adds to the history always satisfies [Q]. *)
Definition keeps {A : Type} (Q : list event -> Prop) (m : M A) : Prop :=
  forall h : list event,
    exists evs : list event, snd (m h) = (h ++ evs)%list /\ Q evs.

(** The call creates a directory or opens, writes or closes a file opened
    for writing. *)
Definition writes_to_disk (e : event) : bool :=
  match fst e with
  | Mkdir _ | OpenWrite _ _ | WriteBytes _ _ _ | CloseWrite _ _ => true
  | _ => false
  end.

(** Every directory created is [dir], and the path of every file opened,
    written or closed for writing is built from [dir]: it is
    [Path(dir) / name] for the [name] of the call.  Nothing is said of
    [name]: one that is absolute, or climbs with [..], leads out of [dir]. *)
Definition paths_start_at (dir : string) (evs : list event) : Prop :=
  Forall (fun e => match fst e with
                   | Mkdir d | OpenWrite d _ | WriteBytes d _ _ | CloseWrite d _ =>
                       d = dir
                   | _ => True
                   end) evs.

(** An open file: the PDF being read, or an image being written. *)
Inductive handle : Type :=
| ReadHandle (path : string)
| WriteHandle (dir name : string).

Definition handle_eqb (a b : handle) : bool :=
  match a, b with
  | ReadHandle p, ReadHandle q => String.eqb p q
  | WriteHandle d n, WriteHandle d' n' => String.eqb d d' && String.eqb n n'
  | _, _ => false
  end.

Fixpoint release (x : handle) (open : list handle) : list handle :=
  match open with
  | [] => []
  | y :: rest => if handle_eqb x y then rest else y :: release x rest
  end.

(** The files open after an event: a successful [open] adds one, leaving
    the [with] block takes it away. *)
Definition track (open : list handle) (e : event) : list handle :=
  match e with
  | (OpenRead p, Ret _) => ReadHandle p :: open
  | (OpenWrite d n, Ret _) => WriteHandle d n :: open
  | (CloseRead p, _) => release (ReadHandle p) open
  | (CloseWrite d n, _) => release (WriteHandle d n) open
  | _ => open
  end.

Definition open_after (evs : list event) (open : list handle) : list handle :=
  fold_left track evs open.

(** A stretch of history that leaves the set of open files as it found it. *)
Definition balanced (evs : list event) : Prop :=
  forall open : list handle, open_after evs open = open.


(* ================================================================== *)
(** ** The command line: [process_and_save_results] and [main]
       (ocr_pdf.py, lines 168-260) *)
(* ================================================================== *)

Module Cli.

(** [os.path.join(a, b)]. *)
Definition path_join (a b : string) : string :=
  match b with
  | String "/" _ => b
  | _ =>
      if String.eqb a "" || OsPath.all_char "/" (substring (String.length a - 1) 1 a)
      then a ++ b
      else a ++ "/" ++ b
  end.

(** What these two functions print. *)
Inductive report : Type :=
| MarkdownWritten (path : string)
| JsonWritten (path : string)
| Completed (output_dir : string)
| Failed (e : exn).

(** Their calls to the outside: those of [ocr_pdf] and
    [save_images_from_ocr], and their own. *)
Inductive action : Type :=
| Core (c : call)
| MakeDirs (dir : string)                  (* os.makedirs(dir, exist_ok=True) *)
| OpenText (path : string)                 (* open(path, "w", encoding="utf-8") *)
| WriteText (path content : string)        (* f.write(content) *)
| DumpJson (path : string) (data : value)  (* json.dump(data, f, indent=2, ...) *)
| CloseText (path : string)
| Report (m : report).

Definition step : Type := action * outcome value.

(** The world outside, as for [Environment]. *)
Class Shell : Type := {
  answer : list step -> action -> outcome value
}.

Definition P (A : Type) : Type := list step -> outcome A * list step.

Definition pret {A : Type} (a : A) : P A := fun hs => (Ret a, hs).

Definition plift {A : Type} (o : outcome A) : P A := fun hs => (o, hs).

Definition pbind {A B : Type} (m : P A) (k : A -> P B) : P B :=
  fun hs =>
    match m hs with
    | (Ret a, hs') => k a hs'
    | (Raise e, hs') => (Raise e, hs')
    end.

Notation "'run' x <- m ; k" := (pbind m (fun x => k))
  (at level 10, x name, m at level 100, k at level 200) : py_scope.

Definition act `{Shell} (a : action) : P value :=
  fun hs => let r := answer hs a in (r, (hs ++ [(a, r)])%list).

Definition pfinally {A : Type} (m : P A) (cleanup : P value) : P A :=
  fun hs =>
    match m hs with
    | (r, hs') =>
        match cleanup hs' with
        | (Ret _, hs'') => (r, hs'')
        | (Raise e, hs'') => (Raise e, hs'')
        end
    end.

(** The classes of Python and its standard library that derive from
    [BaseException] without deriving from [Exception]. *)
Definition outside_exception : list string :=
  ["KeyboardInterrupt"; "SystemExit"; "GeneratorExit"; "BaseExceptionGroup";
   "asyncio.CancelledError"].

(** [isinstance(e, Exception)].  The errors the program's own operations
    raise are all exceptions of that kind; an exception of the outside is
    one unless its class is among [outside_exception] (as when the user
    interrupts a call, or a call exits the interpreter). *)
Definition is_exception (e : exn) : bool :=
  match e with
  | ExternalError tag => negb (existsb (String.eqb tag) outside_exception)
  | _ => true
  end.

(** [try: m  except Exception as e: handler(e)]: an exception that is not an
    [Exception] is not handled and goes on to the caller. *)
Definition try_except {A : Type} (m : P A) (handler : exn -> P A) : P A :=
  fun hs =>
    match m hs with
    | (Ret a, hs') => (Ret a, hs')
    | (Raise e, hs') =>
        if is_exception e then handler e hs' else (Raise e, hs')
    end.

Definition core_step (e : event) : step := (Core (fst e), snd e).

(** The world a called function sees: its calls are answered by the shell,
    after everything that happened so far. *)
Definition inner_world `{Shell} (hs : list step) : Environment := {|
  respond := fun h c => answer (hs ++ map core_step h)%list (Core c)
|}.

(** Runs a function of the core; its calls join the history. *)
Definition embed `{Shell} {A : Type} (m : Environment -> M A) : P A :=
  fun hs =>
    match m (inner_world hs) [] with
    | (r, evs) => (r, (hs ++ map core_step evs)%list)
    end.

(** [output_format in [...]]. *)
Definition format_in (output_format : string) (accepted : list string) : bool :=
  existsb (String.eqb output_format) accepted.

(** Lines 178-179: the directory of the results. *)
Definition results_directory (pdf_path : string) : string :=
  OsPath.splitext_root (OsPath.basename pdf_path) ++ "_ocr_results".

Definition process_and_save_results `{Builtins} `{Shell}
    (environ : string -> option string) (pdf_path : string)
    (save_images : bool) (output_format : string) : P string :=
  let pdf_name := OsPath.splitext_root (OsPath.basename pdf_path) in
  let output_dir := pdf_name ++ "_ocr_results" in
  let images_dir :=
    if save_images then Some (path_join output_dir "images") else None in
  run _ <- act (MakeDirs output_dir);
  run _ <- (if save_images
            then act (MakeDirs (path_join output_dir "images"))
            else pret VNone);
  run result <- embed (fun E => @ocr_pdf _ E environ pdf_path save_images images_dir);
  run _ <- (if format_in output_format ["markdown"; "md"; "both"] then
              let output_md := path_join output_dir (pdf_name ++ ".md") in
              run markdown_content <-
                plift (extract_markdown_from_result result save_images
                         (if save_images then Some "./images" else None));
              run _ <- act (OpenText output_md);
              run _ <- pfinally (act (WriteText output_md markdown_content))
                                (act (CloseText output_md));
              act (Report (MarkdownWritten output_md))
            else pret VNone);
  run _ <- (if format_in output_format ["json"; "both"] then
              let output_json := path_join output_dir (pdf_name ++ "_raw.json") in
              run _ <- act (OpenText output_json);
              run _ <- pfinally (act (DumpJson output_json (result_dict result)))
                                (act (CloseText output_json));
              act (Report (JsonWritten output_json))
            else pret VNone);
  pret output_dir.

(** The values [--output-format] accepts (line 244). *)
Inductive format_choice : Type := ChoiceMarkdown | ChoiceJson | ChoiceBoth.

Definition choice_text (c : format_choice) : string :=
  match c with
  | ChoiceMarkdown => "markdown"
  | ChoiceJson => "json"
  | ChoiceBoth => "both"
  end.

(** Lines 249-259, once the arguments are parsed. *)
Definition main `{Builtins} `{Shell} (environ : string -> option string)
    (pdf_path : string) (save_images : bool) (output_format : format_choice)
  : P value :=
  run _ <- try_except
             (run output_dir <- process_and_save_results environ pdf_path
                                  save_images (choice_text output_format);
              act (Report (Completed output_dir)))
             (fun e => act (Report (Failed e)));
  pret VNone.

(** The shell in which every call succeeds, the OCR answering [response]. *)
Definition obliging_shell (response : value) : Shell := {|
  answer := fun _ a =>
    match a with
    | Core c => @respond (obliging response) [] c
    | _ => Ret VNone
    end
|}.

(** A shell in which the OCR call is interrupted from the keyboard, every
    other call succeeding. *)
Definition interrupted_shell : Shell := {|
  answer := fun _ a =>
    match a with
    | Core (OcrProcess _ _ _) => Raise (ExternalError "KeyboardInterrupt")
    | Core c => @respond (obliging VNone) [] c
    | _ => Ret VNone
    end
|}.

(** The step is a [makedirs]. *)
Definition is_makedirs (s : step) : bool :=
  match fst s with
  | MakeDirs _ => true
  | _ => false
  end.

(** The step opens, writes or closes a result file, or reports one. *)
Definition touches_results (s : step) : bool :=
  match fst s with
  | OpenText _ | WriteText _ _ | DumpJson _ _ | CloseText _
  | Report (MarkdownWritten _) | Report (JsonWritten _) => true
  | _ => false
  end.

Definition returned (s : step) : bool :=
  match snd s with
  | Ret _ => true
  | Raise _ => false
  end.

(** The last thing reported. *)
Definition last_report (hs : list step) : option report :=
  match rev hs with
  | (Report m, _) :: _ => Some m
  | _ => None
  end.

(** Lines 182-186, from the history [hs] on: [os.makedirs] for the results
    directory [d] and, that call having returned and images being asked
    for, for its [images] subdirectory. *)
Definition made_directories `{Shell} (save_images : bool) (d : string)
    (hs : list step) : list step :=
  let first := (MakeDirs d, answer hs (MakeDirs d)) in
  match snd first with
  | Ret _ =>
      first
      :: (if save_images
          then [(MakeDirs (path_join d "images"),
                 answer (hs ++ [first])%list (MakeDirs (path_join d "images")))]
          else [])
  | Raise _ => [first]
  end.

(** The exception of the first step that raised. *)
Fixpoint first_failure (hs : list step) : option exn :=
  match hs with
  | [] => None
  | (_, Raise e) :: _ => Some e
  | (_, Ret _) :: rest => first_failure rest
  end.

(** The bytes the core functions wrote, file by file, in order. *)
Fixpoint images_written (hs : list step) : list (string * string * string) :=
  match hs with
  | [] => []
  | (Core (WriteBytes dir name data), Ret _) :: rest =>
      (dir, name, data) :: images_written rest
  | _ :: rest => images_written rest
  end.

End Cli.


(** A [for] loop cannot draw items from the value. *)
Definition not_iterable (v : value) : bool :=
  match v with
  | VList _ | VStr _ | VDict _ => false
  | _ => true
  end.

(** An OCR answer with one page that holds the token of its one image. *)
Definition sample_response : value :=
  encode (AttrShape AsObject)
    [ {| page_markdown := "!img1!";
         page_images := [ {| image_id := "img1"; base64_data := Some "aGk=" |} ] |} ].


(** None of the three placeholders of an image of page [i] occurs in the
    page's markdown (a page without images has no placeholder). *)
Definition page_patterns_absent (i : nat) (p : Page) : bool :=
  forallb (fun r =>
             negb (contains (bang_token (image_id r)) (page_markdown p))
             && negb (contains (self_link (image_id r)) (page_markdown p))
             && negb (contains (index_placeholder i) (page_markdown p)))
          (page_images p).

Fixpoint patterns_absent_from (i : nat) (doc : Document) : bool :=
  match doc with
  | [] => true
  | p :: rest => page_patterns_absent i p && patterns_absent_from (S i) rest
  end.


(** The file an image of the answer ends up in when [save_images_from_ocr]
    gets through: none unless the image carries non-empty base-64 data that
    decodes; otherwise the file of the directory whose name is the image's
    [id], formatted as it is, holding the decoded data. *)
Definition image_file `{Builtins} (output_dir : string) (img : value)
  : list (string * string * string) :=
  match truthy_attr img "image_base64" with
  | Some payload =>
      match getattr img "id", b64decode payload with
      | Some id, Ret data => [(output_dir, format_value id, data)]
      | _, _ => []
      end
  | None => []
  end.

Definition page_files `{Builtins} (output_dir : string) (page : value)
  : list (string * string * string) :=
  match truthy_attr page "images" with
  | Some imgs =>
      match py_iter imgs with
      | Ret items => flat_map (image_file output_dir) items
      | Raise _ => []
      end
  | None => []
  end.

Definition response_files `{Builtins} (output_dir : string) (response : value)
  : list (string * string * string) :=
  match getattr response "pages" with
  | Some pages =>
      match py_iter pages with
      | Ret items => flat_map (page_files output_dir) items
      | Raise _ => []
      end
  | None => []
  end.

(** When [m] returns, it has written exactly [files]. *)
Definition saves {A : Type} (files : list (string * string * string)) (m : M A)
  : Prop :=
  forall (h h' : list event) (a : A),
    m h = (Ret a, h') ->
    exists evs : list event, h' = (h ++ evs)%list /\ written evs = files.

(** [None], a boolean or an integer. *)
Definition is_scalar (v : value) : bool :=
  match v with
  | VNone | VBool _ | VInt _ => true
  | _ => false
  end.



(* ================================================================== *)
(** ** [obj_to_dict] on values that include tuples *)
(* ================================================================== *)

Module Wide.

(** The values of before, and tuples.  A tuple is no list, no mapping and
    has no [__dict__] (as a set, or an instance of a class with
    [__slots__]): it falls to the last branch of [obj_to_dict]. *)
#[warnings="-register-all"]
Inductive tvalue : Type :=
| TNone
| TBool (b : bool)
| TInt (z : Z)
| TStr (s : string)
| TList (items : list tvalue)
| TTuple (items : list tvalue)
| TDict (entries : list (string * tvalue))
| TObj (attrs : list (string * tvalue)).

(** A value without tuples, among the wider ones. *)
Fixpoint widen (v : value) : tvalue :=
  match v with
  | VNone => TNone
  | VBool b => TBool b
  | VInt z => TInt z
  | VStr s => TStr s
  | VList items => TList (map widen items)
  | VDict entries =>
      TDict ((fix each (l : list (string * value)) : list (string * tvalue) :=
                match l with
                | [] => []
                | (k, x) :: rest => (k, widen x) :: each rest
                end) entries)
  | VObj attrs =>
      TObj ((fix each (l : list (string * value)) : list (string * tvalue) :=
               match l with
               | [] => []
               | (k, x) :: rest => (k, widen x) :: each rest
               end) attrs)
  end.

(** Lines 211-220. *)
Fixpoint obj_to_dict (obj : tvalue) : tvalue :=
  match obj with
  | TObj attrs =>
      TDict ((fix fields (l : list (string * tvalue)) : list (string * tvalue) :=
                match l with
                | [] => []
                | (k, v) :: rest =>
                    if is_private k then fields rest
                    else (k, obj_to_dict v) :: fields rest
                end) attrs)
  | TList items => TList (map obj_to_dict items)
  | TDict entries =>
      TDict ((fix fields (l : list (string * tvalue)) : list (string * tvalue) :=
                match l with
                | [] => []
                | (k, v) :: rest => (k, obj_to_dict v) :: fields rest
                end) entries)
  | _ => obj
  end.

(** [hasattr(v, '__dict__')]. *)
Definition has_dict (v : tvalue) : bool :=
  match v with
  | TObj _ => true
  | _ => false
  end.

(** Lines 209-224: what is handed to [json.dump]. *)
Definition result_dict (result : tvalue) : tvalue :=
  if has_dict result then obj_to_dict result else result.

(** No object occurs in the value, at any depth. *)
Fixpoint object_free (v : tvalue) : bool :=
  match v with
  | TObj _ => false
  | TList items => forallb object_free items
  | TTuple items => forallb object_free items
  | TDict entries =>
      (fix all (l : list (string * tvalue)) : bool :=
         match l with
         | [] => true
         | (_, x) :: rest => object_free x && all rest
         end) entries
  | _ => true
  end.

(** No object sits inside a tuple that is reached from the value through
    list items, mapping entries and public attributes. *)
Fixpoint tuples_object_free (v : tvalue) : bool :=
  match v with
  | TTuple items => forallb object_free items
  | TList items => forallb tuples_object_free items
  | TDict entries =>
      (fix all (l : list (string * tvalue)) : bool :=
         match l with
         | [] => true
         | (_, x) :: rest => tuples_object_free x && all rest
         end) entries
  | TObj attrs =>
      (fix all (l : list (string * tvalue)) : bool :=
         match l with
         | [] => true
         | (k, x) :: rest => (is_private k || tuples_object_free x) && all rest
         end) attrs
  | _ => true
  end.

(** Induction on the wider values that reaches inside the containers. *)
Section Induction.

Variable P : tvalue -> Prop.
Hypothesis P_none : P TNone.
Hypothesis P_bool : forall b, P (TBool b).
Hypothesis P_int : forall z, P (TInt z).
Hypothesis P_str : forall s, P (TStr s).
Hypothesis P_list : forall items, Forall P items -> P (TList items).
Hypothesis P_tuple : forall items, Forall P items -> P (TTuple items).
Hypothesis P_dict :
  forall entries, Forall (fun kv => P (snd kv)) entries -> P (TDict entries).
Hypothesis P_obj :
  forall attrs, Forall (fun kv => P (snd kv)) attrs -> P (TObj attrs).

Fixpoint tvalue_nested_ind (v : tvalue) : P v :=
  match v with
  | TNone => P_none
  | TBool b => P_bool b
  | TInt z => P_int z
  | TStr s => P_str s
  | TList items =>
      P_list items
        ((fix each (l : list tvalue) : Forall P l :=
            match l with
            | [] => Forall_nil P
            | x :: rest => Forall_cons x (tvalue_nested_ind x) (each rest)
            end) items)
  | TTuple items =>
      P_tuple items
        ((fix each (l : list tvalue) : Forall P l :=
            match l with
            | [] => Forall_nil P
            | x :: rest => Forall_cons x (tvalue_nested_ind x) (each rest)
            end) items)
  | TDict entries =>
      P_dict entries
        ((fix each (l : list (string * tvalue)) : Forall (fun kv => P (snd kv)) l :=
            match l with
            | [] => Forall_nil _
            | kv :: rest => Forall_cons kv (tvalue_nested_ind (snd kv)) (each rest)
            end) entries)
  | TObj attrs =>
      P_obj attrs
        ((fix each (l : list (string * tvalue)) : Forall (fun kv => P (snd kv)) l :=
            match l with
            | [] => Forall_nil _
            | kv :: rest => Forall_cons kv (tvalue_nested_ind (snd kv)) (each rest)
            end) attrs)
  end.

End Induction.

(** A response object with one page whose [dimensions] are a tuple holding
    an object. *)
Definition tuple_response : tvalue :=
  TObj [("pages",
         TList [TObj [("index", TInt 0);
                      ("dimensions",
                       TTuple [TObj [("width", TInt 612)]; TInt 792])]])].

End Wide.


(* ================================================================== *)
(** * Properties *)
(* ================================================================== *)

(** ** Strings *)


Lemma append_empty_r (a : string) : a ++ "" = a.
Proof.
  induction a as [|x a IH]; simpl; [reflexivity|now rewrite IH].
Qed.

Lemma prefix_append (p b : string) : prefix p (p ++ b) = true.
Proof.
  induction p as [|x p IH]; simpl.
  - now destruct b.
  - destruct (ascii_dec x x) as [_|N]; [exact IH|now elim N].
Qed.

Lemma prefix_split (p s : string) :
  prefix p s = true -> exists b, s = p ++ b.
Proof.
  revert s; induction p as [|x p IH]; intros s H.
  - now exists s.
  - destruct s as [|y s]; simpl in H; [discriminate|].
    destruct (ascii_dec x y) as [->|_]; [|discriminate].
    destruct (IH _ H) as [b ->]. now exists b.
Qed.

(** [contains] is substring occurrence. *)
Lemma contains_occurs (pat s : string) :
  contains pat s = true <-> exists a b, s = a ++ pat ++ b.
Proof.
  split.
  - induction s as [|c s IH]; cbn [contains]; intros H.
    + rewrite orb_false_r in H. destruct (prefix_split _ _ H) as [b Hb].
      now exists "", b.
    + apply orb_true_iff in H as [H|H].
      * destruct (prefix_split _ _ H) as [b Hb]. now exists "", b.
      * destruct (IH H) as (a & b & ->). now exists (String c a), b.
  - intros (a & b & ->). induction a as [|c a IH].
    + change ("" ++ pat ++ b) with (pat ++ b).
      destruct (pat ++ b) eqn:E; cbn [contains];
        rewrite <- E, prefix_append; reflexivity.
    + change (String c a ++ pat ++ b) with (String c (a ++ pat ++ b)).
      cbn [contains]. rewrite IH. apply orb_true_r.
Qed.


(** An occurrence of a pattern cannot start in a prefix that lacks the
    pattern's first character. *)
Lemma contains_past (c : ascii) (p s1 s2 : string) :
  has_char c s1 = false ->
  contains (String c p) (s1 ++ s2) = contains (String c p) s2.
Proof.
  induction s1 as [|d s1 IH]; simpl; intros H; [reflexivity|].
  apply orb_false_iff in H as [Hd Hs].
  destruct (ascii_dec c d) as [->|_].
  - now rewrite Ascii.eqb_refl in Hd.
  - simpl. now apply IH.
Qed.

Lemma replace_from_past (c : ascii) (p new s1 s2 : string) :
  has_char c s1 = false ->
  replace_from (String c p) new (s1 ++ s2) 0
  = s1 ++ replace_from (String c p) new s2 0.
Proof.
  induction s1 as [|d s1 IH]; simpl; intros H; [reflexivity|].
  apply orb_false_iff in H as [Hd Hs].
  destruct (ascii_dec c d) as [->|_].
  - now rewrite Ascii.eqb_refl in Hd.
  - now rewrite IH.
Qed.

(** Substituting a pattern leaves alone a prefix without the pattern's first
    character. *)
Lemma substitute_past (c : ascii) (p new s1 s2 : string) :
  has_char c s1 = false ->
  substitute (String c p) new (s1 ++ s2)
  = s1 ++ substitute (String c p) new s2.
Proof.
  intros H. unfold substitute. rewrite (contains_past _ _ _ _ H).
  destruct (contains (String c p) s2); [|reflexivity].
  unfold replace. now apply replace_from_past.
Qed.

Lemma substitute_absent (old new s : string) :
  contains old s = false -> substitute old new s = s.
Proof.
  intros H. unfold substitute. now rewrite H.
Qed.

Lemma has_char_append (c : ascii) (a b : string) :
  has_char c (a ++ b) = has_char c a || has_char c b.
Proof.
  induction a as [|x a IH]; simpl; [reflexivity|].
  now rewrite IH, orb_assoc.
Qed.

Lemma digits_no_bang (d : Decimal.uint) :
  has_char "!" (NilEmpty.string_of_uint d) = false.
Proof.
  induction d; simpl; auto.
Qed.

(** The page header holds no exclamation mark. *)
Lemma header_no_bang (i : nat) : has_char "!" (header i) = false.
Proof.
  unfold header, str_of_nat.
  rewrite !has_char_append, digits_no_bang. reflexivity.
Qed.

(** ** The page loop *)

Lemma app_cons_assoc {A : Type} (acc : list A) (x : A) (l : list A) :
  ((acc ++ [x]) ++ l = acc ++ x :: l)%list.
Proof.
  now rewrite <- app_assoc.
Qed.

(** The accumulating loop is the in-order traversal appended to what was
    collected before. *)
Lemma enumerate_pages_sections (body : nat -> value -> outcome string)
    (pages : list value) :
  forall (i : nat) (acc : list string),
    enumerate_pages body i pages acc
    = let* secs := sections_from body i pages in Ret (acc ++ secs)%list.
Proof.
  induction pages as [|page rest IH]; intros i acc; simpl.
  - now rewrite app_nil_r.
  - destruct (body i page) as [sec|e]; simpl; [|reflexivity].
    rewrite IH. destruct (sections_from body (S i) rest) as [secs|e]; simpl;
      [now rewrite app_cons_assoc|reflexivity].
Qed.

(** A traversal that succeeds yields one section per page, section [i]
    being the body run on page [i]. *)
Lemma sections_from_nth (body : nat -> value -> outcome string)
    (pages : list value) :
  forall (i : nat) (secs : list string),
    sections_from body i pages = Ret secs ->
    length secs = length pages /\
    forall (k : nat) (page : value),
      nth_error pages k = Some page ->
      exists sec, nth_error secs k = Some sec /\ body (i + k) page = Ret sec.
Proof.
  induction pages as [|page rest IH]; intros i secs H; simpl in H.
  - injection H as <-. split; [reflexivity|]. intros [|k] page Hk; discriminate.
  - destruct (body i page) as [sec|e] eqn:Hb; simpl in H; [|discriminate].
    destruct (sections_from body (S i) rest) as [secs'|e] eqn:Hs; simpl in H;
      [|discriminate].
    injection H as <-. destruct (IH _ _ Hs) as [Hlen Hnth].
    split; [simpl; now rewrite Hlen|].
    intros [|k] pg Hk; simpl in Hk.
    + injection Hk as <-. exists sec. now rewrite Nat.add_0_r.
    + destruct (Hnth _ _ Hk) as (s & Hs1 & Hs2). exists s.
      split; [exact Hs1|]. now rewrite Nat.add_succ_r.
Qed.

(** When the body succeeds on every encoded page, the traversal is the
    indexed map of its results. *)
Lemma sections_from_map (body : nat -> value -> outcome string)
    (f : Page -> value) (g : nat -> Page -> string) :
  (forall i p, body i (f p) = Ret (g i p)) ->
  forall (doc : Document) (i : nat),
    sections_from body i (map f doc) = Ret (mapi_from g i doc).
Proof.
  intros Hbody doc. induction doc as [|p rest IH]; intros i; simpl.
  - reflexivity.
  - now rewrite Hbody, IH.
Qed.

Lemma mapi_from_ext {A B : Type} (g g' : nat -> A -> B) (l : list A) :
  forall i : nat,
    (forall k x, nth_error l k = Some x -> g (i + k) x = g' (i + k) x) ->
    mapi_from g i l = mapi_from g' i l.
Proof.
  induction l as [|x rest IH]; intros i H; simpl; [reflexivity|].
  f_equal.
  - specialize (H 0 x eq_refl). now rewrite Nat.add_0_r in H.
  - apply IH. intros k y Hk. specialize (H (S k) y Hk).
    now rewrite Nat.add_succ_r in H.
Qed.

Lemma mapi_from_length {A B : Type} (g : nat -> A -> B) (l : list A) :
  forall i : nat, length (mapi_from g i l) = length l.
Proof.
  induction l as [|x rest IH]; intros i; simpl; [reflexivity|now rewrite IH].
Qed.

Lemma mapi_from_nth {A B : Type} (g : nat -> A -> B) (l : list A) :
  forall (i k : nat) (x : A),
    nth_error l k = Some x ->
    nth_error (mapi_from g i l) k = Some (g (i + k) x).
Proof.
  induction l as [|y rest IH]; intros i [|k] x H; simpl in *; try discriminate.
  - injection H as ->. now rewrite Nat.add_0_r.
  - rewrite (IH (S i) k x H). now rewrite Nat.add_succ_r.
Qed.

(** ** Sections of encoded pages *)

(** The image loop rewrites behind the header, never inside it. *)
Lemma link_image_encoded `{Builtins} (i : nat) (images_dir : option string)
    (text : string) (r : ImageRef) :
  link_image i images_dir (header i ++ text) (encode_image AsObject r)
  = header i ++ link_ref images_dir i text r.
Proof.
  generalize (header_no_bang i). generalize (header i). intros hdr Hhdr.
  unfold link_image, link_ref, encode_image; simpl.
  unfold bang_token, self_link, index_placeholder; simpl.
  now rewrite !(substitute_past _ _ _ _ _ Hhdr).
Qed.

Lemma link_images_fold `{Builtins} (i : nat) (images_dir : option string)
    (refs : list ImageRef) :
  forall text : string,
    fold_left (link_image i images_dir) (map (encode_image AsObject) refs)
              (header i ++ text)
    = header i ++ fold_left (link_ref images_dir i) refs text.
Proof.
  induction refs as [|r rest IH]; intros text; cbn [fold_left map];
    [reflexivity|].
  now rewrite link_image_encoded, IH.
Qed.

Lemma attr_section_object `{Builtins} (include_images : bool)
    (images_dir : option string) (i : nat) (p : Page) :
  attr_section include_images images_dir i (encode_page AsObject p)
  = Ret (header i ++ rendered_text (AttrShape AsObject) include_images images_dir i p).
Proof.
  unfold attr_section, link_images, encode_page, rendered_text.
  cbn [pack add_markdown getattr assoc String.eqb Ascii.eqb Bool.eqb
       str_iadd bind hasattr attr andb].
  destruct include_images; cbn [andb]; [|reflexivity].
  destruct (page_images p) as [|r rest] eqn:E; [reflexivity|].
  cbn [map truthy py_iter bind].
  now rewrite <- (link_images_fold i images_dir (r :: rest)).
Qed.

Lemma attr_section_mapping `{Builtins} (include_images : bool)
    (images_dir : option string) (i : nat) (p : Page) :
  attr_section include_images images_dir i (encode_page AsMapping p)
  = Ret (header i ++ page_markdown p).
Proof.
  unfold attr_section, link_images, encode_page.
  cbn [pack add_markdown getattr assoc String.eqb Ascii.eqb Bool.eqb
       str_iadd bind hasattr attr andb].
  now rewrite andb_false_r.
Qed.

Lemma mapping_section_encoded (i : nat) (p : Page) :
  mapping_section i (encode_page AsMapping p) = Ret (header i ++ page_markdown p).
Proof.
  reflexivity.
Qed.

Lemma list_section_encoded (f : page_form) (i : nat) (p : Page) :
  list_section i (encode_page f p) = Ret (header i ++ page_markdown p).
Proof.
  now destruct f.
Qed.

(** Every encoded document is rendered, whatever the shape and the options:
    the prefix, then the expected sections joined by the separator. *)
Lemma extract_encoded `{Builtins} (s : shape) (doc : Document)
    (include_images : bool) (images_dir : option string) :
  extract_markdown_from_result (encode s doc) include_images images_dir
  = Ret (nl2 ++ join separator (rendered_sections s include_images images_dir doc)).
Proof.
  unfold extract_markdown_from_result, collect_pages, rendered_sections.
  destruct s as [[|]| |f]; simpl; rewrite enumerate_pages_sections.
  - erewrite sections_from_map; [reflexivity|].
    intros i p. apply attr_section_object.
  - erewrite sections_from_map; [reflexivity|].
    intros i p. apply attr_section_mapping.
  - erewrite sections_from_map; [reflexivity|].
    intros i p. apply mapping_section_encoded.
  - erewrite sections_from_map; [|intros i p; apply list_section_encoded].
    now destruct f.
Qed.

(** The image loop, on any page content that starts with a part free of
    exclamation marks, works behind that part. *)
Lemma link_image_past `{Builtins} (i : nat) (images_dir : option string)
    (hdr text : string) (img : value) :
  has_char "!" hdr = false ->
  link_image i images_dir (hdr ++ text) img
  = hdr ++ link_image i images_dir text img.
Proof.
  intros Hhdr. unfold link_image.
  destruct (getattr img "id") as [id|]; [|reflexivity].
  unfold bang_token, self_link, index_placeholder; simpl.
  now rewrite !(substitute_past _ _ _ _ _ Hhdr).
Qed.

Lemma fold_link_image_past `{Builtins} (i : nat) (images_dir : option string)
    (hdr : string) (items : list value) :
  has_char "!" hdr = false ->
  forall text : string,
    fold_left (link_image i images_dir) items (hdr ++ text)
    = hdr ++ fold_left (link_image i images_dir) items text.
Proof.
  intros Hhdr. induction items as [|img rest IH]; intros text;
    cbn [fold_left]; [reflexivity|].
  now rewrite link_image_past, IH.
Qed.

Lemma add_markdown_header (page : value) (hdr sec : string) :
  add_markdown page hdr = Ret sec -> exists body, sec = hdr ++ body.
Proof.
  unfold add_markdown, str_iadd. intros Hsec.
  destruct (getattr page "markdown") as [[]|];
    try discriminate; try (injection Hsec as <-; eauto; fail).
  destruct page; try (injection Hsec as <-; exists ""; now rewrite append_empty_r).
  destruct (assoc "markdown" entries) as [[]|]; try discriminate;
    injection Hsec as <-; eauto.
  exists "". now rewrite append_empty_r.
Qed.

(** Whatever the page is, a section the routine produces for page [i]
    starts with the header of page [i + 1]. *)
Lemma section_of_header `{Builtins} (result : value) (include_images : bool)
    (images_dir : option string) (i : nat) (page : value) (sec : string) :
  section_of result include_images images_dir i page = Ret sec ->
  exists body, sec = header i ++ body.
Proof.
  unfold section_of.
  destruct (hasattr result "pages"); [|destruct result];
    unfold attr_section, list_section, mapping_section;
    pose proof (header_no_bang i) as Hhdr; revert Hhdr;
    generalize (header i); intros hdr Hhdr Hsec;
    try (apply (add_markdown_header page); exact Hsec).
  - destruct (add_markdown page hdr) as [pc|e] eqn:Hpc; cbn [bind] in Hsec;
      [|discriminate].
    destruct (add_markdown_header _ _ _ Hpc) as [body ->].
    unfold link_images in Hsec.
    destruct (include_images && hasattr page "images");
      [|injection Hsec as <-; eauto].
    destruct (attr page "images") as [imgs|e]; cbn [bind] in Hsec;
      [|discriminate].
    destruct (truthy imgs); [|injection Hsec as <-; eauto].
    destruct (py_iter imgs) as [items|e]; cbn [bind] in Hsec; [|discriminate].
    injection Hsec as <-.
    rewrite (fold_link_image_past _ _ _ _ Hhdr). eauto.
  - unfold add_markdown_key in Hsec.
    destruct (py_in "markdown" page) as [[|]|e]; cbn [bind] in Hsec;
      try discriminate.
    + destruct (py_getitem page "markdown") as [[]|e];
        cbn [bind str_iadd] in Hsec; try discriminate.
      injection Hsec as <-. eauto.
    + injection Hsec as <-. exists "". now rewrite append_empty_r.
Qed.

(** ** The claims about [extract_markdown_from_result] *)

(** C2.  A result of none of the three recognised shapes (an integer,
    [None], a string, an object without [pages], a mapping without the key)
    never makes the routine raise: it returns the empty document, the
    two-line-feed prefix followed by the join of no page, which is also what
    the empty list of pages gives. *)
Theorem unrecognized_gives_empty_document `{Builtins} (result : value)
    (include_images : bool) (images_dir : option string) :
  unrecognized result = true ->
  extract_markdown_from_result result include_images images_dir = Ret nl2 /\
  extract_markdown_from_result result include_images images_dir
  = extract_markdown_from_result (VList []) include_images images_dir.
Proof.
  unfold unrecognized, extract_markdown_from_result, collect_pages.
  intros Hun. apply andb_true_iff in Hun as [Hattr Hshape].
  apply negb_true_iff in Hattr. rewrite Hattr.
  destruct result; try discriminate; try (split; reflexivity).
  destruct (assoc "pages" entries); [discriminate|split; reflexivity].
Qed.

Lemma unrecognized_gives_empty_document_witness :
  @extract_markdown_from_result sample_builtins (VInt 5) true (Some "images")
  = Ret nl2 /\
  @extract_markdown_from_result sample_builtins VNone false None = Ret nl2.
Proof.
  split.
  - apply (@unrecognized_gives_empty_document sample_builtins (VInt 5)).
    reflexivity.
  - apply (@unrecognized_gives_empty_document sample_builtins VNone).
    reflexivity.
Defined.

(** C3.  Two pages with the texts "A" and "B", images not asked for: in each
    of the shapes the routine returns the prefix, "## Page 1", "A", the
    separator, "## Page 2", "B", a blank line after each header. *)
Theorem two_pages_exact_output `{Builtins} (s : shape)
    (images_a images_b : list ImageRef) (images_dir : option string) :
  extract_markdown_from_result
    (encode s [ {| page_markdown := "A"; page_images := images_a |};
                {| page_markdown := "B"; page_images := images_b |} ])
    false images_dir
  = Ret (nl2 ++ "## Page 1" ++ nl2 ++ "A" ++ nl2 ++ "---" ++ nl2
             ++ "## Page 2" ++ nl2 ++ "B").
Proof.
  rewrite extract_encoded. destruct s as [[|]| |[|]]; reflexivity.
Qed.

(** C10.  On a mapping with the key ["pages"] and on a list, the options are
    never looked at: every choice of [include_images] and [images_dir] gives
    the same outcome. *)
Theorem options_ignored_outside_attr_shape `{Builtins} (result : value)
    (include_images include_images' : bool)
    (images_dir images_dir' : option string) :
  mapping_or_list result = true ->
  extract_markdown_from_result result include_images images_dir
  = extract_markdown_from_result result include_images' images_dir'.
Proof.
  unfold mapping_or_list, extract_markdown_from_result, collect_pages.
  destruct result; intros Hshape; try discriminate; reflexivity.
Qed.

Lemma options_ignored_outside_attr_shape_witness :
  @extract_markdown_from_result sample_builtins
    (VDict [("pages", VList [VDict [("markdown", VStr "!img1!");
                                    ("images", VList [VDict [("id", VStr "img1")]])]])])
    true (Some "images")
  = @extract_markdown_from_result sample_builtins
    (VDict [("pages", VList [VDict [("markdown", VStr "!img1!");
                                    ("images", VList [VDict [("id", VStr "img1")]])]])])
    false None.
Proof.
  apply (@options_ignored_outside_attr_shape sample_builtins). reflexivity.
Defined.





Lemma link_ref_patterns_absent (images_dir : option string) (i : nat)
    (text : string) (r : ImageRef) :
  contains (bang_token (image_id r)) text = false ->
  contains (self_link (image_id r)) text = false ->
  contains (index_placeholder i) text = false ->
  link_ref images_dir i text r = text.
Proof.
  intros Hbang Hself Hidx. unfold link_ref.
  now rewrite (substitute_absent _ _ _ Hbang), (substitute_absent _ _ _ Hself),
    (substitute_absent _ _ _ Hidx).
Qed.

Lemma page_patterns_absent_text (images_dir : option string) (i : nat) (p : Page) :
  page_patterns_absent i p = true ->
  rendered_text (AttrShape AsObject) true images_dir i p = page_markdown p.
Proof.
  unfold page_patterns_absent, rendered_text.
  generalize (page_images p). intros refs.
  induction refs as [|r rest IH]; cbn [fold_left forallb]; intros Hrefs;
    [reflexivity|].
  apply andb_true_iff in Hrefs as [Hr Hrest].
  apply andb_true_iff in Hr as [Hr Hidx]. apply andb_true_iff in Hr as [Hbang Hself].
  apply negb_true_iff in Hbang, Hself, Hidx.
  rewrite (link_ref_patterns_absent _ _ _ _ Hbang Hself Hidx). now apply IH.
Qed.

Lemma patterns_absent_from_nth (doc : Document) :
  forall (i k : nat) (p : Page),
    patterns_absent_from i doc = true ->
    nth_error doc k = Some p ->
    page_patterns_absent (i + k) p = true.
Proof.
  induction doc as [|q rest IH]; intros i [|k] p Hdoc Hk; simpl in *;
    try discriminate; apply andb_true_iff in Hdoc as [Hq Hrest].
  - injection Hk as <-. now rewrite Nat.add_0_r.
  - rewrite Nat.add_succ_r. now apply (IH (S i)).
Qed.

(** The expected sections are the plain ones as soon as the rewriting of
    the attribute-bearing shape leaves every page's text as it is. *)
Lemma rendered_sections_unchanged (s : shape) (doc : Document)
    (include_images : bool) (images_dir : option string) :
  (forall k p, nth_error doc k = Some p ->
               rendered_text s include_images images_dir k p = page_markdown p) ->
  rendered_sections s include_images images_dir doc = plain_sections doc.
Proof.
  intros Hsame. unfold rendered_sections, plain_sections.
  apply mapi_from_ext. intros k p Hk. f_equal. now apply Hsame.
Qed.

Lemma rendered_text_elsewhere (s : shape) (include_images : bool)
    (images_dir : option string) (k : nat) (p : Page) :
  s <> AttrShape AsObject \/ include_images = false ->
  rendered_text s include_images images_dir k p = page_markdown p.
Proof.
  intros [Hs | ->]; destruct s as [[|]| |f]; try reflexivity.
  now elim Hs.
Qed.

(** C1, as the code has it.  The shapes of one document give the same
    output in all cases but one.  The mapping shape, the list shape and an
    attribute-bearing result whose pages are mappings return the plain
    document under all options, and so does the attribute-bearing result
    with attribute-bearing pages when [include_images] is false.  With
    [include_images] true that last shape, and it alone, returns the
    document with each page's text rewritten image by image.  So two shapes
    agree when [include_images] is false, when neither is the rewriting
    shape, when they are the same, and when the rewriting leaves every
    page's text as it is, which is the case when no placeholder of an image
    of a page occurs in that page's markdown; and the rewriting shape agrees
    with another one, images being asked for, exactly when the rewritten
    sections and the plain ones join to the same text. *)
Theorem shape_invariance_up_to_image_rewriting `{Builtins} (doc : Document)
    (images_dir : option string) :
  let unchanged :=
    forall k p, nth_error doc k = Some p ->
                fold_left (link_ref images_dir k) (page_images p) (page_markdown p)
                = page_markdown p in
  (forall (s : shape) (include_images : bool),
      s <> AttrShape AsObject \/ include_images = false \/ unchanged ->
      extract_markdown_from_result (encode s doc) include_images images_dir
      = Ret (plain_markdown doc)) /\
  extract_markdown_from_result (encode (AttrShape AsObject) doc) true images_dir
  = Ret (nl2 ++ join separator
                  (mapi_from (fun i p =>
                                header i ++ fold_left (link_ref images_dir i)
                                                      (page_images p)
                                                      (page_markdown p))
                             0 doc)) /\
  (patterns_absent_from 0 doc = true -> unchanged) /\
  (forall (s1 s2 : shape) (include_images : bool),
      include_images = false \/
      (s1 <> AttrShape AsObject /\ s2 <> AttrShape AsObject) \/
      s1 = s2 \/ unchanged ->
      extract_markdown_from_result (encode s1 doc) include_images images_dir
      = extract_markdown_from_result (encode s2 doc) include_images images_dir) /\
  (forall s : shape,
      s <> AttrShape AsObject ->
      extract_markdown_from_result (encode (AttrShape AsObject) doc) true images_dir
      = extract_markdown_from_result (encode s doc) true images_dir
      <-> join separator (rendered_sections (AttrShape AsObject) true images_dir doc)
          = join separator (plain_sections doc)).
Proof.
  intros unchanged.
  assert (Hplain : forall s include_images,
             s <> AttrShape AsObject \/ include_images = false \/ unchanged ->
             extract_markdown_from_result (encode s doc) include_images images_dir
             = Ret (plain_markdown doc)).
  { intros s include_images Hcase. rewrite extract_encoded.
    rewrite (rendered_sections_unchanged s doc include_images images_dir);
      [reflexivity|].
    intros k p Hk. destruct Hcase as [Hs|[Hinc|Hsame]].
    - apply rendered_text_elsewhere. now left.
    - apply rendered_text_elsewhere. now right.
    - destruct s as [[|]| |f]; try reflexivity.
      destruct include_images; [|reflexivity]. now apply Hsame. }
  split; [exact Hplain|]. split; [now rewrite extract_encoded|].
  split; [|split].
  - intros Habsent k p Hk.
    apply (page_patterns_absent_text images_dir k p).
    exact (patterns_absent_from_nth _ _ _ _ Habsent Hk).
  - intros s1 s2 include_images [Hinc|[[Hs1 Hs2]|[Hsame|Hsame]]].
    + now rewrite !Hplain by (right; now left).
    + now rewrite !Hplain by now left.
    + now rewrite Hsame.
    + now rewrite !Hplain by (right; now right).
  - intros s Hs. rewrite (Hplain s true) by now left.
    rewrite extract_encoded. unfold plain_markdown. split.
    + intros Heq. injection Heq as Heq. exact Heq.
    + now intros ->.
Qed.

Lemma shape_invariance_up_to_image_rewriting_witness :
  @extract_markdown_from_result sample_builtins
    (encode (AttrShape AsObject)
       [ {| page_markdown := "see img1 below";
            page_images := [ {| image_id := "img1"; base64_data := Some "aGk=" |} ] |} ])
    true (Some "images")
  = @extract_markdown_from_result sample_builtins
    (encode MappingShape
       [ {| page_markdown := "see img1 below";
            page_images := [ {| image_id := "img1"; base64_data := Some "aGk=" |} ] |} ])
    true (Some "images").
Proof.
  apply (proj1 (proj2 (proj2 (proj2
           (@shape_invariance_up_to_image_rewriting sample_builtins
              [ {| page_markdown := "see img1 below";
                   page_images := [ {| image_id := "img1";
                                       base64_data := Some "aGk=" |} ] |} ]
              (Some "images")))))).
  right. right. right.
  apply (proj1 (proj2 (proj2
           (@shape_invariance_up_to_image_rewriting sample_builtins
              [ {| page_markdown := "see img1 below";
                   page_images := [ {| image_id := "img1";
                                       base64_data := Some "aGk=" |} ] |} ]
              (Some "images"))))).
  reflexivity.
Defined.

(** C1 as stated fails: with images asked for, the attribute-bearing shape
    rewrites the token [!img1!] and the mapping shape keeps it. *)
Lemma shape_invariance_fails_with_images :
  let doc := [ {| page_markdown := "!img1!";
                  page_images := [ {| image_id := "img1"; base64_data := None |} ] |} ] in
  @extract_markdown_from_result sample_builtins (encode (AttrShape AsObject) doc)
    true (Some "images")
  = Ret (nl2 ++ "## Page 1" ++ nl2 ++ "![Image img1](images/img1)") /\
  @extract_markdown_from_result sample_builtins (encode MappingShape doc)
    true (Some "images")
  = Ret (nl2 ++ "## Page 1" ++ nl2 ++ "!img1!") /\
  @extract_markdown_from_result sample_builtins (encode (AttrShape AsObject) doc)
    true (Some "images")
  <> @extract_markdown_from_result sample_builtins (encode MappingShape doc)
    true (Some "images").
Proof.
  repeat split; try reflexivity. vm_compute. discriminate.
Qed.

Lemma index_placeholder_not_in_link (i : nat) :
  contains (index_placeholder i) "![Image img1](images/img1)" = false.
Proof.
  reflexivity.
Qed.

(** C4.  In an attribute-bearing result, a page with the text [!img1!] and
    an image of id [img1], wherever it stands among the pages, gets with
    images asked for and the directory [images] a section made of its header
    and the link: the section holds [![Image img1](images/img1)] and no
    longer the token [!img1!]. *)
Theorem bang_token_becomes_link `{Builtins} (before after : Document)
    (data : option string) :
  let page := {| page_markdown := "!img1!";
                 page_images := [ {| image_id := "img1"; base64_data := data |} ] |} in
  let k := length before in
  exists (secs : list string) (sec : string),
    extract_markdown_from_result
      (encode (AttrShape AsObject) (before ++ page :: after)%list)
      true (Some "images")
    = Ret (nl2 ++ join separator secs) /\
    length secs = length (before ++ page :: after)%list /\
    nth_error secs k = Some sec /\
    sec = header k ++ "![Image img1](images/img1)" /\
    contains "![Image img1](images/img1)" sec = true /\
    contains "!img1!" sec = false.
Proof.
  intros page k.
  exists (rendered_sections (AttrShape AsObject) true (Some "images")
            (before ++ page :: after)%list),
         (header k ++ "![Image img1](images/img1)").
  split; [apply extract_encoded|].
  split; [apply mapi_from_length|].
  split.
  - unfold rendered_sections.
    rewrite (mapi_from_nth _ _ 0 k page).
    + cbn [Nat.add rendered_text page_images page_markdown page fold_left].
      unfold link_ref. cbn [image_id].
      change (substitute (bang_token "img1") (image_link (Some "images") "img1") "!img1!")
        with "![Image img1](images/img1)".
      change (substitute (self_link "img1") (image_link (Some "images") "img1")
                "![Image img1](images/img1)")
        with "![Image img1](images/img1)".
      now rewrite (substitute_absent _ _ _ (index_placeholder_not_in_link k)).
    + unfold k. rewrite nth_error_app2, Nat.sub_diag; [reflexivity|lia].
  - split; [reflexivity|]. split.
    + apply contains_occurs. exists (header k), "".
      now rewrite append_empty_r.
    + now rewrite (contains_past _ _ _ _ (header_no_bang k)).
Qed.

(** Whenever the routine returns on a recognised shape, its output is the
    prefix and the join of the in-order traversal of the input's pages. *)
Lemma extract_sections `{Builtins} (result : value) (include_images : bool)
    (images_dir : option string) (out : string) :
  extract_markdown_from_result result include_images images_dir = Ret out ->
  unrecognized result = false ->
  exists (pages : list value) (secs : list string),
    input_pages result = Some pages /\
    sections_from (section_of result include_images images_dir) 0 pages = Ret secs /\
    out = nl2 ++ join separator secs.
Proof.
  unfold extract_markdown_from_result, collect_pages, input_pages, section_of,
    unrecognized, hasattr, attr.
  intros Hout Hrec.
  destruct (getattr result "pages") as [pv|] eqn:Hattr; cbn [bind negb andb] in *.
  - destruct (py_iter pv) as [items|e]; cbn [bind] in Hout; [|discriminate].
    rewrite enumerate_pages_sections in Hout.
    destruct (sections_from _ 0 items) as [secs|e] eqn:Hsecs;
      cbn [bind] in Hout; [|discriminate].
    injection Hout as <-. exists items, secs. now rewrite Hsecs.
  - destruct result as [| | | |items|entries|attrs]; try discriminate.
    + rewrite enumerate_pages_sections in Hout.
      destruct (sections_from _ 0 items) as [secs|e] eqn:Hsecs;
        cbn [bind] in Hout; [|discriminate].
      injection Hout as <-. exists items, secs. now rewrite Hsecs.
    + destruct (assoc "pages" entries) as [pv|]; [|discriminate].
      destruct (py_iter pv) as [items|e]; cbn [bind] in Hout; [|discriminate].
      rewrite enumerate_pages_sections in Hout.
      destruct (sections_from _ 0 items) as [secs|e] eqn:Hsecs;
        cbn [bind] in Hout; [|discriminate].
      injection Hout as <-. exists items, secs. now rewrite Hsecs.
Qed.

(** C8.  Page order.  On a result of a recognised shape, whenever the
    routine returns, its output is the prefix and the separator-joined list
    of exactly one section per input page, section [k] being the loop body
    run on page [k] and starting with the header of page [k + 1]: nothing is
    dropped, repeated or moved.  And on every encoded document, in each
    shape and under all options, the routine does return, section [k] being
    the header of page [k + 1] followed by the text of page [k]. *)
Theorem page_order_preserved `{Builtins} :
  (forall (result : value) (include_images : bool)
          (images_dir : option string) (out : string),
      unrecognized result = false ->
      extract_markdown_from_result result include_images images_dir = Ret out ->
      exists (pages : list value) (secs : list string),
        input_pages result = Some pages /\
        out = nl2 ++ join separator secs /\
        length secs = length pages /\
        forall (k : nat) (page : value),
          nth_error pages k = Some page ->
          exists sec body,
            nth_error secs k = Some sec /\
            section_of result include_images images_dir k page = Ret sec /\
            sec = header k ++ body) /\
  (forall (s : shape) (doc : Document) (include_images : bool)
          (images_dir : option string),
      exists secs : list string,
        extract_markdown_from_result (encode s doc) include_images images_dir
        = Ret (nl2 ++ join separator secs) /\
        length secs = length doc /\
        forall (k : nat) (p : Page),
          nth_error doc k = Some p ->
          nth_error secs k
          = Some (header k ++ rendered_text s include_images images_dir k p)).
Proof.
  split.
  - intros result include_images images_dir out Hrec Hout.
    destruct (extract_sections _ _ _ _ Hout Hrec) as (pages & secs & Hp & Hs & ->).
    destruct (sections_from_nth _ _ _ _ Hs) as [Hlen Hnth].
    exists pages, secs. repeat split; try assumption.
    intros k page Hk. destruct (Hnth _ _ Hk) as (sec & Hsec & Hbody).
    cbn [Nat.add] in Hbody.
    destruct (section_of_header _ _ _ _ _ _ Hbody) as [body ->].
    now exists (header k ++ body), body.
  - intros s doc include_images images_dir.
    exists (rendered_sections s include_images images_dir doc).
    split; [apply extract_encoded|].
    split; [apply mapi_from_length|].
    intros k p Hk. unfold rendered_sections.
    now rewrite (mapi_from_nth _ _ 0 k p Hk).
Qed.

Lemma page_order_preserved_witness :
  exists (pages : list value) (secs : list string),
    input_pages (VList [VDict [("markdown", VStr "A")]; VObj [("markdown", VStr "B")]])
    = Some pages /\
    nl2 ++ "## Page 1" ++ nl2 ++ "A" ++ nl2 ++ "---" ++ nl2 ++ "## Page 2" ++ nl2 ++ "B"
    = nl2 ++ join separator secs /\
    length secs = length pages /\
    forall (k : nat) (page : value),
      nth_error pages k = Some page ->
      exists sec body,
        nth_error secs k = Some sec /\
        @section_of sample_builtins
          (VList [VDict [("markdown", VStr "A")]; VObj [("markdown", VStr "B")]])
          false None k page = Ret sec /\
        sec = header k ++ body.
Proof.
  apply (proj1 (@page_order_preserved sample_builtins)); reflexivity.
Defined.

(** ** The history of calls only grows *)

Create HintDb history.

Lemma extending_ret {A : Type} (a : A) : extending (ret a).
Proof.
  intros h. exists []. simpl. now rewrite app_nil_r.
Qed.

Lemma extending_raise {A : Type} (e : exn) : extending (@raise A e).
Proof.
  intros h. exists []. simpl. now rewrite app_nil_r.
Qed.

Lemma extending_lift {A : Type} (o : outcome A) : extending (lift o).
Proof.
  intros h. exists []. simpl. now rewrite app_nil_r.
Qed.

Lemma extending_perform `{Environment} (c : call) : extending (perform c).
Proof.
  intros h. now exists [(c, respond h c)].
Qed.

Lemma extending_mbind {A B : Type} (m : M A) (k : A -> M B) :
  extending m -> (forall a, extending (k a)) -> extending (mbind m k).
Proof.
  intros Hm Hk h. unfold mbind. destruct (Hm h) as [evs Hevs].
  destruct (m h) as [[a|e] h1]; simpl in Hevs; subst h1.
  - destruct (Hk a (h ++ evs)%list) as [evs' Hevs'].
    exists (evs ++ evs')%list. now rewrite Hevs', app_assoc.
  - now exists evs.
Qed.

Lemma extending_finally {A : Type} (m : M A) (cleanup : M value) :
  extending m -> extending cleanup -> extending (finally m cleanup).
Proof.
  intros Hm Hc h. unfold finally. destruct (Hm h) as [evs Hevs].
  destruct (m h) as [r h1]; simpl in Hevs; subst h1.
  destruct (Hc (h ++ evs)%list) as [evs' Hevs'].
  exists (evs ++ evs')%list.
  destruct (cleanup (h ++ evs)%list) as [[v|e] h2]; simpl in *; subst h2;
    now rewrite app_assoc.
Qed.

Lemma extending_for_each {S X : Type} (body : S -> X -> M S) (items : list X) :
  (forall s x, extending (body s x)) ->
  forall s : S, extending (for_each body items s).
Proof.
  intros Hbody. induction items as [|x rest IH]; intros s; simpl.
  - apply extending_ret.
  - apply extending_mbind; [apply Hbody|exact IH].
Qed.

#[export] Hint Resolve extending_ret extending_raise extending_lift
  extending_perform extending_finally : history.

(** Breaks a computation down to its calls. *)
Ltac extending_steps :=
  repeat first
    [ progress auto with history
    | apply extending_mbind; [|intros ?]
    | apply extending_finally
    | apply extending_for_each; intros ? ?
    | match goal with
      | |- extending (match ?x with _ => _ end) => destruct x
      end ].

Lemma extending_save_image `{Builtins} `{Environment} (output_dir : string)
    (image_count : nat) (img : value) :
  extending (save_image output_dir image_count img).
Proof.
  unfold save_image. extending_steps.
Qed.

Lemma extending_save_page_images `{Builtins} `{Environment}
    (output_dir : string) (image_count : nat) (page : value) :
  extending (save_page_images output_dir image_count page).
Proof.
  unfold save_page_images. extending_steps. apply extending_save_image.
Qed.

Lemma extending_save_images_from_ocr `{Builtins} `{Environment}
    (ocr_response : value) (output_dir : string) :
  extending (save_images_from_ocr ocr_response output_dir).
Proof.
  unfold save_images_from_ocr. extending_steps.
  apply extending_save_page_images.
Qed.

#[export] Hint Resolve extending_save_image extending_save_page_images
  extending_save_images_from_ocr : history.

(** ** Where an exception can come from *)

Lemma avoids_ret {A : Type} (e : exn) (a : A) : avoids e (ret a).
Proof.
  intros h. discriminate.
Qed.

Lemma avoids_raise {A : Type} (e e' : exn) : e' <> e -> avoids e (@raise A e').
Proof.
  intros Hne h. simpl. congruence.
Qed.

Lemma avoids_lift {A : Type} (e : exn) (o : outcome A) :
  o <> Raise e -> avoids e (lift o).
Proof.
  intros Hne h. exact Hne.
Qed.

Lemma avoids_perform `{Builtins} `{Environment} (e : exn) (c : call) :
  foreign e -> avoids e (perform c).
Proof.
  intros [Hworld _] h. apply Hworld.
Qed.

Lemma avoids_mbind {A B : Type} (e : exn) (m : M A) (k : A -> M B) :
  avoids e m -> (forall a, avoids e (k a)) -> avoids e (mbind m k).
Proof.
  intros Hm Hk h. unfold mbind. specialize (Hm h).
  destruct (m h) as [[a|e'] h1]; [apply Hk|simpl in *; congruence].
Qed.

Lemma avoids_finally {A : Type} (e : exn) (m : M A) (cleanup : M value) :
  avoids e m -> avoids e cleanup -> avoids e (finally m cleanup).
Proof.
  intros Hm Hc h. unfold finally. specialize (Hm h).
  destruct (m h) as [r h1]. specialize (Hc h1).
  destruct (cleanup h1) as [[v|e'] h2]; simpl in *; congruence.
Qed.

Lemma avoids_for_each {S X : Type} (e : exn) (body : S -> X -> M S)
    (items : list X) :
  (forall s x, avoids e (body s x)) ->
  forall s : S, avoids e (for_each body items s).
Proof.
  intros Hbody. induction items as [|x rest IH]; intros s; simpl.
  - apply avoids_ret.
  - apply avoids_mbind; [apply Hbody|exact IH].
Qed.

Lemma attr_not_value_error (v : value) (name msg : string) :
  attr v name <> Raise (ValueError msg).
Proof.
  unfold attr. destruct (getattr v name); discriminate.
Qed.

Lemma py_iter_not_value_error (v : value) (msg : string) :
  py_iter v <> Raise (ValueError msg).
Proof.
  destruct v; discriminate.
Qed.

Create HintDb exceptions.

(** Breaks a computation down to the places that can raise. *)
Ltac avoids_steps Hforeign :=
  repeat first
    [ solve [auto with exceptions]
    | apply avoids_ret
    | apply avoids_perform; exact Hforeign
    | apply avoids_lift;
        first [ apply attr_not_value_error
              | apply py_iter_not_value_error
              | apply (proj2 Hforeign) ]
    | apply avoids_mbind; [|intros ?]
    | apply avoids_finally
    | apply avoids_for_each; intros ? ?
    | match goal with
      | |- avoids _ (match ?x with _ => _ end) => destruct x
      | |- avoids _ (if ?b then _ else _) => destruct b
      end ].

Lemma avoids_save_images_from_ocr `{Builtins} `{Environment}
    (ocr_response : value) (output_dir msg : string) :
  foreign (ValueError msg) ->
  avoids (ValueError msg) (save_images_from_ocr ocr_response output_dir).
Proof.
  intros Hforeign.
  unfold save_images_from_ocr, save_page_images, save_image.
  avoids_steps Hforeign.
Qed.

#[export] Hint Resolve avoids_save_images_from_ocr : exceptions.

(** ** The claim about [ocr_pdf] *)

Lemma credential_missing (environ : string -> option string) :
  environ "MISTRAL_API_KEY" = None \/ environ "MISTRAL_API_KEY" = Some "" ->
  credential environ = None.
Proof.
  unfold credential. now intros [-> | ->].
Qed.

Lemma credential_present (environ : string -> option string) (key : string) :
  environ "MISTRAL_API_KEY" = Some key -> key <> "" ->
  credential environ = Some key.
Proof.
  unfold credential. intros -> Hne.
  destruct (String.eqb_spec key ""); [contradiction|reflexivity].
Qed.

(** A computation that starts with a call has that call, with its answer,
    as the first addition to the history, and goes on when the call
    returned. *)
Lemma mbind_perform_first `{Environment} {A : Type} (c : call)
    (k : value -> M A) (h : list event) :
  (forall v, extending (k v)) ->
  (exists r tail,
      mbind (perform c) k h = (r, (h ++ (c, respond h c) :: tail)%list)) /\
  (forall v, respond h c = Ret v ->
             mbind (perform c) k h = k v (h ++ [(c, respond h c)])%list).
Proof.
  intros Hk. unfold mbind, perform. cbv zeta.
  destruct (respond h c) as [v|e] eqn:Hc.
  - split; [|intros v' Hv; now injection Hv as <-].
    destruct (Hk v (h ++ [(c, Ret v)])%list) as [evs Hevs].
    destruct (k v (h ++ [(c, Ret v)])%list) as [r h2]. simpl in Hevs. subst h2.
    exists r, evs. now rewrite app_cons_assoc.
  - split; [|discriminate]. now exists (Raise e), [].
Qed.

Lemma extending_ocr_pdf_after_announce `{Builtins} `{Environment}
    (api_key pdf_path : string) (save_images : bool) (output_dir : option string) :
  extending
    (do client <- perform (NewClient api_key);
     do _ <- perform (Print MsgUploading);
     do f <- perform (OpenRead pdf_path);
     do uploaded_pdf <- finally
                          (perform (Upload client (OsPath.basename pdf_path) f))
                          (perform (CloseRead pdf_path));
     do file_id <- lift (attr uploaded_pdf "id");
     do signed_url <- perform (GetSignedUrl client file_id);
     do _ <- perform (Print MsgRunning);
     do _ <- perform Clock;
     do url <- lift (attr signed_url "url");
     do ocr_response <- perform (OcrProcess client "mistral-ocr-latest" url);
     do _ <- perform Clock;
     do _ <- perform (Print MsgCompleted);
     do _ <- (if save_images && hasattr ocr_response "pages"
              then save_images_from_ocr ocr_response
                     (images_directory pdf_path output_dir)
              else ret VNone);
     ret ocr_response).
Proof.
  extending_steps.
Qed.

Lemma extending_main_after_client `{Environment} (client : value)
    (pdf_path : string) :
  extending
    (do f <- perform (OpenRead pdf_path);
     do uploaded_pdf <- finally
                          (perform (Upload client (OsPath.basename pdf_path) f))
                          (perform (CloseRead pdf_path));
     do file_id <- lift (attr uploaded_pdf "id");
     do signed_url <- perform (GetSignedUrl client file_id);
     do url <- lift (attr signed_url "url");
     perform (OcrProcess client "mistral-ocr-latest" url)).
Proof.
  extending_steps.
Qed.

Lemma avoids_ocr_pdf `{Builtins} `{Environment}
    (environ : string -> option string) (key pdf_path : string)
    (save_images : bool) (output_dir : option string) :
  credential environ = Some key ->
  foreign configuration_error ->
  avoids configuration_error (ocr_pdf environ pdf_path save_images output_dir) /\
  avoids configuration_error (MainPy.ocr_pdf environ pdf_path).
Proof.
  intros Hkey Hforeign. unfold ocr_pdf, MainPy.ocr_pdf. rewrite Hkey.
  unfold configuration_error in *.
  split; avoids_steps Hforeign.
Qed.

(** C7.  The credential guard of both [ocr_pdf] functions.  With
    MISTRAL_API_KEY unset or empty the configuration error is raised and the
    history of external calls is untouched: nothing was printed, no client
    built, no file opened, nothing uploaded.  With the key present the guard
    lets the run through: its first call goes out (the progress message in
    ocr_pdf.py, followed by the construction of the client with that key;
    the construction of the client in main.py), and the run does not end
    with the configuration error unless a collaborator raises that very
    exception. *)
Theorem credential_checked_before_any_call `{Builtins} `{Environment}
    (environ : string -> option string) (pdf_path : string)
    (save_images : bool) (output_dir : option string) (h : list event) :
  (environ "MISTRAL_API_KEY" = None \/ environ "MISTRAL_API_KEY" = Some "" ->
   ocr_pdf environ pdf_path save_images output_dir h
   = (Raise configuration_error, h) /\
   MainPy.ocr_pdf environ pdf_path h = (Raise configuration_error, h)) /\
  (forall key : string,
      environ "MISTRAL_API_KEY" = Some key -> key <> "" ->
      let announce := Print (MsgProcessing pdf_path) in
      let h1 := (h ++ [(announce, respond h announce)])%list in
      (exists r tail,
          ocr_pdf environ pdf_path save_images output_dir h = (r, (h1 ++ tail)%list) /\
          (forall v, respond h announce = Ret v ->
                     exists tail',
                       tail = (NewClient key, respond h1 (NewClient key)) :: tail')) /\
      (exists r tail,
          MainPy.ocr_pdf environ pdf_path h
          = (r, (h ++ (NewClient key, respond h (NewClient key)) :: tail)%list)) /\
      (foreign configuration_error ->
       fst (ocr_pdf environ pdf_path save_images output_dir h)
       <> Raise configuration_error /\
       fst (MainPy.ocr_pdf environ pdf_path h) <> Raise configuration_error)).
Proof.
  split.
  - intros Hmissing. unfold ocr_pdf, MainPy.ocr_pdf.
    rewrite (credential_missing _ Hmissing). split; reflexivity.
  - intros key Hkey Hne. cbv zeta.
    pose proof (credential_present _ _ Hkey Hne) as Hcred.
    split; [|split].
    + unfold ocr_pdf. rewrite Hcred.
      match goal with
      | |- context [mbind (perform ?c) ?k h] =>
          destruct (mbind_perform_first c k h) as [(r & tail & Hrun) Hnext]
      end.
      { intros _. apply extending_ocr_pdf_after_announce. }
      exists r, tail. split.
      * rewrite Hrun. now rewrite app_cons_assoc.
      * intros v Hv. rewrite (Hnext v Hv) in Hrun.
        match type of Hrun with
        | mbind (perform ?c) ?k ?h1 = _ =>
            destruct (mbind_perform_first c k h1) as [(r' & tail' & Hrun') _]
        end.
        { intros client. extending_steps. }
        rewrite Hrun' in Hrun. injection Hrun as _ Htail.
        rewrite app_cons_assoc in Htail.
        apply app_inv_head in Htail. injection Htail as <-.
        now exists tail'.
    + unfold MainPy.ocr_pdf. rewrite Hcred.
      match goal with
      | |- context [mbind (perform ?c) ?k h] =>
          destruct (mbind_perform_first c k h) as [(r & tail & Hrun) _]
      end.
      { intros client. apply extending_main_after_client. }
      now exists r, tail.
    + intros Hforeign.
      destruct (avoids_ocr_pdf environ key pdf_path save_images output_dir
                  Hcred Hforeign) as [Hocr Hmain].
      split; [apply Hocr|apply Hmain].
Qed.

Lemma credential_checked_before_any_call_witness :
  (@ocr_pdf sample_builtins (obliging VNone) (fun _ => None) "scan.pdf" true None []
   = (Raise configuration_error, []) /\
   @MainPy.ocr_pdf (obliging VNone) (fun _ => None) "scan.pdf" []
   = (Raise configuration_error, [])) /\
  (exists r tail,
      @MainPy.ocr_pdf (obliging VNone) (fun _ => Some "sk-test") "scan.pdf" []
      = (r, ([] ++ (NewClient "sk-test",
                    @respond (obliging VNone) [] (NewClient "sk-test")) :: tail)%list)).
Proof.
  split.
  - apply (proj1 (@credential_checked_before_any_call sample_builtins
                    (obliging VNone) (fun _ => None) "scan.pdf" true None [])).
    left. reflexivity.
  - apply (proj2 (@credential_checked_before_any_call sample_builtins
                    (obliging VNone) (fun _ => Some "sk-test") "scan.pdf" true
                    None []) "sk-test").
    + reflexivity.
    + discriminate.
Defined.

(** ** [save_images_from_ocr]: files written and the count reported *)

Lemma written_app (a b : list event) :
  written (a ++ b) = (written a ++ written b)%list.
Proof.
  induction a as [|[c r] a IH]; simpl; [reflexivity|].
  destruct c; try exact IH. destruct r; [|exact IH].
  simpl. now rewrite IH.
Qed.

Lemma last_message_snoc (evs : list event) (m : message) (r : outcome value) :
  last_message (evs ++ [(Print m, r)]) = Some m.
Proof.
  unfold last_message. now rewrite rev_app_distr.
Qed.

(** Reassociates the history a run has built and reads off what was added. *)
Ltac close_run :=
  repeat rewrite <- app_assoc;
  first [ reflexivity
        | rewrite app_nil_r; reflexivity
        | rewrite <- (app_nil_r) at 1; reflexivity ].

Lemma counts_writes_save_image `{Builtins} `{Environment} (output_dir : string)
    (n : nat) (img : value) :
  counts_writes (has_payload img) n (save_image output_dir n img).
Proof.
  intros h. unfold save_image, has_payload.
  destruct (truthy_attr img "image_base64") as [payload|].
  2:{ exists (Ret n), []. rewrite app_nil_r. repeat split.
      intros n' Hn'. injection Hn' as <-. simpl. lia. }
  unfold mbind, lift, perform, finally, ret. cbv zeta.
  destruct (attr img "id") as [id|e].
  2:{ exists (Raise e), []. rewrite app_nil_r. repeat split; discriminate. }
  set (name := format_value id).
  destruct (respond h (OpenWrite output_dir name)) as [v1|e] eqn:E1.
  2:{ eexists (Raise e), _. repeat split; discriminate. }
  destruct (b64decode payload) as [data|e].
  2:{ set (h1 := (h ++ [(OpenWrite output_dir name, Ret v1)])%list).
      destruct (respond h1 (CloseWrite output_dir name)) as [v|e'];
        (eexists (Raise _), _; split; [subst h1; close_run|]);
        split; discriminate. }
  set (h1 := (h ++ [(OpenWrite output_dir name, Ret v1)])%list).
  destruct (respond h1 (WriteBytes output_dir name data)) as [v2|e] eqn:E2.
  2:{ set (h2 := (h1 ++ [(WriteBytes output_dir name data, Raise e)])%list).
      destruct (respond h2 (CloseWrite output_dir name)) as [v|e'];
        (eexists (Raise _), _; split; [subst h2 h1; close_run|]);
        split; discriminate. }
  set (h2 := (h1 ++ [(WriteBytes output_dir name data, Ret v2)])%list).
  destruct (respond h2 (CloseWrite output_dir name)) as [v3|e] eqn:E3.
  2:{ eexists (Raise _), _; split; [subst h2 h1; close_run|].
      split; discriminate. }
  set (h3 := (h2 ++ [(CloseWrite output_dir name, Ret v3)])%list).
  destruct (respond h3 (Print (MsgSavedImage output_dir name))) as [v4|e] eqn:E4.
  2:{ eexists (Raise _), _; split; [subst h3 h2 h1; close_run|].
      split; discriminate. }
  eexists (Ret (n + 1)), _. split; [subst h3 h2 h1; close_run|].
  split; [|discriminate]. intros n' Hn'. injection Hn' as <-. reflexivity.
Qed.

Lemma counts_writes_for_each {X : Type} (body : nat -> X -> M nat)
    (flag : X -> bool) (items : list X) :
  (forall n x, counts_writes (flag x) n (body n x)) ->
  forall n, counts_writes (existsb flag items) n (for_each body items n).
Proof.
  intros Hbody. induction items as [|x rest IH]; intros n h; simpl.
  - exists (Ret n), []. rewrite app_nil_r. repeat split.
    intros n' Hn'. injection Hn' as <-. simpl. lia.
  - unfold mbind. destruct (Hbody n x h) as (r & evs & -> & Hcount & Hquiet).
    destruct r as [n1|e].
    + destruct (IH n1 (h ++ evs)%list) as (r' & evs' & -> & Hcount' & Hquiet').
      exists r', (evs ++ evs')%list. rewrite app_assoc. split; [reflexivity|].
      split.
      * intros n' Hn'. rewrite written_app, length_app.
        rewrite (Hcount' n' Hn'), (Hcount n1 eq_refl). lia.
      * intros Hoff. apply orb_false_iff in Hoff as [Hx Hrest].
        now rewrite (Hquiet Hx), (Hquiet' Hrest).
    + exists (Raise e), evs. split; [reflexivity|]. split; [discriminate|].
      intros Hoff. apply orb_false_iff in Hoff as [Hx _]. now apply Hquiet.
Qed.

Lemma counts_writes_save_page_images `{Builtins} `{Environment}
    (output_dir : string) (n : nat) (page : value) :
  counts_writes (page_has_payload page) n (save_page_images output_dir n page).
Proof.
  unfold save_page_images, page_has_payload.
  destruct (truthy_attr page "images") as [imgs|].
  - unfold mbind, lift. destruct (py_iter imgs) as [items|e].
    + apply counts_writes_for_each. intros k img.
      apply counts_writes_save_image.
    + intros h. exists (Raise e), []. rewrite app_nil_r.
      repeat split; discriminate.
  - intros h. exists (Ret n), []. rewrite app_nil_r. repeat split.
    intros n' Hn'. injection Hn' as <-. simpl. lia.
Qed.

Lemma written_no_file_write (evs : list event) :
  filter is_file_write evs = [] -> written evs = [].
Proof.
  induction evs as [|[c r] evs IH]; simpl; [reflexivity|].
  destruct c; simpl; try exact IH; discriminate.
Qed.

(** The whole function on any value: what it returns, what it prints last,
    and what it leaves alone when no image carries data. *)
Lemma save_images_from_ocr_run `{Builtins} `{Environment} (result : value)
    (output_dir : string) (h : list event) :
  exists (r : outcome value) (evs : list event),
    save_images_from_ocr result output_dir h = (r, (h ++ evs)%list) /\
    (forall v, r = Ret v ->
               v = VNone /\
               last_message evs
               = Some (count_message (length (written evs)) output_dir)) /\
    (carries_image_data result = false -> filter is_file_write evs = []).
Proof.
  unfold save_images_from_ocr, carries_image_data, attr.
  unfold mbind at 1. unfold perform at 1. cbv zeta.
  destruct (respond h (Mkdir output_dir)) as [v0|e] eqn:E0.
  2:{ eexists (Raise e), _. split; [reflexivity|].
      split; [discriminate|reflexivity]. }
  set (h0 := (h ++ [(Mkdir output_dir, Ret v0)])%list).
  unfold mbind at 1, lift at 1.
  destruct (getattr result "pages") as [pages|].
  2:{ eexists (Raise _), _. split; [reflexivity|].
      split; [discriminate|reflexivity]. }
  unfold mbind at 1, lift at 1.
  destruct (py_iter pages) as [items|e].
  2:{ eexists (Raise _), _. split; [reflexivity|].
      split; [discriminate|reflexivity]. }
  unfold mbind at 1.
  destruct (counts_writes_for_each (save_page_images output_dir)
              page_has_payload items
              (counts_writes_save_page_images output_dir) 0 h0)
    as (r & evs & -> & Hcount & Hquiet).
  destruct r as [n|e].
  2:{ exists (Raise e), ((Mkdir output_dir, Ret v0) :: evs).
      split; [subst h0; now rewrite app_cons_assoc|].
      split; [discriminate|]. intros Hoff. now rewrite (Hquiet Hoff). }
  specialize (Hcount n eq_refl). simpl in Hcount. subst n.
  fold (count_message (length (written evs)) output_dir).
  unfold mbind, perform, ret. cbv zeta.
  set (msg := count_message (length (written evs)) output_dir).
  destruct (respond (h0 ++ evs)%list (Print msg)) as [v1|e] eqn:E1.
  - exists (Ret VNone),
      ((Mkdir output_dir, Ret v0) :: evs ++ [(Print msg, Ret v1)])%list.
    split; [subst h0; now rewrite <- !app_assoc|].
    split.
    + intros v Hv. injection Hv as <-. split; [reflexivity|].
      rewrite app_comm_cons, last_message_snoc, written_app. simpl.
      now rewrite app_nil_r.
    + intros Hoff. rewrite (Hquiet Hoff). reflexivity.
  - exists (Raise e),
      ((Mkdir output_dir, Ret v0) :: evs ++ [(Print msg, Raise e)])%list.
    split; [subst h0; now rewrite <- !app_assoc|].
    split; [discriminate|].
    intros Hoff. rewrite (Hquiet Hoff). reflexivity.
Qed.

(** C9.  [save_images_from_ocr] reads [ocr_response.pages] without looking
    at the shape first: on a mapping with the key ["pages"] and on a list it
    creates the output directory and then raises (AttributeError when the
    directory could be created), writing no image and printing nothing. *)
Theorem save_images_needs_pages_attribute `{Builtins} `{Environment}
    (result : value) (output_dir : string) (h : list event) :
  mapping_or_list result = true ->
  exists e : exn,
    save_images_from_ocr result output_dir h
    = (Raise e, (h ++ [(Mkdir output_dir, respond h (Mkdir output_dir))])%list) /\
    (forall v, respond h (Mkdir output_dir) = Ret v ->
               e = AttributeError "pages").
Proof.
  intros Hshape. unfold save_images_from_ocr, mbind, perform, lift, attr.
  cbv zeta.
  assert (Hattr : getattr result "pages" = None)
    by (destruct result; try discriminate; reflexivity).
  rewrite Hattr.
  destruct (respond h (Mkdir output_dir)) as [v|e].
  - exists (AttributeError "pages"). split; [reflexivity|now intros].
  - exists e. split; [reflexivity|discriminate].
Qed.

Lemma save_images_needs_pages_attribute_witness :
  (exists e : exn,
      @save_images_from_ocr sample_builtins (obliging VNone)
        (VDict [("pages", VList [])]) "out" []
      = (Raise e, [(Mkdir "out", Ret VNone)]) /\
      (forall v, Ret VNone = Ret v -> e = AttributeError "pages")) /\
  (exists e : exn,
      @save_images_from_ocr sample_builtins (obliging VNone) (VList []) "out" []
      = (Raise e, [(Mkdir "out", Ret VNone)]) /\
      (forall v, Ret VNone = Ret v -> e = AttributeError "pages")).
Proof.
  split.
  - apply (@save_images_needs_pages_attribute sample_builtins (obliging VNone)
             (VDict [("pages", VList [])]) "out" []).
    reflexivity.
  - apply (@save_images_needs_pages_attribute sample_builtins (obliging VNone)
             (VList []) "out" []).
    reflexivity.
Defined.

(** ** [save_images_from_ocr] on an encoded document, in a world that
       cooperates *)

Lemma writes_exactly_save_image `{Builtins} `{Environment} (output_dir : string)
    (n : nat) (r : ImageRef) :
  cooperative ->
  (forall d, base64_data r = Some d -> d <> "" ->
             exists data, b64decode (VStr d) = Ret data) ->
  writes_exactly (image_files output_dir r) n
    (save_image output_dir n (encode_image AsObject r)).
Proof.
  intros Hcoop Hdec h.
  assert (Hskip : exists evs : list event,
             @ret nat n h = (Ret (n + length (@nil (string * string * string))),
                             (h ++ evs)%list)
             /\ written evs = []).
  { exists []. unfold ret. simpl. now rewrite Nat.add_0_r, app_nil_r. }
  unfold save_image, truthy_attr, encode_image, image_files, attr. simpl.
  destruct (base64_data r) as [d|]; [|exact Hskip].
  simpl. destruct (String.eqb_spec d "") as [->|Hne]; [exact Hskip|].
  simpl. destruct (Hdec d eq_refl Hne) as [data Hdata]. rewrite Hdata.
  unfold mbind, lift, perform, finally, ret. cbv zeta.
  change (format_value (VStr (image_id r))) with (image_id r).
  destruct (Hcoop h (OpenWrite output_dir (image_id r))) as [v1 E1].
  rewrite E1.
  set (h1 := (h ++ [(OpenWrite output_dir (image_id r), Ret v1)])%list).
  destruct (Hcoop h1 (WriteBytes output_dir (image_id r) data)) as [v2 E2].
  rewrite E2.
  set (h2 := (h1 ++ [(WriteBytes output_dir (image_id r) data, Ret v2)])%list).
  destruct (Hcoop h2 (CloseWrite output_dir (image_id r))) as [v3 E3].
  rewrite E3.
  set (h3 := (h2 ++ [(CloseWrite output_dir (image_id r), Ret v3)])%list).
  destruct (Hcoop h3 (Print (MsgSavedImage output_dir (image_id r)))) as [v4 E4].
  rewrite E4.
  eexists. split; [subst h3 h2 h1; close_run|]. reflexivity.
Qed.

Lemma writes_exactly_for_each {X Y : Type} (body : nat -> Y -> M nat)
    (f : X -> Y) (files : X -> list (string * string * string)) (xs : list X) :
  (forall n x, In x xs -> writes_exactly (files x) n (body n (f x))) ->
  forall n, writes_exactly (flat_map files xs) n (for_each body (map f xs) n).
Proof.
  induction xs as [|x rest IH]; intros Hbody n h; simpl.
  - exists []. unfold ret. now rewrite Nat.add_0_r, app_nil_r.
  - unfold mbind.
    destruct (Hbody n x (or_introl eq_refl) h) as (evs & -> & Hevs).
    destruct (IH (fun k y Hy => Hbody k y (or_intror Hy))
                 (n + length (files x)) (h ++ evs)%list)
      as (evs' & -> & Hevs').
    exists (evs ++ evs')%list. split.
    + now rewrite length_app, Nat.add_assoc, app_assoc.
    + now rewrite written_app, Hevs, Hevs'.
Qed.

Lemma writes_exactly_save_page_images `{Builtins} `{Environment}
    (output_dir : string) (n : nat) (p : Page) :
  cooperative ->
  (forall r d, In r (page_images p) -> base64_data r = Some d -> d <> "" ->
               exists data, b64decode (VStr d) = Ret data) ->
  writes_exactly (flat_map (image_files output_dir) (page_images p)) n
    (save_page_images output_dir n (encode_page AsObject p)).
Proof.
  intros Hcoop Hdec.
  unfold save_page_images, truthy_attr, encode_page. simpl.
  destruct (page_images p) as [|r rest] eqn:Himgs.
  - intros h. exists []. unfold ret. simpl. now rewrite Nat.add_0_r, app_nil_r.
  - cbn [truthy map py_iter]. unfold mbind at 1, lift at 1.
    intros h.
    apply (writes_exactly_for_each (save_image output_dir)
             (encode_image AsObject) (image_files output_dir) (r :: rest)).
    intros k x Hx. apply writes_exactly_save_image; [exact Hcoop|].
    intros d. now apply Hdec.
Qed.

(** In a cooperating world, an attribute-bearing encoded document whose
    payloads decode is saved in full: one file per image with non-empty
    data, in page and image order, and the count of these files reported. *)
Lemma save_images_from_ocr_encoded `{Builtins} `{Environment} (doc : Document)
    (output_dir : string) (h : list event) :
  cooperative -> decodable doc ->
  exists evs : list event,
    save_images_from_ocr (encode (AttrShape AsObject) doc) output_dir h
    = (Ret VNone, (h ++ evs)%list) /\
    written evs = document_files output_dir doc /\
    last_message evs
    = Some (count_message (length (document_files output_dir doc)) output_dir).
Proof.
  intros Hcoop Hdec. unfold save_images_from_ocr, encode, attr. simpl.
  unfold mbind at 1. unfold perform at 1. cbv zeta.
  destruct (Hcoop h (Mkdir output_dir)) as [v0 E0]. rewrite E0.
  set (h0 := (h ++ [(Mkdir output_dir, Ret v0)])%list).
  unfold mbind at 1, lift at 1. unfold mbind at 1, lift at 1.
  unfold mbind at 1. cbn [py_iter].
  destruct (writes_exactly_for_each (save_page_images output_dir)
              (encode_page AsObject)
              (fun p => flat_map (image_files output_dir) (page_images p)) doc)
    with (n := 0) (h := h0) as (evs & -> & Hevs).
  { intros k p Hp. apply writes_exactly_save_page_images; [exact Hcoop|].
    intros r d Hr. now apply (Hdec p r d). }
  fold (document_files output_dir doc) in *. cbn [Nat.add].
  fold (count_message (length (document_files output_dir doc)) output_dir).
  set (msg := count_message (length (document_files output_dir doc)) output_dir).
  unfold mbind, perform, ret. cbv zeta.
  destruct (Hcoop (h0 ++ evs)%list (Print msg)) as [v1 E1]. rewrite E1.
  exists ((Mkdir output_dir, Ret v0) :: evs ++ [(Print msg, Ret v1)])%list.
  split; [subst h0; now rewrite <- !app_assoc|].
  rewrite app_comm_cons, last_message_snoc, written_app. simpl.
  now rewrite app_nil_r.
Qed.

(** ** The claims about images *)




(** C6 as stated fails: the function has no [return], so what it returns is
    [None], whether no image was written or one was. *)
Lemma save_images_returns_none :
  @save_images_from_ocr sample_builtins (obliging VNone)
    (VObj [("pages", VList [])]) "out" []
  = (Ret VNone, [(Mkdir "out", Ret VNone); (Print MsgNoImages, Ret VNone)]) /\
  fst (@save_images_from_ocr sample_builtins (obliging VNone)
         (VObj [("pages", VList [])]) "out" [])
  <> Ret (VInt 0) /\
  (let one := encode (AttrShape AsObject)
                [ {| page_markdown := "";
                     page_images := [ {| image_id := "img1";
                                         base64_data := Some "aGk=" |} ] |} ] in
   written (snd (@save_images_from_ocr sample_builtins (obliging VNone) one "out" []))
   = [("out", "img1", "hi")] /\
   fst (@save_images_from_ocr sample_builtins (obliging VNone) one "out" [])
   <> Ret (VInt 1)).
Proof.
  repeat split; try reflexivity; vm_compute; discriminate.
Qed.

(** C6, as the code has it.  [save_images_from_ocr] returns [None]; the
    count of images written is what its last message reports ("Saved n
    images" for n > 0, "No images found" for 0).  On a result none of whose
    pages has an image with non-empty base-64 data, no image file is opened
    or written and the message is "No images found".  On an encoded
    document, in a cooperating world, the function does return, after
    writing one file per image with non-empty data. *)
Theorem save_images_reports_count `{Builtins} `{Environment}
    (output_dir : string) (h : list event) :
  (forall result : value,
      exists (r : outcome value) (evs : list event),
        save_images_from_ocr result output_dir h = (r, (h ++ evs)%list) /\
        (forall v, r = Ret v ->
                   v = VNone /\
                   last_message evs
                   = Some (count_message (length (written evs)) output_dir)) /\
        (carries_image_data result = false ->
         filter is_file_write evs = [] /\
         (forall v, r = Ret v -> last_message evs = Some MsgNoImages))) /\
  (forall doc : Document,
      cooperative -> decodable doc ->
      exists evs : list event,
        save_images_from_ocr (encode (AttrShape AsObject) doc) output_dir h
        = (Ret VNone, (h ++ evs)%list) /\
        written evs = document_files output_dir doc /\
        last_message evs
        = Some (count_message (length (document_files output_dir doc)) output_dir)).
Proof.
  split.
  - intros result.
    destruct (save_images_from_ocr_run result output_dir h)
      as (r & evs & Hrun & Hret & Hquiet).
    exists r, evs. split; [exact Hrun|]. split; [exact Hret|].
    intros Hoff. specialize (Hquiet Hoff). split; [exact Hquiet|].
    intros v Hv. destruct (Hret v Hv) as [_ Hmsg].
    now rewrite Hmsg, (written_no_file_write _ Hquiet).
  - intros doc. apply save_images_from_ocr_encoded.
Qed.

Lemma save_images_reports_count_witness :
  exists evs : list event,
    @save_images_from_ocr sample_builtins (obliging VNone)
      (encode (AttrShape AsObject)
         [ {| page_markdown := "";
              page_images := [ {| image_id := "img1"; base64_data := Some "aGk=" |};
                               {| image_id := "img2"; base64_data := None |} ] |} ])
      "out" []
    = (Ret VNone, ([] ++ evs)%list) /\
    written evs
    = @document_files sample_builtins "out"
        [ {| page_markdown := "";
             page_images := [ {| image_id := "img1"; base64_data := Some "aGk=" |};
                              {| image_id := "img2"; base64_data := None |} ] |} ] /\
    last_message evs
    = Some (count_message
              (length (@document_files sample_builtins "out"
                         [ {| page_markdown := "";
                              page_images := [ {| image_id := "img1";
                                                  base64_data := Some "aGk=" |};
                                               {| image_id := "img2";
                                                  base64_data := None |} ] |} ]))
              "out").
Proof.
  apply (proj2 (@save_images_reports_count sample_builtins (obliging VNone) "out" [])).
  - intros h c. destruct c; eexists; reflexivity.
  - intros p r d Hp Hr Hd Hne.
    destruct Hp as [<-|[]]. destruct Hr as [<-|[<-|[]]]; simpl in Hd.
    + injection Hd as <-. now exists "hi".
    + discriminate.
Defined.

(* ================================================================== *)
(** * Further properties of the code *)
(* ================================================================== *)

(** ** The script's extractor (main.py) *)

Lemma comprehension_map {A B C : Type} (f : B -> outcome C) (g : A -> B)
    (k : A -> C) (xs : list A) :
  (forall x, In x xs -> f (g x) = Ret (k x)) ->
  MainPyScript.comprehension f (map g xs) = Ret (map k xs).
Proof.
  induction xs as [|x rest IH]; intros Hf; simpl; [reflexivity|].
  rewrite (Hf x (or_introl eq_refl)). simpl.
  now rewrite (IH (fun y Hy => Hf y (or_intror Hy))).
Qed.

Lemma strings_of_strings (parts : list string) :
  MainPyScript.strings_of (map VStr parts) = Ret parts.
Proof.
  induction parts as [|s rest IH]; simpl; [reflexivity|now rewrite IH].
Qed.

(** X1.  On a document that arrives as a mapping with the key ["pages"] or
    as a list of pages (objects or mappings), the script's extractor returns
    the pages' markdown texts in page order joined by the separator, with no
    page header and no leading blank lines. *)
Theorem script_joins_page_texts `{Builtins} (s : shape) (doc : Document) :
  mapping_or_list (encode s doc) = true ->
  MainPyScript.extract_markdown_from_result (encode s doc)
  = Ret (join separator (map page_markdown doc)).
Proof.
  destruct s as [f| |f]; intros Hshape; try discriminate;
    unfold MainPyScript.extract_markdown_from_result, MainPyScript.py_join, encode;
    simpl.
  - rewrite (comprehension_map _ _ (fun p => VStr (page_markdown p)));
      [|reflexivity].
    simpl. now rewrite <- map_map, strings_of_strings.
  - rewrite (comprehension_map _ _ (fun p => VStr (page_markdown p)));
      [|intros p _; now destruct f].
    simpl. now rewrite <- map_map, strings_of_strings.
Qed.

Lemma script_joins_page_texts_witness :
  @MainPyScript.extract_markdown_from_result sample_builtins
    (encode (ListShape AsObject)
       [ {| page_markdown := "A"; page_images := [] |};
         {| page_markdown := "B"; page_images := [] |} ])
  = Ret (join separator
           (map page_markdown
              [ {| page_markdown := "A"; page_images := [] |};
                {| page_markdown := "B"; page_images := [] |} ])).
Proof.
  apply (@script_joins_page_texts sample_builtins (ListShape AsObject)).
  reflexivity.
Defined.

(** X2.  A page mapping without the key ["markdown"] counts as the empty
    text in the script's extractor: when every page is a mapping whose
    markdown, if present, is a string, the result (as a mapping with
    ["pages"] and as a bare list alike) is the join of the texts, the empty
    string standing in for each missing one. *)
Theorem script_defaults_missing_markdown `{Builtins}
    (pages : list (list (string * value))) (texts : list string) :
  Forall2 (fun entries text =>
             assoc "markdown" entries = Some (VStr text) \/
             (assoc "markdown" entries = None /\ text = ""))
          pages texts ->
  MainPyScript.extract_markdown_from_result
    (VDict [("pages", VList (map VDict pages))])
  = Ret (join separator texts) /\
  MainPyScript.extract_markdown_from_result (VList (map VDict pages))
  = Ret (join separator texts).
Proof.
  intros Hpages.
  assert (Hget : MainPyScript.comprehension MainPyScript.get_markdown
                   (map VDict pages) = Ret (map VStr texts)).
  { induction Hpages as [|entries text pages' texts' Hhead _ IH]; simpl;
      [reflexivity|].
    rewrite IH. now destruct Hhead as [-> | [-> ->]]. }
  assert (Hlist : MainPyScript.comprehension MainPyScript.markdown_or_get
                    (map VDict pages) = Ret (map VStr texts)).
  { clear Hget.
    induction Hpages as [|entries text pages' texts' Hhead _ IH]; simpl;
      [reflexivity|].
    rewrite IH. unfold MainPyScript.markdown_or_get. simpl.
    now destruct Hhead as [-> | [-> ->]]. }
  unfold MainPyScript.extract_markdown_from_result, MainPyScript.py_join.
  simpl. rewrite Hget, Hlist. simpl. now rewrite strings_of_strings.
Qed.

Lemma script_defaults_missing_markdown_witness :
  @MainPyScript.extract_markdown_from_result sample_builtins
    (VDict [("pages", VList (map VDict [[("markdown", VStr "A")]; [("index", VInt 1)]]))])
  = Ret (join separator ["A"; ""]) /\
  @MainPyScript.extract_markdown_from_result sample_builtins
    (VList (map VDict [[("markdown", VStr "A")]; [("index", VInt 1)]]))
  = Ret (join separator ["A"; ""]).
Proof.
  apply (@script_defaults_missing_markdown sample_builtins).
  apply Forall2_cons; [left; reflexivity|].
  apply Forall2_cons; [right; split; reflexivity|].
  apply Forall2_nil.
Defined.

Lemma comprehension_stops {A B : Type} (f : A -> outcome B) (good : list A)
    (bad : A) (rest : list A) (ys : list B) (e : exn) :
  MainPyScript.comprehension f good = Ret ys ->
  f bad = Raise e ->
  MainPyScript.comprehension f (good ++ bad :: rest) = Raise e.
Proof.
  revert ys. induction good as [|x good IH]; intros ys Hgood Hbad; simpl in *.
  - now rewrite Hbad.
  - destruct (f x) as [y|e']; simpl in *; [|discriminate].
    destruct (MainPyScript.comprehension f good) as [ys'|e'] eqn:E;
      simpl in *; [|discriminate].
    now rewrite (IH ys' eq_refl Hbad).
Qed.

Lemma sections_from_app (body : nat -> value -> outcome string)
    (front back : list value) :
  forall i : nat,
    sections_from body i (front ++ back)
    = let* a := sections_from body i front in
      let* b := sections_from body (i + length front) back in
      Ret (a ++ b)%list.
Proof.
  induction front as [|page front IH]; intros i; simpl.
  - rewrite Nat.add_0_r. now destruct (sections_from body i back).
  - destruct (body i page) as [sec|e]; simpl; [|reflexivity].
    rewrite IH, Nat.add_succ_r. simpl.
    destruct (sections_from body (S i) front) as [a|e]; simpl; [|reflexivity].
    now destruct (sections_from body (S (i + length front)) back).
Qed.

(** X3.  A page of a list that is neither a mapping nor an object with a
    [markdown] attribute (an integer, [None], an object with other
    attributes only) is treated differently by the two extractors: the
    script's (main.py) calls [page.get] on it and raises AttributeError,
    whatever follows the page, while the one of ocr_pdf.py gives the page a
    section made of its header alone. *)
Theorem page_without_markdown_in_list `{Builtins} (f : page_form)
    (before after : Document) (page : value) (after_any : list value)
    (include_images : bool) (images_dir : option string) :
  (forall entries, page <> VDict entries) ->
  getattr page "markdown" = None ->
  getattr page "get" = None ->
  MainPyScript.extract_markdown_from_result
    (VList (map (encode_page f) before ++ page :: after_any))
  = Raise (AttributeError "get") /\
  extract_markdown_from_result
    (VList (map (encode_page f) before ++ page :: map (encode_page f) after))
    include_images images_dir
  = Ret (nl2 ++ join separator
                  (mapi_from (fun i p => header i ++ page_markdown p) 0 before
                   ++ header (length before)
                   :: mapi_from (fun i p => header i ++ page_markdown p)
                                (S (length before)) after)).
Proof.
  intros Hnodict Hmd Hget. split.
  - unfold MainPyScript.extract_markdown_from_result.
    rewrite (comprehension_stops MainPyScript.markdown_or_get
               (map (encode_page f) before) page after_any
               (map (fun p => VStr (page_markdown p)) before)
               (AttributeError "get")); [reflexivity| |].
    + apply comprehension_map. intros p _. now destruct f.
    + unfold MainPyScript.markdown_or_get, MainPyScript.get_markdown.
      rewrite Hmd, Hget. destruct page; try reflexivity.
      now elim (Hnodict entries).
  - unfold extract_markdown_from_result, collect_pages. simpl.
    rewrite enumerate_pages_sections, sections_from_app.
    rewrite (sections_from_map list_section (encode_page f)
               (fun i p => header i ++ page_markdown p));
      [|intros i p; apply list_section_encoded].
    cbn [bind sections_from Nat.add]. rewrite length_map.
    assert (Hpage : list_section (length before) page = Ret (header (length before))).
    { unfold list_section, add_markdown. rewrite Hmd.
      destruct page; try reflexivity. now elim (Hnodict entries). }
    rewrite Hpage. cbn [bind].
    rewrite (sections_from_map list_section (encode_page f)
               (fun i p => header i ++ page_markdown p));
      [|intros i p; apply list_section_encoded].
    reflexivity.
Qed.

Lemma page_without_markdown_in_list_witness :
  @MainPyScript.extract_markdown_from_result sample_builtins
    (VList (map (encode_page AsObject) [ {| page_markdown := "A"; page_images := [] |} ]
            ++ VObj [("index", VInt 1)] :: [VInt 7]))
  = Raise (AttributeError "get") /\
  @extract_markdown_from_result sample_builtins
    (VList (map (encode_page AsObject) [ {| page_markdown := "A"; page_images := [] |} ]
            ++ VObj [("index", VInt 1)]
            :: map (encode_page AsObject) [ {| page_markdown := "C"; page_images := [] |} ]))
    false None
  = Ret (nl2 ++ join separator
                  (mapi_from (fun i p => header i ++ page_markdown p) 0
                             [ {| page_markdown := "A"; page_images := [] |} ]
                   ++ header 1
                   :: mapi_from (fun i p => header i ++ page_markdown p) 2
                                [ {| page_markdown := "C"; page_images := [] |} ])).
Proof.
  apply (@page_without_markdown_in_list sample_builtins AsObject
           [ {| page_markdown := "A"; page_images := [] |} ]
           [ {| page_markdown := "C"; page_images := [] |} ]
           (VObj [("index", VInt 1)]) [VInt 7] false None);
    [discriminate|reflexivity|reflexivity].
Defined.

(** ** [obj_to_dict] *)

Lemma obj_to_dict_fields_free (entries : list (string * value)) :
  Forall (fun kv => object_free (obj_to_dict (snd kv)) = true) entries ->
  object_free (obj_to_dict (VDict entries)) = true /\
  object_free (obj_to_dict (VObj entries)) = true.
Proof.
  intros Hall. simpl.
  induction Hall as [|[k v] rest Hv _ [IHd IHo]]; [split; reflexivity|].
  simpl in Hv. split.
  - now rewrite Hv.
  - destruct (is_private k); [exact IHo|now rewrite Hv].
Qed.

(** Of the values without tuples, [obj_to_dict] leaves no object. *)
Lemma obj_to_dict_object_free (v : value) :
  object_free (obj_to_dict v) = true.
Proof.
  induction v as [| | | |items IH|entries IH|attrs IH] using value_nested_ind;
    try reflexivity.
  - simpl. induction IH as [|x rest Hx _ IHrest]; [reflexivity|].
    simpl. now rewrite Hx.
  - now apply obj_to_dict_fields_free.
  - now apply obj_to_dict_fields_free.
Qed.

(** X5.  A value without objects is returned unchanged by [obj_to_dict]
    (private-looking keys of mappings included); so converting twice is the
    same as converting once. *)
Theorem obj_to_dict_fixes_plain_values (v : value) :
  (object_free v = true -> obj_to_dict v = v) /\
  obj_to_dict (obj_to_dict v) = obj_to_dict v.
Proof.
  assert (Hfix : forall w, object_free w = true -> obj_to_dict w = w).
  { intros w.
    induction w as [| | | |items IH|entries IH|attrs IH] using value_nested_ind;
      intros Hfree; try reflexivity; try discriminate.
    - simpl in *. f_equal.
      induction IH as [|x rest Hx _ IHrest]; [reflexivity|].
      simpl in *. apply andb_true_iff in Hfree as [Hx' Hrest'].
      now rewrite (Hx Hx'), (IHrest Hrest').
    - simpl in *. f_equal.
      induction IH as [|[k x] rest Hx _ IHrest]; [reflexivity|].
      simpl in *. apply andb_true_iff in Hfree as [Hx' Hrest'].
      now rewrite (Hx Hx'), (IHrest Hrest'). }
  split; [apply Hfix|]. apply Hfix, obj_to_dict_object_free.
Qed.

Lemma obj_to_dict_fixes_plain_values_witness :
  obj_to_dict (VDict [("_raw", VList [VInt 1; VStr "x"]); ("pages", VList [])])
  = VDict [("_raw", VList [VInt 1; VStr "x"]); ("pages", VList [])].
Proof.
  apply (proj1 (obj_to_dict_fixes_plain_values
                  (VDict [("_raw", VList [VInt 1; VStr "x"]); ("pages", VList [])]))).
  reflexivity.
Defined.

(** X6.  Looking a name up after the conversion: a public attribute of an
    object is found with its value converted, a private one (leading
    underscore) is gone; a key of a mapping is always kept, its value
    converted. *)
Theorem obj_to_dict_lookup (fields : list (string * value)) (k : string) :
  assoc k (converted_entries (VObj fields))
  = (if is_private k then None
     else option_map obj_to_dict (assoc k fields)) /\
  assoc k (converted_entries (VDict fields))
  = option_map obj_to_dict (assoc k fields).
Proof.
  unfold converted_entries. simpl. split.
  - induction fields as [|[k' v] rest IH]; simpl.
    + now destruct (is_private k).
    + destruct (String.eqb_spec k k') as [<-|Hne].
      * destruct (is_private k) eqn:Hk; [exact IH|].
        simpl. now rewrite String.eqb_refl.
      * destruct (is_private k'); [exact IH|].
        simpl. destruct (String.eqb_spec k k'); [contradiction|exact IH].
  - induction fields as [|[k' v] rest IH]; simpl; [reflexivity|].
    now destruct (String.eqb k k').
Qed.

(** ** [obj_to_dict] and tuples *)

Lemma wide_obj_to_dict_free (v : Wide.tvalue) :
  Wide.object_free (Wide.obj_to_dict v) = Wide.tuples_object_free v.
Proof.
  induction v as [| | | |items IH|items IH|entries IH|attrs IH]
    using Wide.tvalue_nested_ind; try reflexivity.
  - cbn [Wide.obj_to_dict Wide.object_free Wide.tuples_object_free].
    induction IH as [|x rest Hx _ IHrest]; [reflexivity|].
    cbn [map forallb]. now rewrite Hx, IHrest.
  - cbn [Wide.obj_to_dict Wide.object_free Wide.tuples_object_free].
    induction IH as [|[k x] rest Hx _ IHrest]; [reflexivity|].
    cbn [snd] in Hx. now rewrite Hx, IHrest.
  - cbn [Wide.obj_to_dict Wide.object_free Wide.tuples_object_free].
    induction IH as [|[k x] rest Hx _ IHrest]; [reflexivity|].
    cbn [snd] in Hx. destruct (is_private k); cbn [orb andb].
    + exact IHrest.
    + now rewrite Hx, IHrest.
Qed.

Lemma wide_obj_to_dict_widen (w : value) :
  Wide.obj_to_dict (Wide.widen w) = Wide.widen (obj_to_dict w).
Proof.
  induction w as [| | | |items IH|entries IH|attrs IH] using value_nested_ind;
    try reflexivity.
  - cbn [Wide.widen obj_to_dict Wide.obj_to_dict]. f_equal.
    induction IH as [|x rest Hx _ IHrest]; [reflexivity|].
    cbn [map]. now rewrite Hx, IHrest.
  - cbn [Wide.widen obj_to_dict Wide.obj_to_dict]. f_equal.
    induction IH as [|[k x] rest Hx _ IHrest]; [reflexivity|].
    cbn [snd] in Hx. now rewrite Hx, IHrest.
  - cbn [Wide.widen obj_to_dict Wide.obj_to_dict]. f_equal.
    induction IH as [|[k x] rest Hx _ IHrest]; [reflexivity|].
    cbn [snd] in Hx. destruct (is_private k); [exact IHrest|].
    now rewrite Hx, IHrest.
Qed.

Lemma widen_tuples_object_free (w : value) :
  Wide.tuples_object_free (Wide.widen w) = true.
Proof.
  induction w as [| | | |items IH|entries IH|attrs IH] using value_nested_ind;
    try reflexivity.
  - cbn [Wide.widen Wide.tuples_object_free].
    induction IH as [|x rest Hx _ IHrest]; [reflexivity|].
    cbn [map forallb]. now rewrite Hx, IHrest.
  - cbn [Wide.widen Wide.tuples_object_free].
    induction IH as [|[k x] rest Hx _ IHrest]; [reflexivity|].
    cbn [snd] in Hx. now rewrite Hx, IHrest.
  - cbn [Wide.widen Wide.tuples_object_free].
    induction IH as [|[k x] rest Hx _ IHrest]; [reflexivity|].
    cbn [snd] in Hx. now rewrite Hx, orb_true_r, IHrest.
Qed.

(** X4.  [obj_to_dict] converts the objects it reaches through list items,
    mapping entries and public attributes, and nothing else: a tuple is
    returned as it is, objects inside it included.  So what it returns is
    free of objects exactly when no object sits inside a tuple reached that
    way, which is always the case of a value without tuples; on such values
    the conversion is [obj_to_dict] as defined on [value]. *)
Theorem obj_to_dict_converts_outside_tuples (v : Wide.tvalue)
    (items : list Wide.tvalue) (w : value) :
  Wide.object_free (Wide.obj_to_dict v) = Wide.tuples_object_free v /\
  Wide.obj_to_dict (Wide.TTuple items) = Wide.TTuple items /\
  Wide.obj_to_dict (Wide.widen w) = Wide.widen (obj_to_dict w) /\
  Wide.object_free (Wide.obj_to_dict (Wide.widen w)) = true.
Proof.
  split; [apply wide_obj_to_dict_free|]. split; [reflexivity|].
  split; [apply wide_obj_to_dict_widen|].
  rewrite wide_obj_to_dict_free. apply widen_tuples_object_free.
Qed.

(** X7.  What [process_and_save_results] hands to [json.dump] is the result
    converted by [obj_to_dict] when the result has a [__dict__], and the
    result itself otherwise.  So the payload of an object is free of objects
    exactly when the object holds none inside a tuple reached through list
    items, mapping entries and public attributes, while a result that is a
    list, a mapping or a tuple is passed on with every object it holds: a
    response object whose page carries a tuple with an object in it gives a
    payload that still holds that object. *)
Theorem result_dict_objects_left (result : Wide.tvalue) (w : value) :
  Wide.object_free (Wide.result_dict result)
  = (if Wide.has_dict result
     then Wide.tuples_object_free result
     else Wide.object_free result) /\
  Wide.result_dict (Wide.widen w) = Wide.widen (result_dict w) /\
  Wide.object_free (Wide.result_dict Wide.tuple_response) = false.
Proof.
  split; [|split; [|reflexivity]].
  - unfold Wide.result_dict. destruct (Wide.has_dict result); [|reflexivity].
    apply wide_obj_to_dict_free.
  - unfold Wide.result_dict, result_dict.
    destruct w; try reflexivity.
    exact (wide_obj_to_dict_widen (VObj attrs)).
Qed.

(** ** Shapes the extractors and the image extractor are strict about *)

(** X8.  Only the branch for a mapping with the key ["pages"] tests
    ["markdown" in page] without first checking that the page is a mapping.
    So a page that is [None] or a number makes [extract_markdown_from_result]
    raise TypeError there, at that page and whatever the options and the
    pages after it (the script's extractor of main.py calls [page.get] and
    raises AttributeError), while the same pages under the attribute [pages]
    of an object are rendered, that page as a section made of its header
    alone. *)
Theorem scalar_page_raises_under_mapping `{Builtins} (before after : Document)
    (page : value) (after_any : list value)
    (include_images : bool) (images_dir : option string) :
  is_scalar page = true ->
  extract_markdown_from_result
    (VDict [("pages",
             VList (map (encode_page AsMapping) before ++ page :: after_any))])
    include_images images_dir
  = Raise TypeError /\
  MainPyScript.extract_markdown_from_result
    (VDict [("pages",
             VList (map (encode_page AsMapping) before ++ page :: after_any))])
  = Raise (AttributeError "get") /\
  extract_markdown_from_result
    (VObj [("pages",
            VList (map (encode_page AsMapping) before
                   ++ page :: map (encode_page AsMapping) after))])
    include_images images_dir
  = Ret (nl2 ++ join separator
                  (mapi_from (fun i p => header i ++ page_markdown p) 0 before
                   ++ header (length before)
                   :: mapi_from (fun i p => header i ++ page_markdown p)
                                (S (length before)) after)).
Proof.
  intros Hscalar. split; [|split].
  - unfold extract_markdown_from_result, collect_pages.
    cbn [hasattr getattr assoc String.eqb Ascii.eqb Bool.eqb py_iter bind].
    rewrite enumerate_pages_sections, sections_from_app.
    rewrite (sections_from_map mapping_section (encode_page AsMapping)
               (fun i p => header i ++ page_markdown p));
      [|intros i p; apply mapping_section_encoded].
    cbn [bind sections_from].
    assert (Hpage : forall i, mapping_section i page = Raise TypeError)
      by (intros i; destruct page; try discriminate; reflexivity).
    now rewrite Hpage.
  - unfold MainPyScript.extract_markdown_from_result.
    cbn [assoc String.eqb Ascii.eqb Bool.eqb py_iter bind].
    rewrite (comprehension_stops MainPyScript.get_markdown
               (map (encode_page AsMapping) before) page after_any
               (map (fun p => VStr (page_markdown p)) before)
               (AttributeError "get")); [reflexivity| |].
    + apply comprehension_map. now intros p _.
    + destruct page; try discriminate; reflexivity.
  - unfold extract_markdown_from_result, collect_pages.
    cbn [hasattr getattr attr assoc String.eqb Ascii.eqb Bool.eqb py_iter bind].
    rewrite enumerate_pages_sections, sections_from_app.
    rewrite (sections_from_map (attr_section include_images images_dir)
               (encode_page AsMapping)
               (fun i p => header i ++ page_markdown p));
      [|intros i p; apply attr_section_mapping].
    cbn [bind sections_from Nat.add]. rewrite length_map.
    assert (Hpage : attr_section include_images images_dir (length before) page
                    = Ret (header (length before))).
    { unfold attr_section, add_markdown, link_images, hasattr.
      destruct page; try discriminate; cbn [getattr bind];
        now rewrite andb_false_r. }
    rewrite Hpage. cbn [bind].
    rewrite (sections_from_map (attr_section include_images images_dir)
               (encode_page AsMapping)
               (fun i p => header i ++ page_markdown p));
      [|intros i p; apply attr_section_mapping].
    reflexivity.
Qed.

Lemma scalar_page_raises_under_mapping_witness :
  @extract_markdown_from_result sample_builtins
    (VDict [("pages",
             VList (map (encode_page AsMapping)
                      [ {| page_markdown := "A"; page_images := [] |} ]
                    ++ VNone :: [VStr "anything"]))])
    false None
  = Raise TypeError /\
  @MainPyScript.extract_markdown_from_result sample_builtins
    (VDict [("pages",
             VList (map (encode_page AsMapping)
                      [ {| page_markdown := "A"; page_images := [] |} ]
                    ++ VNone :: [VStr "anything"]))])
  = Raise (AttributeError "get") /\
  @extract_markdown_from_result sample_builtins
    (VObj [("pages",
            VList (map (encode_page AsMapping)
                     [ {| page_markdown := "A"; page_images := [] |} ]
                   ++ VNone
                      :: map (encode_page AsMapping)
                           [ {| page_markdown := "C"; page_images := [] |} ]))])
    false None
  = Ret (nl2 ++ join separator
                  (mapi_from (fun i p => header i ++ page_markdown p) 0
                     [ {| page_markdown := "A"; page_images := [] |} ]
                   ++ header 1
                      :: mapi_from (fun i p => header i ++ page_markdown p) 2
                           [ {| page_markdown := "C"; page_images := [] |} ])).
Proof.
  apply (@scalar_page_raises_under_mapping sample_builtins
           [ {| page_markdown := "A"; page_images := [] |} ]
           [ {| page_markdown := "C"; page_images := [] |} ]
           VNone [VStr "anything"] false None).
  reflexivity.
Defined.

Lemma mapping_pages_carry_nothing (doc : Document) :
  carries_image_data (encode (AttrShape AsMapping) doc) = false.
Proof.
  unfold carries_image_data. simpl.
  induction doc as [|p rest IH]; [reflexivity|exact IH].
Qed.

(** X9.  In an attribute-bearing result whose pages are mappings, images
    get no treatment at all, even when they carry data and images are asked
    for: the markdown is the plain one, and [save_images_from_ocr] opens and
    writes no file and, when it returns, has reported that no image was
    found. *)
Theorem mapping_pages_get_no_image_treatment `{Builtins} `{Environment}
    (doc : Document) (include_images : bool) (images_dir : option string)
    (output_dir : string) (h : list event) :
  extract_markdown_from_result (encode (AttrShape AsMapping) doc)
    include_images images_dir
  = Ret (plain_markdown doc) /\
  exists (r : outcome value) (evs : list event),
    save_images_from_ocr (encode (AttrShape AsMapping) doc) output_dir h
    = (r, (h ++ evs)%list) /\
    filter is_file_write evs = [] /\
    (forall v, r = Ret v -> last_message evs = Some MsgNoImages).
Proof.
  split; [now rewrite extract_encoded|].
  destruct (save_images_from_ocr_run (encode (AttrShape AsMapping) doc)
              output_dir h) as (r & evs & Hrun & Hret & Hquiet).
  specialize (Hquiet (mapping_pages_carry_nothing doc)).
  exists r, evs. split; [exact Hrun|]. split; [exact Hquiet|].
  intros v Hv. destruct (Hret v Hv) as [_ Hmsg].
  now rewrite Hmsg, (written_no_file_write _ Hquiet).
Qed.

(** ** What [ocr_pdf] adds to the history *)

Section Keeps.

Variable Q : list event -> Prop.
Hypothesis Q_nil : Q [].
Hypothesis Q_app : forall a b, Q a -> Q b -> Q (a ++ b)%list.

Lemma keeps_ret {A : Type} (a : A) : keeps Q (ret a).
Proof.
  intros h. exists []. simpl. now rewrite app_nil_r.
Qed.

Lemma keeps_raise {A : Type} (e : exn) : keeps Q (@raise A e).
Proof.
  intros h. exists []. simpl. now rewrite app_nil_r.
Qed.

Lemma keeps_lift {A : Type} (o : outcome A) : keeps Q (lift o).
Proof.
  intros h. exists []. simpl. now rewrite app_nil_r.
Qed.

Lemma keeps_perform `{Environment} (c : call) :
  (forall r, Q [(c, r)]) -> keeps Q (perform c).
Proof.
  intros Hc h. now exists [(c, respond h c)].
Qed.

Lemma keeps_mbind {A B : Type} (m : M A) (k : A -> M B) :
  keeps Q m -> (forall a, keeps Q (k a)) -> keeps Q (mbind m k).
Proof.
  intros Hm Hk h. unfold mbind. destruct (Hm h) as (evs & Hevs & HQ).
  destruct (m h) as [[a|e] h1]; simpl in Hevs; subst h1.
  - destruct (Hk a (h ++ evs)%list) as (evs' & Hevs' & HQ').
    exists (evs ++ evs')%list. rewrite Hevs', app_assoc. auto.
  - now exists evs.
Qed.

Lemma keeps_finally {A : Type} (m : M A) (cleanup : M value) :
  keeps Q m -> keeps Q cleanup -> keeps Q (finally m cleanup).
Proof.
  intros Hm Hc h. unfold finally. destruct (Hm h) as (evs & Hevs & HQ).
  destruct (m h) as [r h1]; simpl in Hevs; subst h1.
  destruct (Hc (h ++ evs)%list) as (evs' & Hevs' & HQ').
  exists (evs ++ evs')%list.
  destruct (cleanup (h ++ evs)%list) as [[v|e] h2]; simpl in *; subst h2;
    rewrite app_assoc; auto.
Qed.

Lemma keeps_for_each {S X : Type} (body : S -> X -> M S) (items : list X) :
  (forall s x, keeps Q (body s x)) ->
  forall s : S, keeps Q (for_each body items s).
Proof.
  intros Hbody. induction items as [|x rest IH]; intros s; simpl.
  - apply keeps_ret.
  - apply keeps_mbind; [apply Hbody|exact IH].
Qed.

End Keeps.

(** Breaks a computation down to its calls, leaving one goal per call. *)
Ltac keeps_steps Q Hnil Happ :=
  repeat first
    [ apply (keeps_ret Q Hnil)
    | apply (keeps_raise Q Hnil)
    | apply (keeps_lift Q Hnil)
    | apply (keeps_mbind Q Happ); [|intros ?]
    | apply (keeps_finally Q Happ)
    | apply (keeps_for_each Q Hnil Happ); intros ? ?
    | apply (keeps_perform Q); intros ?
    | match goal with
      | |- keeps _ (match ?x with _ => _ end) => destruct x
      end ].

(** X10.  [ocr_pdf] called with [save_images] false, and the [ocr_pdf] of
    main.py always, never creates a directory and never opens, writes or
    closes a file for writing, whatever the collaborators answer and however
    the run ends. *)
Theorem ocr_pdf_without_images_writes_nothing `{Builtins} `{Environment}
    (environ : string -> option string) (pdf_path : string)
    (output_dir : option string) (h : list event) :
  (exists evs : list event,
      snd (ocr_pdf environ pdf_path false output_dir h) = (h ++ evs)%list /\
      filter writes_to_disk evs = []) /\
  (exists evs : list event,
      snd (MainPy.ocr_pdf environ pdf_path h) = (h ++ evs)%list /\
      filter writes_to_disk evs = []).
Proof.
  set (Q := fun evs : list event => filter writes_to_disk evs = []).
  assert (Hnil : Q []) by reflexivity.
  assert (Happ : forall a b, Q a -> Q b -> Q (a ++ b)%list).
  { unfold Q. intros a b Ha Hb. now rewrite filter_app, Ha, Hb. }
  assert (Hocr : keeps Q (ocr_pdf environ pdf_path false output_dir)).
  { unfold ocr_pdf. cbn [andb]. keeps_steps Q Hnil Happ; reflexivity. }
  assert (Hmain : keeps Q (MainPy.ocr_pdf environ pdf_path)).
  { unfold MainPy.ocr_pdf. keeps_steps Q Hnil Happ; reflexivity. }
  split; [apply Hocr|apply Hmain].
Qed.

(** ** Files opened are closed *)

Lemma open_after_app (a b : list event) (open : list handle) :
  open_after (a ++ b) open = open_after b (open_after a open).
Proof.
  unfold open_after. apply fold_left_app.
Qed.

Lemma open_after_cons (e : event) (evs : list event) (open : list handle) :
  open_after (e :: evs) open = open_after evs (track open e).
Proof.
  reflexivity.
Qed.

Lemma balanced_nil : balanced [].
Proof.
  intros open. reflexivity.
Qed.

Lemma balanced_app (a b : list event) :
  balanced a -> balanced b -> balanced (a ++ b).
Proof.
  intros Ha Hb open. now rewrite open_after_app, Ha, Hb.
Qed.

Lemma handle_eqb_refl (x : handle) : handle_eqb x x = true.
Proof.
  destruct x; simpl; now rewrite ?String.eqb_refl.
Qed.

(** A [with open(...)] block: the file is opened, the block runs, the file
    is closed whether the block raised or not, and the program goes on.  If
    the block and what follows leave the open files alone, so does the
    whole. *)
Lemma keeps_balanced_with `{Environment} {A B : Type} (c_open c_close : call)
    (x : handle) (body : value -> M A) (k : A -> M B) :
  (forall v open, track open (c_open, Ret v) = x :: open) ->
  (forall e open, track open (c_open, Raise e) = open) ->
  (forall r open, track (x :: open) (c_close, r) = open) ->
  (forall f, keeps balanced (body f)) ->
  (forall a, keeps balanced (k a)) ->
  keeps balanced
    (mbind (perform c_open)
           (fun f => mbind (finally (body f) (perform c_close)) k)).
Proof.
  intros Hopen Hfail Hclose Hbody Hk h.
  unfold mbind at 1. unfold perform at 1. cbv zeta.
  destruct (respond h c_open) as [f|e].
  2:{ exists [(c_open, Raise e)]. split; [reflexivity|].
      intros open. apply Hfail. }
  set (h1 := (h ++ [(c_open, Ret f)])%list).
  unfold mbind, finally, perform. cbv zeta.
  destruct (Hbody f h1) as (evs1 & Hevs1 & Hbal1).
  destruct (body f h1) as [r h2]. simpl in Hevs1. subst h2.
  set (rc := respond (h1 ++ evs1)%list c_close).
  set (h3 := ((h1 ++ evs1) ++ [(c_close, rc)])%list).
  assert (Hbracket : forall tail, balanced tail ->
            balanced ((c_open, Ret f) :: evs1 ++ (c_close, rc) :: tail)%list).
  { intros tail Htail open.
    rewrite open_after_cons, Hopen, open_after_app, Hbal1.
    now rewrite open_after_cons, Hclose, Htail. }
  assert (Hh3 : forall tail,
            (h3 ++ tail = h ++ (c_open, Ret f) :: evs1 ++ (c_close, rc) :: tail)%list).
  { intros tail. unfold h3, h1. now rewrite <- !app_assoc. }
  destruct rc as [vc|ec] eqn:Hrc; fold h3.
  - destruct r as [a|e].
    + destruct (Hk a h3) as (evs2 & Hevs2 & Hbal2).
      exists ((c_open, Ret f) :: evs1 ++ (c_close, Ret vc) :: evs2)%list.
      split; [now rewrite Hevs2, Hh3|]. now apply Hbracket.
    + exists ((c_open, Ret f) :: evs1 ++ (c_close, Ret vc) :: [])%list.
      split; [simpl; now rewrite <- Hh3, app_nil_r|].
      apply Hbracket, balanced_nil.
  - exists ((c_open, Ret f) :: evs1 ++ (c_close, Raise ec) :: [])%list.
    split; [simpl; now rewrite <- Hh3, app_nil_r|].
    apply Hbracket, balanced_nil.
Qed.

(** Breaks a computation down to its [with] blocks and its other calls. *)
Ltac balanced_steps :=
  repeat first
    [ apply (keeps_ret balanced balanced_nil)
    | apply (keeps_raise balanced balanced_nil)
    | apply (keeps_lift balanced balanced_nil)
    | match goal with
      | |- keeps balanced (mbind (perform (OpenRead ?p)) _) =>
          apply (keeps_balanced_with (OpenRead p) (CloseRead p) (ReadHandle p));
          [ reflexivity | reflexivity
          | intros ? ?; simpl; now rewrite String.eqb_refl
          | intros ? | intros ? ]
      | |- keeps balanced (mbind (perform (OpenWrite ?d ?n)) _) =>
          apply (keeps_balanced_with (OpenWrite d n) (CloseWrite d n)
                   (WriteHandle d n));
          [ reflexivity | reflexivity
          | intros ? ?; simpl; now rewrite !String.eqb_refl
          | intros ? | intros ? ]
      end
    | apply (keeps_mbind balanced balanced_app); [|intros ?]
    | apply (keeps_for_each balanced balanced_nil balanced_app); intros ? ?
    | apply (keeps_perform balanced);
        let r := fresh "r" in let open := fresh "open" in
        intros r open; destruct r; reflexivity
    | match goal with
      | |- keeps _ (match ?x with _ => _ end) => destruct x
      end ].

Lemma keeps_balanced_save_images_from_ocr `{Builtins} `{Environment}
    (ocr_response : value) (output_dir : string) :
  keeps balanced (save_images_from_ocr ocr_response output_dir).
Proof.
  unfold save_images_from_ocr, save_page_images, save_image. balanced_steps.
Qed.

(** X11.  No file is left open.  Whatever the collaborators answer and
    whether the run returns or raises, every file that [ocr_pdf] (of
    ocr_pdf.py and of main.py) or [save_images_from_ocr] managed to open has
    been closed by the end: the calls they add to the history leave the set
    of open files as they found it, empty when it was empty. *)
Theorem opened_files_are_closed `{Builtins} `{Environment}
    (environ : string -> option string) (pdf_path : string)
    (save_images : bool) (output_dir : option string)
    (ocr_response : value) (images_dir : string) (h : list event) :
  (exists evs : list event,
      snd (ocr_pdf environ pdf_path save_images output_dir h) = (h ++ evs)%list /\
      balanced evs /\ open_after evs [] = []) /\
  (exists evs : list event,
      snd (MainPy.ocr_pdf environ pdf_path h) = (h ++ evs)%list /\
      balanced evs /\ open_after evs [] = []) /\
  (exists evs : list event,
      snd (save_images_from_ocr ocr_response images_dir h) = (h ++ evs)%list /\
      balanced evs /\ open_after evs [] = []).
Proof.
  assert (Hocr : keeps balanced (ocr_pdf environ pdf_path save_images output_dir)).
  { unfold ocr_pdf, save_images_from_ocr, save_page_images, save_image.
    balanced_steps. }
  assert (Hmain : keeps balanced (MainPy.ocr_pdf environ pdf_path)).
  { unfold MainPy.ocr_pdf. balanced_steps. }
  pose proof (keeps_balanced_save_images_from_ocr ocr_response images_dir) as Hsave.
  repeat split.
  - destruct (Hocr h) as (evs & Hevs & Hbal). exists evs. auto.
  - destruct (Hmain h) as (evs & Hevs & Hbal). exists evs. auto.
  - destruct (Hsave h) as (evs & Hevs & Hbal). exists evs. auto.
Qed.

(** ** What a successful run of [ocr_pdf] went through *)

Lemma mbind_returns {A B : Type} (m : M A) (k : A -> M B) (h h' : list event)
    (b : B) :
  mbind m k h = (Ret b, h') ->
  exists a h1, m h = (Ret a, h1) /\ k a h1 = (Ret b, h').
Proof.
  unfold mbind. destruct (m h) as [[a|e] h1]; [|discriminate].
  intros Hk. now exists a, h1.
Qed.

Lemma perform_returns `{Environment} (c : call) (h h1 : list event) (a : value) :
  perform c h = (Ret a, h1) -> h1 = (h ++ [(c, Ret a)])%list.
Proof.
  unfold perform. cbv zeta. intros Hrun. injection Hrun as Hr <-.
  now rewrite Hr.
Qed.

Lemma lift_returns {A : Type} (o : outcome A) (h h1 : list event) (a : A) :
  lift o h = (Ret a, h1) -> o = Ret a /\ h1 = h.
Proof.
  unfold lift. intros Hrun. now injection Hrun as -> ->.
Qed.

Lemma finally_returns {A : Type} (m : M A) (cleanup : M value)
    (h h2 : list event) (a : A) :
  finally m cleanup h = (Ret a, h2) ->
  exists h1 v, m h = (Ret a, h1) /\ cleanup h1 = (Ret v, h2).
Proof.
  unfold finally. destruct (m h) as [r h1].
  destruct (cleanup h1) as [[v|e] h2'] eqn:Hc; [|discriminate].
  intros Hrun. injection Hrun as -> <-. now exists h1, v.
Qed.

Lemma attr_returns (v x : value) (name : string) :
  attr v name = Ret x -> getattr v name = Some x.
Proof.
  unfold attr. destruct (getattr v name); [|discriminate].
  now intros [= ->].
Qed.

(** Takes a successful run apart, call by call. *)
Ltac run_steps :=
  repeat match goal with
    | Hrun : mbind _ _ _ = (Ret _, _) |- _ =>
        let a := fresh "a" in let h1 := fresh "h" in
        let Hm := fresh "Hm" in
        apply mbind_returns in Hrun as (a & h1 & Hm & Hrun)
    | Hm : perform _ _ = (Ret _, _) |- _ =>
        apply perform_returns in Hm; subst
    | Hm : lift _ _ = (Ret _, _) |- _ =>
        let Ho := fresh "Ho" in
        apply lift_returns in Hm as [Ho ->]; apply attr_returns in Ho
    | Hm : finally _ _ _ = (Ret _, _) |- _ =>
        let h1 := fresh "h" in let v := fresh "v" in
        let Hb := fresh "Hb" in let Hc := fresh "Hc" in
        apply finally_returns in Hm as (h1 & v & Hb & Hc)
    | Hm : ret _ _ = (Ret _, _) |- _ =>
        unfold ret in Hm; injection Hm as -> ->
    end.

(** The pipeline a successful run of [ocr_pdf] (ocr_pdf.py) went through. *)
Lemma ocr_pdf_run `{Builtins} `{Environment}
    (environ : string -> option string) (pdf_path : string)
    (save_images : bool) (output_dir : option string)
    (h h' : list event) (response : value) :
  ocr_pdf environ pdf_path save_images output_dir h = (Ret response, h') ->
  exists (key : string) (client f uploaded file_id signed url : value)
         (evs : list event),
    credential environ = Some key /\
    h' = (h ++ evs)%list /\
    In (NewClient key, Ret client) evs /\
    In (OpenRead pdf_path, Ret f) evs /\
    In (Upload client (OsPath.basename pdf_path) f, Ret uploaded) evs /\
    getattr uploaded "id" = Some file_id /\
    In (GetSignedUrl client file_id, Ret signed) evs /\
    getattr signed "url" = Some url /\
    In (OcrProcess client "mistral-ocr-latest" url, Ret response) evs.
Proof.
  intros Hrun. unfold ocr_pdf in Hrun.
  destruct (credential environ) as [key|]; [|discriminate].
  run_steps.
  match goal with
  | Hsave : (if _ then _ else _) ?h0 = (Ret _, ?h1) |- _ =>
      assert (Hext : exists evs, h1 = (h0 ++ evs)%list)
  end.
  { match goal with
    | Hsave : ?m ?h0 = (Ret ?x, ?h1) |- _ =>
        assert (Hm : extending m)
          by (destruct (save_images && hasattr _ "pages"); auto with history);
        destruct (Hm h0) as [evs Hevs]; rewrite Hsave in Hevs; now exists evs
    end. }
  destruct Hext as [evs ->].
  repeat rewrite <- app_assoc. cbn [app].
  repeat eexists; try eassumption; try reflexivity;
    repeat (try (left; reflexivity); right).
Qed.

(** The same for the [ocr_pdf] of main.py. *)
Lemma main_ocr_pdf_run `{Environment}
    (environ : string -> option string) (pdf_path : string)
    (h h' : list event) (response : value) :
  MainPy.ocr_pdf environ pdf_path h = (Ret response, h') ->
  exists (key : string) (client f uploaded file_id signed url : value)
         (evs : list event),
    credential environ = Some key /\
    h' = (h ++ evs)%list /\
    In (NewClient key, Ret client) evs /\
    In (OpenRead pdf_path, Ret f) evs /\
    In (Upload client (OsPath.basename pdf_path) f, Ret uploaded) evs /\
    getattr uploaded "id" = Some file_id /\
    In (GetSignedUrl client file_id, Ret signed) evs /\
    getattr signed "url" = Some url /\
    In (OcrProcess client "mistral-ocr-latest" url, Ret response) evs.
Proof.
  intros Hrun. unfold MainPy.ocr_pdf in Hrun.
  destruct (credential environ) as [key|]; [|discriminate].
  run_steps.
  repeat rewrite <- app_assoc. cbn [app].
  repeat eexists; try eassumption; try reflexivity;
    repeat (try (left; reflexivity); right).
Qed.

(** X12.  When [ocr_pdf] (of ocr_pdf.py, and of main.py) returns, what it
    returns is the answer of the OCR call, unchanged, and the history shows
    the pipeline that led to it: a client built with the credential, the PDF
    opened and uploaded by that client under its base name, a signed URL
    asked for the [id] of the upload, and the OCR run by the same client
    with the model [mistral-ocr-latest] on the [url] of the signed URL. *)
Theorem ocr_pdf_returns_the_ocr_answer `{Builtins} `{Environment}
    (environ : string -> option string) (pdf_path : string)
    (save_images : bool) (output_dir : option string)
    (h h' : list event) (response : value) :
  ocr_pdf environ pdf_path save_images output_dir h = (Ret response, h') \/
  MainPy.ocr_pdf environ pdf_path h = (Ret response, h') ->
  exists (key : string) (client f uploaded file_id signed url : value)
         (evs : list event),
    credential environ = Some key /\
    h' = (h ++ evs)%list /\
    In (NewClient key, Ret client) evs /\
    In (OpenRead pdf_path, Ret f) evs /\
    In (Upload client (OsPath.basename pdf_path) f, Ret uploaded) evs /\
    getattr uploaded "id" = Some file_id /\
    In (GetSignedUrl client file_id, Ret signed) evs /\
    getattr signed "url" = Some url /\
    In (OcrProcess client "mistral-ocr-latest" url, Ret response) evs.
Proof.
  intros [Hrun|Hrun].
  - exact (ocr_pdf_run _ _ _ _ _ _ _ Hrun).
  - exact (main_ocr_pdf_run _ _ _ _ _ Hrun).
Qed.

Lemma ocr_pdf_returns_the_ocr_answer_witness :
  exists (key : string) (client f uploaded file_id signed url : value)
         (evs : list event),
    credential (fun _ => Some "sk-test") = Some key /\
    snd (@MainPy.ocr_pdf (obliging (VObj [("pages", VList [])]))
           (fun _ => Some "sk-test") "scan.pdf" [])
    = ([] ++ evs)%list /\
    In (NewClient key, Ret client) evs /\
    In (OpenRead "scan.pdf", Ret f) evs /\
    In (Upload client (OsPath.basename "scan.pdf") f, Ret uploaded) evs /\
    getattr uploaded "id" = Some file_id /\
    In (GetSignedUrl client file_id, Ret signed) evs /\
    getattr signed "url" = Some url /\
    In (OcrProcess client "mistral-ocr-latest" url, Ret (VObj [("pages", VList [])])) evs.
Proof.
  apply (@ocr_pdf_returns_the_ocr_answer sample_builtins
           (obliging (VObj [("pages", VList [])])) (fun _ => Some "sk-test")
           "scan.pdf" false None []).
  right. reflexivity.
Defined.

(** ** Where [ocr_pdf] saves the images *)

Lemma paths_start_at_nil (dir : string) : paths_start_at dir [].
Proof.
  constructor.
Qed.

Lemma paths_start_at_app (dir : string) (a b : list event) :
  paths_start_at dir a -> paths_start_at dir b -> paths_start_at dir (a ++ b).
Proof.
  intros Ha Hb. apply Forall_app. now split.
Qed.

Lemma paths_start_at_ocr_pdf `{Builtins} `{Environment}
    (environ : string -> option string) (pdf_path : string)
    (save_images : bool) (output_dir : option string) :
  keeps (paths_start_at (images_directory pdf_path output_dir))
        (ocr_pdf environ pdf_path save_images output_dir).
Proof.
  set (dir := images_directory pdf_path output_dir).
  unfold ocr_pdf, save_images_from_ocr, save_page_images, save_image.
  fold dir.
  keeps_steps (paths_start_at dir) (paths_start_at_nil dir)
              (paths_start_at_app dir);
    repeat constructor.
Qed.

Lemma saves_save_image `{Builtins} `{Environment} (output_dir : string)
    (n : nat) (img : value) :
  saves (image_file output_dir img) (save_image output_dir n img).
Proof.
  intros h h' a Hrun. unfold save_image in Hrun. unfold image_file.
  destruct (truthy_attr img "image_base64") as [payload|].
  2:{ unfold ret in Hrun. injection Hrun as _ <-. exists [].
      now rewrite app_nil_r. }
  cbv zeta in Hrun.
  apply mbind_returns in Hrun as (id & h1 & Hid & Hrun).
  apply lift_returns in Hid as [Hid ->]. apply attr_returns in Hid.
  rewrite Hid.
  apply mbind_returns in Hrun as (v1 & h1 & Hopen & Hrun).
  apply perform_returns in Hopen. subst h1.
  apply mbind_returns in Hrun as (v2 & h2 & Hfin & Hrun).
  apply finally_returns in Hfin as (h3 & v3 & Hbody & Hclose).
  apply mbind_returns in Hbody as (data & h4 & Hdec & Hwrite).
  apply lift_returns in Hdec as [Hdec ->]. rewrite Hdec.
  apply perform_returns in Hwrite. subst h3.
  apply perform_returns in Hclose. subst h2.
  apply mbind_returns in Hrun as (v4 & h5 & Hprint & Hrun).
  apply perform_returns in Hprint. subst h5.
  unfold ret in Hrun. injection Hrun as _ <-.
  eexists. split; [repeat rewrite <- app_assoc; reflexivity|]. reflexivity.
Qed.

Lemma saves_for_each {S X : Type} (body : S -> X -> M S)
    (files : X -> list (string * string * string)) (items : list X) :
  (forall s x, saves (files x) (body s x)) ->
  forall s, saves (flat_map files items) (for_each body items s).
Proof.
  intros Hbody. induction items as [|x rest IH]; intros s h h' a Hrun;
    simpl in Hrun.
  - unfold ret in Hrun. injection Hrun as _ <-. exists [].
    now rewrite app_nil_r.
  - apply mbind_returns in Hrun as (s1 & h1 & Hx & Hrun).
    destruct (Hbody s x h h1 s1 Hx) as (evs & -> & Hevs).
    destruct (IH s1 _ h' a Hrun) as (evs' & -> & Hevs').
    exists (evs ++ evs')%list. rewrite app_assoc. split; [reflexivity|].
    simpl. now rewrite written_app, Hevs, Hevs'.
Qed.

Lemma saves_save_page_images `{Builtins} `{Environment} (output_dir : string)
    (n : nat) (page : value) :
  saves (page_files output_dir page) (save_page_images output_dir n page).
Proof.
  intros h h' a Hrun. unfold save_page_images in Hrun. unfold page_files.
  destruct (truthy_attr page "images") as [imgs|].
  2:{ unfold ret in Hrun. injection Hrun as _ <-. exists [].
      now rewrite app_nil_r. }
  apply mbind_returns in Hrun as (items & h1 & Hiter & Hrun).
  apply lift_returns in Hiter as [Hiter ->]. rewrite Hiter.
  exact (saves_for_each _ _ items (saves_save_image output_dir) n h h' a Hrun).
Qed.

Lemma saves_save_images_from_ocr `{Builtins} `{Environment} (response : value)
    (output_dir : string) :
  saves (response_files output_dir response)
        (save_images_from_ocr response output_dir).
Proof.
  intros h h' a Hrun. unfold save_images_from_ocr in Hrun. cbv zeta in Hrun.
  unfold response_files.
  apply mbind_returns in Hrun as (v0 & h1 & Hmk & Hrun).
  apply perform_returns in Hmk. subst h1.
  apply mbind_returns in Hrun as (pages & h1 & Hpages & Hrun).
  apply lift_returns in Hpages as [Hpages ->]. apply attr_returns in Hpages.
  rewrite Hpages.
  apply mbind_returns in Hrun as (items & h1 & Hiter & Hrun).
  apply lift_returns in Hiter as [Hiter ->]. rewrite Hiter.
  apply mbind_returns in Hrun as (count & h1 & Hloop & Hrun).
  destruct (saves_for_each _ _ items (saves_save_page_images output_dir)
              0 _ _ _ Hloop) as (evs & -> & Hevs).
  apply mbind_returns in Hrun as (v1 & h2 & Hprint & Hrun).
  apply perform_returns in Hprint. subst h2.
  unfold ret in Hrun. injection Hrun as _ <-.
  eexists. split; [repeat rewrite <- app_assoc; reflexivity|].
  cbn [app written]. rewrite written_app, Hevs. cbn [written].
  now rewrite app_nil_r.
Qed.

(** What a run of [ocr_pdf] that returned has written. *)
Lemma written_by_ocr_pdf `{Builtins} `{Environment}
    (environ : string -> option string) (pdf_path : string)
    (save_images : bool) (output_dir : option string)
    (h h' : list event) (response : value) :
  ocr_pdf environ pdf_path save_images output_dir h = (Ret response, h') ->
  exists evs : list event,
    h' = (h ++ evs)%list /\
    written evs
    = if save_images && hasattr response "pages"
      then response_files (images_directory pdf_path output_dir) response
      else [].
Proof.
  intros Hrun. unfold ocr_pdf in Hrun.
  destruct (credential environ) as [key|]; [|discriminate].
  run_steps.
  match goal with
  | Hsave : (if _ then _ else _) ?h0 = (Ret _, ?h1) |- _ =>
      assert (Hext : exists evs,
                 h1 = (h0 ++ evs)%list /\
                 written evs
                 = if save_images && hasattr response "pages"
                   then response_files (images_directory pdf_path output_dir)
                          response
                   else [])
  end.
  { destruct (save_images && hasattr response "pages").
    - match goal with
      | Hsave : save_images_from_ocr _ _ ?h0 = (Ret ?x, ?h1) |- _ =>
          exact (saves_save_images_from_ocr _ _ h0 h1 x Hsave)
      end.
    - match goal with
      | Hsave : ret _ _ = (Ret _, _) |- _ =>
          unfold ret in Hsave; injection Hsave as _ <-
      end.
      exists []. now rewrite app_nil_r. }
  destruct Hext as (evs & -> & Hevs).
  eexists. split; [repeat rewrite <- app_assoc; reflexivity|].
  cbn [app written]. exact Hevs.
Qed.



(** ** The command line *)

Lemma filter_core_steps (evs : list event) :
  filter Cli.touches_results (map Cli.core_step evs) = [].
Proof.
  induction evs as [|e evs IH]; [reflexivity|exact IH].
Qed.

(** X14.  [process_and_save_results] creates its directories before the
    credential is looked at: with MISTRAL_API_KEY unset or empty, it still
    calls [os.makedirs] for the results directory (and for its [images]
    subdirectory when images are asked for), does nothing else, and, these
    calls having succeeded, raises the configuration error. *)
Theorem directories_made_before_credential_check `{Builtins} `{Cli.Shell}
    (environ : string -> option string) (pdf_path : string)
    (save_images : bool) (output_format : string) (hs : list Cli.step) :
  environ "MISTRAL_API_KEY" = None \/ environ "MISTRAL_API_KEY" = Some "" ->
  exists (r : outcome string) (steps : list Cli.step),
    Cli.process_and_save_results environ pdf_path save_images output_format hs
    = (r, (hs ++ steps)%list) /\
    (exists tail,
        steps = (Cli.MakeDirs (Cli.results_directory pdf_path),
                 Cli.answer hs (Cli.MakeDirs (Cli.results_directory pdf_path)))
                :: tail) /\
    forallb Cli.is_makedirs steps = true /\
    (forallb Cli.returned steps = true ->
     r = Raise configuration_error /\
     map fst steps
     = Cli.MakeDirs (Cli.results_directory pdf_path)
       :: (if save_images
           then [Cli.MakeDirs (Cli.path_join (Cli.results_directory pdf_path) "images")]
           else [])).
Proof.
  intros Hmissing. pose proof (credential_missing _ Hmissing) as Hcred.
  unfold Cli.process_and_save_results. cbv zeta.
  fold (Cli.results_directory pdf_path).
  set (d := Cli.results_directory pdf_path).
  unfold Cli.pbind at 1. unfold Cli.act at 1. cbv zeta.
  destruct (Cli.answer hs (Cli.MakeDirs d)) as [v0|e0] eqn:E0.
  2:{ exists (Raise e0), [(Cli.MakeDirs d, Raise e0)].
      split; [reflexivity|]. split; [now exists []|].
      split; [reflexivity|discriminate]. }
  set (hs1 := (hs ++ [(Cli.MakeDirs d, Ret v0)])%list).
  assert (Hocr : forall (hs' : list Cli.step) (images_dir : option string),
             Cli.embed (fun E => @ocr_pdf _ E environ pdf_path save_images images_dir) hs'
             = (Raise configuration_error, hs')).
  { intros hs' images_dir. unfold Cli.embed, ocr_pdf. rewrite Hcred.
    unfold raise. simpl. now rewrite app_nil_r. }
  destruct save_images.
  - unfold Cli.pbind at 1. unfold Cli.act at 1. cbv zeta.
    destruct (Cli.answer hs1 (Cli.MakeDirs (Cli.path_join d "images")))
      as [v1|e1] eqn:E1.
    + unfold Cli.pbind at 1. rewrite Hocr.
      exists (Raise configuration_error),
        [(Cli.MakeDirs d, Ret v0);
         (Cli.MakeDirs (Cli.path_join d "images"), Ret v1)].
      split; [unfold hs1; now rewrite <- app_assoc|].
      split; [now eexists|]. split; [reflexivity|]. now intros _.
    + exists (Raise e1),
        [(Cli.MakeDirs d, Ret v0);
         (Cli.MakeDirs (Cli.path_join d "images"), Raise e1)].
      split; [unfold hs1; now rewrite <- app_assoc|].
      split; [now eexists|]. split; [reflexivity|discriminate].
  - unfold Cli.pbind at 1. unfold Cli.pret at 1.
    unfold Cli.pbind at 1. rewrite Hocr.
    exists (Raise configuration_error), [(Cli.MakeDirs d, Ret v0)].
    split; [reflexivity|]. split; [now exists []|].
    split; [reflexivity|]. now intros _.
Qed.

Lemma directories_made_before_credential_check_witness :
  exists (r : outcome string) (steps : list Cli.step),
    @Cli.process_and_save_results sample_builtins (Cli.obliging_shell VNone)
      (fun _ => None) "scans/report.pdf" true "markdown" []
    = (r, ([] ++ steps)%list) /\
    (exists tail,
        steps = (Cli.MakeDirs (Cli.results_directory "scans/report.pdf"),
                 @Cli.answer (Cli.obliging_shell VNone) []
                   (Cli.MakeDirs (Cli.results_directory "scans/report.pdf")))
                :: tail) /\
    forallb Cli.is_makedirs steps = true /\
    (forallb Cli.returned steps = true ->
     r = Raise configuration_error /\
     map fst steps
     = Cli.MakeDirs (Cli.results_directory "scans/report.pdf")
       :: [Cli.MakeDirs (Cli.path_join (Cli.results_directory "scans/report.pdf")
                           "images")]).
Proof.
  apply (@directories_made_before_credential_check sample_builtins
           (Cli.obliging_shell VNone) (fun _ => None) "scans/report.pdf" true
           "markdown" []).
  left. reflexivity.
Defined.

(** X15.  [main] handles what [except Exception] catches, and nothing
    else.  As long as the console takes its report: when
    [process_and_save_results] returned, [main] reports success with the
    results directory and returns [None]; when it raised an [Exception],
    [main] reports the error with that exception and returns [None]; when
    it raised an exception that is no [Exception] (a keyboard interrupt, an
    exit of the interpreter), [main] reports nothing and the exception goes
    on to the caller. *)
Theorem main_reports_and_returns `{Builtins} `{Cli.Shell}
    (environ : string -> option string) (pdf_path : string)
    (save_images : bool) (output_format : Cli.format_choice)
    (hs : list Cli.step) :
  (forall hs' m, exists v, Cli.answer hs' (Cli.Report m) = Ret v) ->
  exists (r : outcome string) (hs1 : list Cli.step),
    Cli.process_and_save_results environ pdf_path save_images
      (Cli.choice_text output_format) hs
    = (r, hs1) /\
    match r with
    | Ret output_dir =>
        exists v,
          Cli.main environ pdf_path save_images output_format hs
          = (Ret VNone,
             (hs1 ++ [(Cli.Report (Cli.Completed output_dir), Ret v)])%list)
    | Raise e =>
        if Cli.is_exception e
        then exists v,
               Cli.main environ pdf_path save_images output_format hs
               = (Ret VNone, (hs1 ++ [(Cli.Report (Cli.Failed e), Ret v)])%list)
        else Cli.main environ pdf_path save_images output_format hs
             = (Raise e, hs1)
    end.
Proof.
  intros Hconsole. unfold Cli.main, Cli.pbind, Cli.try_except, Cli.act, Cli.pret.
  cbv zeta.
  destruct (Cli.process_and_save_results environ pdf_path save_images
              (Cli.choice_text output_format) hs) as [[d|e] hs1].
  - destruct (Hconsole hs1 (Cli.Completed d)) as [v Hv]. rewrite Hv.
    exists (Ret d), hs1. split; [reflexivity|]. now exists v.
  - exists (Raise e), hs1. split; [reflexivity|].
    destruct (Cli.is_exception e); [|reflexivity].
    destruct (Hconsole hs1 (Cli.Failed e)) as [v Hv]. rewrite Hv.
    now exists v.
Qed.

Lemma main_reports_and_returns_witness :
  exists hs1 : list Cli.step,
    @Cli.main sample_builtins Cli.interrupted_shell (fun _ => Some "sk-test")
      "scan.pdf" false Cli.ChoiceBoth []
    = (Raise (ExternalError "KeyboardInterrupt"), hs1) /\
    Cli.last_report hs1 = None.
Proof.
  destruct (@main_reports_and_returns sample_builtins Cli.interrupted_shell
              (fun _ => Some "sk-test") "scan.pdf" false Cli.ChoiceBoth [])
    as (r & hs1 & Hrun & Hmain).
  - intros hs' m. now exists VNone.
  - vm_compute in Hrun. injection Hrun as <- <-.
    cbn [Cli.is_exception Cli.outside_exception existsb String.eqb Ascii.eqb
         Bool.eqb orb negb] in Hmain.
    eexists. split; [exact Hmain|reflexivity].
Defined.

(** X16.  [process_and_save_results] does not check [output_format]: given
    a format that is none of "markdown", "md", "both" and "json", it does
    what it does before any result is saved and nothing more.  It calls
    [os.makedirs] for the results directory and, images being asked for, for
    its [images] subdirectory; if one of these calls raises, it stops there
    with that exception.  Otherwise it runs [ocr_pdf] on the PDF, with
    [save_images] and the [images] subdirectory handed on, and the calls of
    that run are all it does next: it opens and writes no result file and
    reports none, raises what [ocr_pdf] raised, and returns the results
    directory when [ocr_pdf] returned. *)
Theorem unknown_format_saves_no_result `{Builtins} `{Cli.Shell}
    (environ : string -> option string) (pdf_path : string)
    (save_images : bool) (output_format : string) (hs : list Cli.step) :
  Cli.format_in output_format ["markdown"; "md"; "both"] = false ->
  Cli.format_in output_format ["json"; "both"] = false ->
  let d := Cli.results_directory pdf_path in
  let made := Cli.made_directories save_images d hs in
  let ocr :=
    @ocr_pdf _ (Cli.inner_world (hs ++ made)%list) environ pdf_path save_images
      (if save_images then Some (Cli.path_join d "images") else None) [] in
  exists (r : outcome string) (steps : list Cli.step),
    Cli.process_and_save_results environ pdf_path save_images output_format hs
    = (r, (hs ++ steps)%list) /\
    filter Cli.touches_results steps = [] /\
    (forall d', r = Ret d' -> d' = d) /\
    match Cli.first_failure made with
    | Some e => steps = made /\ r = Raise e
    | None =>
        steps = (made ++ map Cli.core_step (snd ocr))%list /\
        r = match fst ocr with
            | Ret _ => Ret d
            | Raise e => Raise e
            end
    end.
Proof.
  intros Hmd Hjson d made ocr. unfold Cli.process_and_save_results. cbv zeta.
  rewrite Hmd, Hjson. fold (Cli.results_directory pdf_path). fold d.
  unfold Cli.pbind at 1. unfold Cli.act at 1. cbv zeta.
  subst ocr made. unfold Cli.made_directories. cbv zeta. cbn [snd].
  destruct (Cli.answer hs (Cli.MakeDirs d)) as [v0|e0].
  2:{ eexists (Raise e0), _. split; [reflexivity|].
      split; [reflexivity|]. split; [discriminate|]. now split. }
  set (hs1 := (hs ++ [(Cli.MakeDirs d, Ret v0)])%list).
  assert (Hrest : forall (hs2 : list Cli.step) (images_dir : option string),
             Cli.pbind
               (Cli.embed (fun E => @ocr_pdf _ E environ pdf_path
                                      save_images images_dir))
               (fun _ => Cli.pbind (Cli.pret VNone)
                           (fun _ => Cli.pbind (Cli.pret VNone)
                                       (fun _ => Cli.pret d))) hs2
             = (match fst (@ocr_pdf _ (Cli.inner_world hs2) environ pdf_path
                             save_images images_dir []) with
                | Ret _ => Ret d
                | Raise e => Raise e
                end,
                (hs2 ++ map Cli.core_step
                          (snd (@ocr_pdf _ (Cli.inner_world hs2) environ pdf_path
                                  save_images images_dir [])))%list)).
  { intros hs2 images_dir. unfold Cli.pbind, Cli.embed, Cli.pret.
    now destruct (ocr_pdf environ pdf_path save_images images_dir [])
      as [[result|e] evs]. }
  assert (Hreturn : forall (o : outcome value) (d' : string),
             match o with Ret _ => Ret d | Raise e => Raise e end = Ret d' ->
             d' = d).
  { intros [x|e] d' Hd'; [now injection Hd' as <-|discriminate]. }
  destruct save_images.
  - unfold Cli.pbind at 1. unfold Cli.act at 1. cbv zeta. fold hs1.
    destruct (Cli.answer hs1 (Cli.MakeDirs (Cli.path_join d "images")))
      as [v1|e1].
    + rewrite Hrest. cbn [Cli.first_failure].
      eexists _, _. split; [unfold hs1; rewrite <- !app_assoc; reflexivity|].
      split; [simpl; apply filter_core_steps|].
      split; [apply Hreturn|].
      unfold hs1. rewrite <- ?app_assoc. now split.
    + eexists (Raise e1), _.
      split; [unfold hs1; rewrite <- !app_assoc; reflexivity|].
      split; [reflexivity|]. split; [discriminate|]. now split.
  - unfold Cli.pbind at 1. unfold Cli.pret at 1. rewrite Hrest.
    cbn [Cli.first_failure].
    eexists _, _. split; [unfold hs1; rewrite <- !app_assoc; reflexivity|].
    split; [simpl; apply filter_core_steps|].
    split; [apply Hreturn|]. now split.
Qed.

Lemma unknown_format_saves_no_result_witness :
  exists (r : outcome string) (steps : list Cli.step),
    @Cli.process_and_save_results sample_builtins
      (Cli.obliging_shell (VObj [("pages", VList [])]))
      (fun _ => Some "sk-test") "scan.pdf" true "xml" []
    = (r, ([] ++ steps)%list) /\
    filter Cli.touches_results steps = [] /\
    (forall d', r = Ret d' -> d' = "scan_ocr_results") /\
    steps
    = ([(Cli.MakeDirs "scan_ocr_results", Ret VNone);
        (Cli.MakeDirs "scan_ocr_results/images", Ret VNone)]
       ++ map Cli.core_step
            (snd (@ocr_pdf sample_builtins (obliging (VObj [("pages", VList [])]))
                    (fun _ => Some "sk-test") "scan.pdf" true
                    (Some "scan_ocr_results/images") [])))%list /\
    r = Ret "scan_ocr_results".
Proof.
  exact (@unknown_format_saves_no_result sample_builtins
           (Cli.obliging_shell (VObj [("pages", VList [])]))
           (fun _ => Some "sk-test") "scan.pdf" true "xml" []
           eq_refl eq_refl).
Defined.

(** ** What [process_and_save_results] leaves behind when it returns *)

Lemma pbind_returns {A B : Type} (m : Cli.P A) (k : A -> Cli.P B)
    (hs hs' : list Cli.step) (b : B) :
  Cli.pbind m k hs = (Ret b, hs') ->
  exists a hs1, m hs = (Ret a, hs1) /\ k a hs1 = (Ret b, hs').
Proof.
  unfold Cli.pbind. destruct (m hs) as [[a|e] hs1]; [|discriminate].
  intros Hk. now exists a, hs1.
Qed.

Lemma act_returns `{Cli.Shell} (a : Cli.action) (hs hs1 : list Cli.step)
    (v : value) :
  Cli.act a hs = (Ret v, hs1) -> hs1 = (hs ++ [(a, Ret v)])%list.
Proof.
  unfold Cli.act. cbv zeta. intros Hrun. injection Hrun as Hr <-.
  now rewrite Hr.
Qed.

Lemma pfinally_returns {A : Type} (m : Cli.P A) (cleanup : Cli.P value)
    (hs hs2 : list Cli.step) (a : A) :
  Cli.pfinally m cleanup hs = (Ret a, hs2) ->
  exists hs1 v, m hs = (Ret a, hs1) /\ cleanup hs1 = (Ret v, hs2).
Proof.
  unfold Cli.pfinally. destruct (m hs) as [r hs1].
  destruct (cleanup hs1) as [[v|e] hs2'] eqn:Hc; [|discriminate].
  intros Hrun. injection Hrun as -> <-. now exists hs1, v.
Qed.

Lemma embed_returns `{Cli.Shell} {A : Type} (m : Environment -> M A)
    (hs hs' : list Cli.step) (a : A) :
  Cli.embed m hs = (Ret a, hs') ->
  exists evs, m (Cli.inner_world hs) [] = (Ret a, evs) /\
              hs' = (hs ++ map Cli.core_step evs)%list.
Proof.
  unfold Cli.embed. destruct (m (Cli.inner_world hs) []) as [r evs].
  intros Hrun. injection Hrun as -> <-. now exists evs.
Qed.

Lemma images_subdirectory_nonempty (d : string) :
  Cli.path_join d "images" <> "".
Proof.
  unfold Cli.path_join.
  destruct (String.eqb d "" || OsPath.all_char "/" (substring (String.length d - 1) 1 d));
    destruct d; discriminate.
Qed.

(** Takes a successful run of the command line apart, call by call. *)
Ltac prun_steps :=
  repeat match goal with
    | Hrun : Cli.pbind _ _ _ = (Ret _, _) |- _ =>
        let a := fresh "a" in let h1 := fresh "hs" in
        let Hm := fresh "Hm" in
        apply pbind_returns in Hrun as (a & h1 & Hm & Hrun)
    | Hm : Cli.act _ _ = (Ret _, _) |- _ =>
        apply act_returns in Hm; subst
    | Hm : Cli.pfinally _ _ _ = (Ret _, _) |- _ =>
        let h1 := fresh "hs" in let v := fresh "v" in
        let Hb := fresh "Hb" in let Hc := fresh "Hc" in
        apply pfinally_returns in Hm as (h1 & v & Hb & Hc)
    | Hm : Cli.plift _ _ = (Ret _, _) |- _ =>
        unfold Cli.plift in Hm; injection Hm as Hm ->
    | Hm : Cli.pret _ _ = (Ret _, _) |- _ =>
        unfold Cli.pret in Hm; injection Hm as -> ->
    end.

Lemma images_written_app (a b : list Cli.step) :
  Cli.images_written (a ++ b) = (Cli.images_written a ++ Cli.images_written b)%list.
Proof.
  induction a as [|[c r] a IH]; simpl; [reflexivity|].
  destruct c as [c| | | | | |]; try exact IH.
  destruct c; try exact IH. destruct r; [|exact IH].
  simpl. now rewrite IH.
Qed.

Lemma images_written_core_steps (evs : list event) :
  Cli.images_written (map Cli.core_step evs) = written evs.
Proof.
  induction evs as [|[c r] evs IH]; simpl; [reflexivity|].
  destruct c; try exact IH. destruct r; [|exact IH].
  simpl. now rewrite IH.
Qed.

Lemma images_written_elsewhere (steps : list Cli.step) :
  (forall c r, ~ In (Cli.Core c, r) steps) -> Cli.images_written steps = [].
Proof.
  induction steps as [|[a r] steps IH]; intros Hcore; [reflexivity|].
  assert (Hrest : Cli.images_written steps = [])
    by (apply IH; intros c r' Hin; apply (Hcore c r'); now right).
  destruct a as [c| | | | | |]; try exact Hrest.
  elim (Hcore c r). now left.
Qed.

(** X17.  When [process_and_save_results] returns, it returns the results
    directory, named after the PDF, and the history shows what was saved:
    the OCR was run and answered some [result]; if the format asked for
    markdown, the file [<name>.md] of that directory was written with the
    markdown extracted from that very [result] (images linked under
    [./images] when images were asked for); if it asked for JSON, the file
    [<name>_raw.json] was given [result], converted by [obj_to_dict] when it
    is an object; and the image files written are exactly those of the
    images of [result] that carry data, in order, each with its decoded data
    under the path [Path(<results directory>/images) / f"{img.id}"], when
    images were asked for and [result] has the attribute [pages], and none
    otherwise.  No other image file is touched: every write of image data
    goes through the [images] subdirectory. *)
Theorem results_hold_the_ocr_answer `{Builtins} `{Cli.Shell}
    (environ : string -> option string) (pdf_path : string)
    (save_images : bool) (output_format : string)
    (hs hs' : list Cli.step) (d : string) :
  Cli.process_and_save_results environ pdf_path save_images output_format hs
  = (Ret d, hs') ->
  let name := OsPath.splitext_root (OsPath.basename pdf_path) in
  exists (steps : list Cli.step) (result : value),
    hs' = (hs ++ steps)%list /\
    d = name ++ "_ocr_results" /\
    (exists client url,
        In (Cli.Core (OcrProcess client "mistral-ocr-latest" url), Ret result)
           steps) /\
    (Cli.format_in output_format ["markdown"; "md"; "both"] = true ->
     exists content v,
       extract_markdown_from_result result save_images
         (if save_images then Some "./images" else None)
       = Ret content /\
       In (Cli.WriteText (Cli.path_join d (name ++ ".md")) content, Ret v) steps) /\
    (Cli.format_in output_format ["json"; "both"] = true ->
     exists v,
       In (Cli.DumpJson (Cli.path_join d (name ++ "_raw.json")) (result_dict result),
           Ret v) steps) /\
    Cli.images_written steps
    = (if save_images && hasattr result "pages"
       then response_files (Cli.path_join d "images") result
       else []) /\
    (save_images = true ->
     forall dir file data r,
       In (Cli.Core (WriteBytes dir file data), r) steps ->
       dir = Cli.path_join d "images").
Proof.
  intros Hrun name. unfold Cli.process_and_save_results in Hrun.
  cbv zeta in Hrun. fold name in Hrun.
  set (out := name ++ "_ocr_results") in *.
  apply pbind_returns in Hrun as (v0 & hs1 & Hmk & Hrun).
  apply act_returns in Hmk. subst hs1.
  apply pbind_returns in Hrun as (v1 & hs2 & Hmk2 & Hrun).
  assert (Hhs2 : exists mk2, hs2 = ((hs ++ [(Cli.MakeDirs out, Ret v0)]) ++ mk2)%list
                             /\ forall c r, ~ In (Cli.Core c, r) mk2).
  { destruct save_images.
    - apply act_returns in Hmk2. eexists. split; [exact Hmk2|].
      intros c r [Hin|[]]. discriminate.
    - unfold Cli.pret in Hmk2. injection Hmk2 as _ <-. exists [].
      split; [now rewrite app_nil_r|]. intros c r []. }
  destruct Hhs2 as (mk2 & -> & Hmk2core). clear Hmk2.
  apply pbind_returns in Hrun as (result & hs3 & Hocr & Hrun).
  apply embed_returns in Hocr as (evs & Hocr & ->).
  set (world := Cli.inner_world ((hs ++ [(Cli.MakeDirs out, Ret v0)]) ++ mk2)%list) in *.
  destruct (@ocr_pdf_run _ world _ _ _ _ _ _ _ Hocr)
    as (key & client & f & up & fid & su & url & evs' & _ & Hevs & _ & _ & _ & _ & _ & _ & Hin).
  simpl in Hevs. subst evs'.
  apply pbind_returns in Hrun as (v3 & hs4 & Hmd & Hrun).
  apply pbind_returns in Hrun as (v4 & hs5 & Hjs & Hrun).
  unfold Cli.pret in Hrun. injection Hrun as <- <-.
  set (hs3 := (((hs ++ [(Cli.MakeDirs out, Ret v0)]) ++ mk2)
               ++ map Cli.core_step evs)%list) in *.
  assert (Hmd' : exists md, hs4 = (hs3 ++ md)%list /\
                   (forall c r, ~ In (Cli.Core c, r) md) /\
                   (Cli.format_in output_format ["markdown"; "md"; "both"] = true ->
                    exists content v,
                      extract_markdown_from_result result save_images
                        (if save_images then Some "./images" else None)
                      = Ret content /\
                      In (Cli.WriteText (Cli.path_join out (name ++ ".md")) content,
                          Ret v) md)).
  { destruct (Cli.format_in output_format ["markdown"; "md"; "both"]).
    - prun_steps. eexists. split; [repeat rewrite <- app_assoc; reflexivity|].
      split.
      + intros c r Hc. simpl in Hc.
        repeat (destruct Hc as [Hc|Hc]; [discriminate|]). exact Hc.
      + intros _. do 2 eexists. split; [eassumption|].
        simpl. right. left. reflexivity.
    - unfold Cli.pret in Hmd. injection Hmd as _ <-. exists [].
      split; [now rewrite app_nil_r|]. split; [intros c r []|discriminate]. }
  destruct Hmd' as (md & -> & Hmdcore & Hmdfile). clear Hmd.
  assert (Hjs' : exists js, hs5 = ((hs3 ++ md) ++ js)%list /\
                   (forall c r, ~ In (Cli.Core c, r) js) /\
                   (Cli.format_in output_format ["json"; "both"] = true ->
                    exists v,
                      In (Cli.DumpJson (Cli.path_join out (name ++ "_raw.json"))
                            (result_dict result), Ret v) js)).
  { destruct (Cli.format_in output_format ["json"; "both"]).
    - prun_steps. eexists. split; [repeat rewrite <- app_assoc; reflexivity|].
      split.
      + intros c r Hc. simpl in Hc.
        repeat (destruct Hc as [Hc|Hc]; [discriminate|]). exact Hc.
      + intros _. eexists. simpl. right. left. reflexivity.
    - unfold Cli.pret in Hjs. injection Hjs as _ <-. exists [].
      split; [now rewrite app_nil_r|]. split; [intros c r []|discriminate]. }
  destruct Hjs' as (js & -> & Hjscore & Hjsfile). clear Hjs.
  exists ((Cli.MakeDirs out, Ret v0) :: mk2 ++ map Cli.core_step evs ++ md ++ js)%list,
         result.
  split; [unfold hs3; now rewrite <- !app_assoc|].
  split; [reflexivity|].
  split.
  { exists client, url. right. apply in_or_app. right. apply in_or_app. left.
    apply (in_map Cli.core_step) in Hin. exact Hin. }
  split.
  { intros Hfmt. destruct (Hmdfile Hfmt) as (content & v & Hcontent & Hfile).
    exists content, v. split; [exact Hcontent|].
    right. apply in_or_app. right. apply in_or_app. right.
    apply in_or_app. now left. }
  split.
  { intros Hfmt. destruct (Hjsfile Hfmt) as (v & Hfile). exists v.
    right. apply in_or_app. right. apply in_or_app. right.
    apply in_or_app. now right. }
  split.
  { cbn [Cli.images_written fst]. rewrite !images_written_app.
    rewrite (images_written_elsewhere _ Hmk2core),
      (images_written_elsewhere _ Hmdcore), (images_written_elsewhere _ Hjscore),
      images_written_core_steps.
    cbn [app]. rewrite app_nil_r.
    destruct (@written_by_ocr_pdf _ world _ _ _ _ _ _ _ Hocr)
      as (evs' & Hevs' & Hwritten).
    simpl in Hevs'. subst evs'. rewrite Hwritten.
    destruct save_images; [|reflexivity]. cbn [andb].
    destruct (hasattr result "pages"); [|reflexivity].
    pose proof (images_subdirectory_nonempty out) as Hnonempty.
    set (sub := Cli.path_join out "images") in *.
    unfold images_directory.
    destruct (String.eqb_spec sub "") as [Hempty|_];
      [contradiction|reflexivity]. }
  intros Himages dir file data r Hstep. subst save_images.
  destruct Hstep as [Hstep|Hstep]; [discriminate|].
  apply in_app_or in Hstep as [Hstep|Hstep]; [now elim (Hmk2core _ _ Hstep)|].
  apply in_app_or in Hstep as [Hstep|Hstep].
  - apply in_map_iff in Hstep as ([c r'] & Hc & Hstep).
    unfold Cli.core_step in Hc. simpl in Hc. injection Hc as -> ->.
    destruct (@paths_start_at_ocr_pdf _ world environ pdf_path true
                (Some (Cli.path_join out "images")) []) as (evs'' & Hevs'' & Hwithin).
    rewrite Hocr in Hevs''. simpl in Hevs''. subst evs''.
    unfold paths_start_at in Hwithin. rewrite Forall_forall in Hwithin.
    specialize (Hwithin _ Hstep). cbn [fst] in Hwithin. rewrite Hwithin.
    pose proof (images_subdirectory_nonempty out) as Hnonempty.
    set (sub := Cli.path_join out "images") in *.
    unfold images_directory.
    destruct (String.eqb_spec sub "") as [Hempty|_];
      [contradiction|reflexivity].
  - apply in_app_or in Hstep as [Hstep|Hstep];
      [now elim (Hmdcore _ _ Hstep)|now elim (Hjscore _ _ Hstep)].
Qed.

Lemma results_hold_the_ocr_answer_witness :
  let name := OsPath.splitext_root (OsPath.basename "scans/doc.pdf") in
  exists (steps : list Cli.step) (result : value),
    snd (@Cli.process_and_save_results sample_builtins
           (Cli.obliging_shell sample_response) (fun _ => Some "sk-test")
           "scans/doc.pdf" true "both" [])
    = ([] ++ steps)%list /\
    "doc_ocr_results" = name ++ "_ocr_results" /\
    (exists client url,
        In (Cli.Core (OcrProcess client "mistral-ocr-latest" url), Ret result)
           steps) /\
    (Cli.format_in "both" ["markdown"; "md"; "both"] = true ->
     exists content v,
       @extract_markdown_from_result sample_builtins result true
         (if true then Some "./images" else None)
       = Ret content /\
       In (Cli.WriteText (Cli.path_join "doc_ocr_results" (name ++ ".md")) content,
           Ret v) steps) /\
    (Cli.format_in "both" ["json"; "both"] = true ->
     exists v,
       In (Cli.DumpJson (Cli.path_join "doc_ocr_results" (name ++ "_raw.json"))
             (result_dict result), Ret v) steps) /\
    Cli.images_written steps
    = (if true && hasattr result "pages"
       then @response_files sample_builtins
              (Cli.path_join "doc_ocr_results" "images") result
       else []) /\
    (true = true ->
     forall dir file data r,
       In (Cli.Core (WriteBytes dir file data), r) steps ->
       dir = Cli.path_join "doc_ocr_results" "images").
Proof.
  apply (@results_hold_the_ocr_answer sample_builtins
           (Cli.obliging_shell sample_response) (fun _ => Some "sk-test")
           "scans/doc.pdf" true "both" []).
  reflexivity.
Defined.

(** ** Edges of the image extractor and of the page sequence *)

(** X18.  A payload that does not decode leaves an empty file behind: for
    an image with non-empty base-64 data and an id, [save_images_from_ocr]'s
    loop body opens the file before decoding, so when [b64decode] raises (in
    a world where the file system cooperates) the file has been opened and
    closed with nothing written to it, and the decoder's exception goes on
    to the caller. *)
Theorem undecodable_image_leaves_empty_file `{Builtins} `{Environment}
    (output_dir : string) (image_count : nat) (img payload id : value)
    (e : exn) (h : list event) :
  cooperative ->
  truthy_attr img "image_base64" = Some payload ->
  getattr img "id" = Some id ->
  b64decode payload = Raise e ->
  exists v1 v2 : value,
    save_image output_dir image_count img h
    = (Raise e,
       (h ++ [(OpenWrite output_dir (format_value id), Ret v1);
              (CloseWrite output_dir (format_value id), Ret v2)])%list).
Proof.
  intros Hcoop Hpayload Hid Hdecode.
  unfold save_image, attr. rewrite Hpayload, Hid, Hdecode.
  unfold mbind, lift, perform, finally. cbv zeta.
  set (name := format_value id).
  destruct (Hcoop h (OpenWrite output_dir name)) as [v1 E1]. rewrite E1.
  set (h1 := (h ++ [(OpenWrite output_dir name, Ret v1)])%list).
  destruct (Hcoop h1 (CloseWrite output_dir name)) as [v2 E2]. rewrite E2.
  exists v1, v2. unfold h1. now rewrite <- app_assoc.
Qed.

Lemma undecodable_image_leaves_empty_file_witness :
  exists v1 v2 : value,
    @save_image sample_builtins (obliging VNone) "out" 0
      (VObj [("id", VStr "img1"); ("image_base64", VStr "not base64")]) []
    = (Raise (ExternalError "binascii.Error"),
       ([] ++ [(OpenWrite "out" (@format_value sample_builtins (VStr "img1")), Ret v1);
               (CloseWrite "out" (@format_value sample_builtins (VStr "img1")), Ret v2)])%list).
Proof.
  apply (@undecodable_image_leaves_empty_file sample_builtins (obliging VNone)
           "out" 0 (VObj [("id", VStr "img1"); ("image_base64", VStr "not base64")])
           (VStr "not base64") (VStr "img1") (ExternalError "binascii.Error") []).
  - intros h c. destruct c; eexists; reflexivity.
  - reflexivity.
  - reflexivity.
  - reflexivity.
Defined.

(** X19.  A page sequence that is present but cannot be iterated ([None],
    a number, an object) does not degrade to the empty document: whether it
    is the [pages] attribute of the result or the entry ["pages"] of a
    mapping, [extract_markdown_from_result] raises TypeError, and
    [save_images_from_ocr], the output directory once created, raises
    TypeError as well. *)
Theorem pages_that_cannot_be_iterated `{Builtins} `{Environment}
    (result pages : value) (include_images : bool)
    (images_dir : option string) (output_dir : string) (h : list event) :
  not_iterable pages = true ->
  (getattr result "pages" = Some pages \/
   exists entries, result = VDict entries /\ assoc "pages" entries = Some pages) ->
  extract_markdown_from_result result include_images images_dir = Raise TypeError /\
  (getattr result "pages" = Some pages ->
   forall v, respond h (Mkdir output_dir) = Ret v ->
             save_images_from_ocr result output_dir h
             = (Raise TypeError, (h ++ [(Mkdir output_dir, Ret v)])%list)).
Proof.
  intros Hpages Hwhere.
  assert (Hiter : py_iter pages = Raise TypeError)
    by (destruct pages; try discriminate; reflexivity).
  split.
  - unfold extract_markdown_from_result, collect_pages, hasattr, attr.
    destruct Hwhere as [Hattr|(entries & -> & Hentry)].
    + rewrite Hattr. cbn [bind]. now rewrite Hiter.
    + cbn [getattr]. rewrite Hentry. now rewrite Hiter.
  - intros Hattr v Hmk.
    unfold save_images_from_ocr, mbind, perform, lift, attr. cbv zeta.
    rewrite Hmk, Hattr. now rewrite Hiter.
Qed.

Lemma pages_that_cannot_be_iterated_witness :
  @extract_markdown_from_result sample_builtins (VObj [("pages", VNone)]) false None
  = Raise TypeError /\
  (getattr (VObj [("pages", VNone)]) "pages" = Some VNone ->
   forall v, @respond (obliging VNone) [] (Mkdir "out") = Ret v ->
             @save_images_from_ocr sample_builtins (obliging VNone)
               (VObj [("pages", VNone)]) "out" []
             = (Raise TypeError, ([] ++ [(Mkdir "out", Ret v)])%list)).
Proof.
  apply (@pages_that_cannot_be_iterated sample_builtins (obliging VNone)
           (VObj [("pages", VNone)]) VNone false None "out" []).
  - reflexivity.
  - left. reflexivity.
Defined.
